(** * image_adjustment: the scan / backup / transform / restore engine of app.py

    A shallow embedding of [src/app.py].  Python strings are [string],
    file contents are byte lists, the file system is explicit state that
    every operation threads through, and an exception that the source
    catches is a [result] value.

    The world of the engine is a tree of directories with their files,
    the file [service.log] that the logging set-up of lines 12-19
    appends to, kept as a component of its own, and the trace of the
    system calls made.  [shutil.copy2] is not atomic: a call that fails
    may leave a truncated or partial destination behind.

    The request handlers take the parsed JSON body: each field is
    absent, [null], or a value of the type the handler expects (a string
    for a path or a name, an integer for a dimension, a boolean for the
    flag), so that [int(width)] is the identity.  [os.walk] is modelled
    after its implementation, a loop over a stack of pending
    directories, with fuel; the lemmas of [WalkFacts] show that on a
    well-formed tree enough fuel always gives the result, which is a
    fold over the directories in preorder. *)

From Stdlib Require Import Ascii String ZArith DecimalString.
From stdpp Require Import base option list gmap strings sorting.

Set Warnings "-register-all".

Local Open Scope Z_scope.
Local Open Scope nat_scope.

(** ** Python string operations used by the source *)

Module PyStr.

(** [s.startswith(p)] *)
Fixpoint startswith (p s : string) : bool :=
  match p, s with
  | EmptyString, _ => true
  | String a p', String b s' => if Ascii.eqb a b then startswith p' s' else false
  | String _ _, EmptyString => false
  end.

(** [sep in s] *)
Fixpoint contains (sep s : string) : bool :=
  startswith sep s ||
  match s with
  | EmptyString => false
  | String _ s' => contains sep s'
  end.

(** [s.split(sep)[0]]: the part of [s] left of the first occurrence of
    [sep], the whole of [s] when [sep] does not occur.  ([sep] is never
    empty in the source; Python raises on an empty separator.) *)
Fixpoint split_head (sep s : string) : string :=
  if startswith sep s then EmptyString
  else match s with
       | EmptyString => EmptyString
       | String c s' => String c (split_head sep s')
       end.

(** [c in s] for a single character. *)
Fixpoint has_char (c : ascii) (s : string) : bool :=
  match s with
  | EmptyString => false
  | String b s' => Ascii.eqb c b || has_char c s'
  end.

(** [s.endswith(c)] for a single character. *)
Fixpoint ends_with_char (c : ascii) (s : string) : bool :=
  match s with
  | EmptyString => false
  | String b EmptyString => Ascii.eqb c b
  | String _ s' => ends_with_char c s'
  end.

(** [str(z)] for an integer. *)
Definition of_Z (z : Z) : string := NilZero.string_of_int (Z.to_int z).

(** [str(b)] for a boolean. *)
Definition of_bool (b : bool) : string := if b then "True" else "False".

End PyStr.

(** ** The backup naming scheme (lines 63, 108 and 155-157) *)

Module BackupNamer.

(** The literal [".backup_"]. *)
Definition SEP : string := ".backup_".

(** [f"{file_path}.backup_{timestamp}"] *)
Definition name_for (original timestamp : string) : string :=
  original +:+ SEP +:+ timestamp.

(** [f"{target_filename}.backup_"] *)
Definition backup_prefix (target : string) : string := target +:+ SEP.

(** [f.startswith(backup_prefix)] *)
Definition is_backup_of (candidate original : string) : bool :=
  PyStr.startswith (backup_prefix original) candidate.

(** [".backup_" in file] *)
Definition is_backup_name (file : string) : bool := PyStr.contains SEP file.

(** [file.split(".backup_")[0]] *)
Definition original_from (file : string) : string := PyStr.split_head SEP file.

End BackupNamer.

(** ** Results of operations that may raise *)

Inductive result (A : Type) : Type :=
| Ok (a : A)
| Raise (msg : string).
Arguments Ok {A} a.
Arguments Raise {A} msg.

Definition result_error {A : Type} (r : result A) : option string :=
  match r with Ok _ => None | Raise e => Some e end.

(** ** Association lists: the entries of one directory, in listing order *)

Section Assoc.
Context {A : Type}.

Fixpoint assoc_get (n : string) (l : list (string * A)) : option A :=
  match l with
  | [] => None
  | (m, a) :: l' => if decide (n = m) then Some a else assoc_get n l'
  end.

(** Overwrite the entry named [n], or add it at the end of the listing. *)
Fixpoint assoc_set (n : string) (a : A) (l : list (string * A)) : list (string * A) :=
  match l with
  | [] => [(n, a)]
  | (m, b) :: l' => if decide (n = m) then (m, a) :: l' else (m, b) :: assoc_set n a l'
  end.

Fixpoint assoc_del (n : string) (l : list (string * A)) : list (string * A) :=
  match l with
  | [] => []
  | (m, b) :: l' => if decide (n = m) then assoc_del n l' else (m, b) :: assoc_del n l'
  end.
End Assoc.

(** ** The file system

    No operation of the program creates or removes a directory
    ([shutil.copy2], [os.remove] and [Image.save] act on files), so a
    file system is a directory skeleton together with a table that maps
    the path of a directory to its file entries.  Paths are resolved
    against the skeleton component by component, the working directory
    being the root of the skeleton.  Symbolic links, permissions and
    file metadata are not represented; a failure they would cause is an
    injected fault of the environment. *)

Definition content := list Byte.byte.

Inductive skel : Type :=
| Sk (subs : list (string * skel)).

Definition subdirs (t : skel) : list (string * skel) :=
  match t with Sk subs => subs end.

Fixpoint sk_get (t : skel) (p : list string) : option skel :=
  match p with
  | [] => Some t
  | n :: p' =>
      match assoc_get n (subdirs t) with
      | Some t' => sk_get t' p'
      | None => None
      end
  end.

Record fs : Type := MkFs {
  tree : skel;
  ftab : gmap (list string) (list (string * content))
}.

Module PyPath.

Definition slash : ascii := "/"%char.

(** [os.path.join(a, b)] (posixpath). *)
Definition join (a b : string) : string :=
  if PyStr.startswith "/" b then b
  else if bool_decide (a = "") || PyStr.ends_with_char slash a then a +:+ b
  else a +:+ "/" +:+ b.

(** [os.path.basename(p)]: what follows the last slash. *)
Fixpoint basename (p : string) : string :=
  match p with
  | EmptyString => EmptyString
  | String c p' => if PyStr.has_char slash p then basename p' else p
  end.

(** [p.split("/")] *)
Fixpoint split_slash (s : string) : list string :=
  match s with
  | EmptyString => [EmptyString]
  | String c s' =>
      if Ascii.eqb c slash then EmptyString :: split_slash s'
      else match split_slash s' with
           | [] => [String c EmptyString]
           | h :: t => String c h :: t
           end
  end.

(** A component that names an entry: not empty, not [.] or [..]. *)
Definition is_entry_name (c : string) : bool :=
  negb (bool_decide (c = "") || bool_decide (c = ".") || bool_decide (c = "..")).

(** One step of path resolution from the directory [cur]. *)
Definition enter (t : skel) (cur : option (list string)) (c : string)
  : option (list string) :=
  match cur with
  | None => None
  | Some p =>
      if bool_decide (c = "") || bool_decide (c = ".") then Some p
      else if bool_decide (c = "..") then Some (removelast p)
      else match sk_get t (p ++ [c]) with
           | Some _ => Some (p ++ [c])
           | None => None
           end
  end.

Definition walk_path (t : skel) (comps : list string) : option (list string) :=
  fold_left (enter t) comps (Some []).

(** The directory a path names, if it names one. *)
Definition dir_of (t : skel) (s : string) : option (list string) :=
  if bool_decide (s = "") then None else walk_path t (split_slash s).

Fixpoint unsnoc {A} (l : list A) : option (list A * A) :=
  match l with
  | [] => None
  | [x] => Some ([], x)
  | x :: l' => match unsnoc l' with
               | Some (i, y) => Some (x :: i, y)
               | None => None
               end
  end.

(** The directory and entry name a path designates as a file: every
    component but the last must lead to a directory. *)
Definition file_loc (t : skel) (s : string) : option (list string * string) :=
  match unsnoc (split_slash s) with
  | None => None
  | Some (init, n) =>
      if is_entry_name n then
        match walk_path t init with
        | Some d => Some (d, n)
        | None => None
        end
      else None
  end.

End PyPath.

(** ** System calls on the file system *)

Module Os.

Definition files_at (f : fs) (d : list string) : list (string * content) :=
  default [] (ftab f !! d).

Definition set_files (f : fs) (d : list string) (l : list (string * content)) : fs :=
  MkFs (tree f) (<[d := l]> (ftab f)).

(** [os.path.isdir(s)] *)
Definition isdir (f : fs) (s : string) : bool :=
  bool_decide (is_Some (PyPath.dir_of (tree f) s)).

(** [os.scandir(top)], split into directory names and other names as
    [os.walk] does; [None] when [top] cannot be listed. *)
Definition scandir (f : fs) (top : string) : option (list string * list string) :=
  match PyPath.dir_of (tree f) top with
  | None => None
  | Some p =>
      match sk_get (tree f) p with
      | None => None
      | Some t => Some (map fst (subdirs t), map fst (files_at f p))
      end
  end.

Definition enoent (s : string) : string :=
  "[Errno 2] No such file or directory: '" +:+ s +:+ "'".
Definition eisdir (s : string) : string :=
  "[Errno 21] Is a directory: '" +:+ s +:+ "'".

Definition names_dir (f : fs) (d : list string) (n : string) : bool :=
  bool_decide (is_Some (sk_get (tree f) (d ++ [n]))).

(** [open(s, "rb").read()] *)
Definition read_file (f : fs) (s : string) : result content :=
  match PyPath.file_loc (tree f) s with
  | None => Raise (if isdir f s then eisdir s else enoent s)
  | Some (d, n) =>
      if names_dir f d n then Raise (eisdir s)
      else match assoc_get n (files_at f d) with
           | Some c => Ok c
           | None => Raise (enoent s)
           end
  end.

(** [open(s, "wb").write(c)] *)
Definition write_file (f : fs) (s : string) (c : content) : result fs :=
  match PyPath.file_loc (tree f) s with
  | None => Raise (if isdir f s then eisdir s else enoent s)
  | Some (d, n) =>
      if names_dir f d n then Raise (eisdir s)
      else Ok (set_files f d (assoc_set n c (files_at f d)))
  end.

(** [os.remove(s)] *)
Definition remove_file (f : fs) (s : string) : result fs :=
  match PyPath.file_loc (tree f) s with
  | None => Raise (if isdir f s then eisdir s else enoent s)
  | Some (d, n) =>
      if names_dir f d n then Raise (eisdir s)
      else match assoc_get n (files_at f d) with
           | Some _ => Ok (set_files f d (assoc_del n (files_at f d)))
           | None => Raise (enoent s)
           end
  end.

(** [os.path.samefile]-based test of [shutil.copyfile]: both paths
    name the same existing file. *)
Definition same_file (f : fs) (a b : string) : bool :=
  match PyPath.file_loc (tree f) a, PyPath.file_loc (tree f) b with
  | Some (d1, n1), Some (d2, n2) =>
      bool_decide (d1 = d2) && bool_decide (n1 = n2)
      && bool_decide (is_Some (assoc_get n1 (files_at f d1)))
  | _, _ => false
  end.

(** Where [shutil.copy2(src, dst)] writes: into [dst] when it is a
    directory. *)
Definition copy_target (f : fs) (src dst : string) : string :=
  if isdir f dst then PyPath.join dst (PyPath.basename src) else dst.

(** [shutil.copy2(src, dst)] *)
Definition copy2 (f : fs) (src dst : string) : result fs :=
  let dst' := copy_target f src dst in
  if same_file f src dst' then
    Raise ("'" +:+ src +:+ "' and '" +:+ dst' +:+ "' are the same file")
  else match read_file f src with
       | Raise e => Raise e
       | Ok c => write_file f dst' c
       end.

(** What a [shutil.copy2(src, dst)] that raises after it has opened its
    destination leaves behind.  [copyfile] opens the source, then the
    destination with mode ["wb"], which truncates it, and writes the
    data; [copystat] comes after the data.  A call that fails after
    [k] bytes were written leaves the first [k] bytes of the source at
    the destination: none of them, some of them, or all of them.  A call
    that cannot open both files writes nothing. *)
Definition copy2_cut (f : fs) (src dst : string) (k : nat) : fs :=
  let dst' := copy_target f src dst in
  if same_file f src dst' then f
  else match read_file f src with
       | Raise _ => f
       | Ok c =>
           match write_file f dst' (take k c) with
           | Ok f' => f'
           | Raise _ => f
           end
       end.

End Os.

(** ** The clock: [datetime.now().strftime("%Y%m%d%H%M%S")] *)

Record datetime : Type := MkDatetime {
  year : nat; month : nat; day : nat;
  hour : nat; minute : nat; second : nat
}.

Module Clock.

Definition digit_char (n : nat) : ascii := ascii_of_nat (48 + n mod 10).

(** The [k] low decimal digits of [n], zero padded. *)
Fixpoint fixed_width (k n : nat) : string :=
  match k with
  | O => EmptyString
  | S k' => fixed_width k' (n / 10) +:+ String (digit_char n) EmptyString
  end.

Definition strftime (d : datetime) : string :=
  fixed_width 4 (year d) +:+ fixed_width 2 (month d) +:+ fixed_width 2 (day d)
  +:+ fixed_width 2 (hour d) +:+ fixed_width 2 (minute d)
  +:+ fixed_width 2 (second d).

End Clock.

(** ** The environment and the state of the world

    The environment fixes what the program cannot control: the reading
    of the clock at each call of [datetime.now()], the faults the
    operating system injects (indexed by the number of system calls made
    so far), how far a copy that such a fault interrupts has got, and
    what PIL makes of the bytes of a file. *)

Inductive syscall : Type :=
| SysCopy (src dst : string)
| SysRemove (path : string)
| SysTransform (path : string) (width height : Z).

Record event : Type := MkEvent {
  ev_call : syscall;
  ev_error : option string
}.

(** [Image.open(..).resize(..).save(..)] on the bytes of a file: the new
    bytes, or an error together with what a started [save] left behind
    ([None]: the file was not touched). *)
Inductive pil_result : Type :=
| PilOk (new : content)
| PilFail (err : string) (leftover : option content).

(** [cut i] tells where the fault of call number [i] strikes a copy:
    [None] before the destination is opened, [Some k] after [k] bytes
    were written to it. *)
Record env : Type := MkEnv {
  clock : nat → datetime;
  fault : nat → syscall → option string;
  cut : nat → option nat;
  pil : content → Z → Z → pil_result
}.

(** The service log, lines 12-19: [logging.info] and [logging.error]
    append one record each to the file [service.log] of the working
    directory of the process (and to the console).  That one file is the
    component [w_log] of the world, the list of the records written to
    it so far; [w_fs] holds every other file.  The log file is taken to
    lie outside the directories that the requests name. *)
Inductive log_level : Type := INFO | ERROR.

Record world : Type := MkWorld {
  w_fs : fs;
  w_tick : nat;
  w_trace : list event;
  w_log : list (log_level * string)
}.

Definition with_fs (w : world) (f : fs) : world :=
  MkWorld f (w_tick w) (w_trace w) (w_log w).

Definition record_event (w : world) (c : syscall) (e : option string) : world :=
  MkWorld (w_fs w) (w_tick w) (w_trace w ++ [MkEvent c e]) (w_log w).

Definition logging (lvl : log_level) (msg : string) (w : world) : world :=
  MkWorld (w_fs w) (w_tick w) (w_trace w) (w_log w ++ [(lvl, msg)]).

(** Every file holds the bytes it held: the files of [w_fs] and the
    service log. *)
Definition files_unchanged (w w' : world) : Prop :=
  w_fs w' = w_fs w ∧ w_log w' = w_log w.

(** ** Requests, reports and loop variables *)

(** A field of the JSON body: absent, [null], or a value of the
    expected type. *)
Inductive jfield (A : Type) : Type :=
| Absent
| Null
| Val (a : A).
Arguments Absent {A}.
Arguments Null {A}.
Arguments Val {A} a.

(** [data.get(key)] *)
Definition get {A} (f : jfield A) : option A :=
  match f with Val a => Some a | _ => None end.

(** [data.get(key, default)]: [null] is a present value. *)
Definition get_default {A} (f : jfield A) (d : A) : option A :=
  match f with Absent => Some d | Null => None | Val a => Some a end.

Record scan_request : Type := MkScanRequest {
  q_folder_path : jfield string;
  q_image_name : jfield string;
  q_width : jfield Z;
  q_height : jfield Z;
  q_dry_run : jfield bool
}.

Record scan_report : Type := MkScanReport {
  r_status : string;
  r_dry_run : option bool;
  r_scanned_path : string;
  r_files_found : nat;
  r_processed : nat;
  r_logs : list string
}.

Inductive scan_response : Type :=
| ScanError (code : nat) (msg : string)
| ScanCompleted (report : scan_report).

(** The local variables of the loop of [scan_and_resize]. *)
Record scan_locals : Type := MkScanLocals {
  found_files : list string;
  processed_count : nat;
  details : list string
}.

(** The records of [scan_backups]. *)
Record backup_record : Type := MkBackupRecord {
  backup_path : string;
  original_path : string;
  filename : string
}.

Inductive backups_response : Type :=
| BackupsError (code : nat) (msg : string)
| BackupsCrash
| BackupsFound (backups : list backup_record).

(** The items and the report of [restore_files]. *)
Record restore_item : Type := MkRestoreItem {
  i_backup_path : string;
  i_original_path : string
}.

Record restore_locals : Type := MkRestoreLocals {
  restored_count : nat;
  logs : list string
}.

Record restore_report : Type := MkRestoreReport {
  rr_status : string;
  rr_restored : nat;
  rr_logs : list string
}.

Section Engine.
Variable E : env.

(** [datetime.now()] *)
Definition now (w : world) : datetime * world :=
  (clock E (w_tick w), MkWorld (w_fs w) (S (w_tick w)) (w_trace w) (w_log w)).

(** A system call that either happens or does not ([os.remove]): an
    injected fault, or the effect of [op] on the file system; the
    attempt is recorded either way. *)
Definition sys (c : syscall) (op : fs → result fs) (w : world) : result unit * world :=
  match fault E (length (w_trace w)) c with
  | Some e => (Raise e, record_event w c (Some e))
  | None =>
      match op (w_fs w) with
      | Ok f' => (Ok tt, record_event (with_fs w f') c None)
      | Raise e => (Raise e, record_event w c (Some e))
      end
  end.

(** [shutil.copy2(src, dst)], lines 69 and 181.  The call is not
    atomic: a fault may strike it after the destination was opened and
    leave a truncated, partial or complete copy behind. *)
Definition sys_copy2 (src dst : string) (w : world) : result unit * world :=
  let c := SysCopy src dst in
  match fault E (length (w_trace w)) c with
  | Some e =>
      let f' := match cut E (length (w_trace w)) with
                | None => w_fs w
                | Some k => Os.copy2_cut (w_fs w) src dst k
                end in
      (Raise e, record_event (with_fs w f') c (Some e))
  | None =>
      match Os.copy2 (w_fs w) src dst with
      | Ok f' => (Ok tt, record_event (with_fs w f') c None)
      | Raise e => (Raise e, record_event w c (Some e))
      end
  end.

Definition sys_remove (path : string) : world → result unit * world :=
  sys (SysRemove path) (fun f => Os.remove_file f path).

(** Lines 72-74: open the image, resize it and save it in place.  A
    failure may leave a partly written file behind. *)
Definition sys_transform (path : string) (width height : Z) (w : world)
  : result unit * world :=
  let c := SysTransform path width height in
  match fault E (length (w_trace w)) c with
  | Some e => (Raise e, record_event w c (Some e))
  | None =>
      match Os.read_file (w_fs w) path with
      | Raise e => (Raise e, record_event w c (Some e))
      | Ok bytes =>
          match pil E bytes width height with
          | PilOk new =>
              match Os.write_file (w_fs w) path new with
              | Ok f' => (Ok tt, record_event (with_fs w f') c None)
              | Raise e => (Raise e, record_event w c (Some e))
              end
          | PilFail e leftover =>
              let f' := match leftover with
                        | None => w_fs w
                        | Some junk =>
                            match Os.write_file (w_fs w) path junk with
                            | Ok f' => f'
                            | Raise _ => w_fs w
                            end
                        end in
              (Raise e, record_event (with_fs w f') c (Some e))
          end
      end
  end.

(** Python truth value of the [dry_run] argument ([None] is JSON null). *)
Definition truthy_flag (v : option bool) : bool := default false v.

(** [process_image(file_path, width, height, dry_run)], lines 59-78. *)
Definition process_image (file_path : string) (width height : Z)
    (dry_run : option bool) (w : world) : (bool * string) * world :=
  let '(t, w) := now w in
  let timestamp := Clock.strftime t in
  let backup_path := BackupNamer.name_for file_path timestamp in
  if truthy_flag dry_run then
    ((true, "[DRY RUN] Would backup to " +:+ PyPath.basename backup_path
             +:+ " and resize to " +:+ PyStr.of_Z width +:+ "x" +:+ PyStr.of_Z height), w)
  else
    match sys_copy2 file_path backup_path w with
    | (Raise e, w) => ((false, e), w)
    | (Ok _, w) =>
        match sys_transform file_path width height w with
        | (Raise e, w) => ((false, e), w)
        | (Ok _, w) =>
            ((true, "Success (Backup: " +:+ PyPath.basename backup_path +:+ ")"), w)
        end
    end.

(** [for root, dirs, files in os.walk(top): body]: the walk keeps a
    stack of pending directories, lists the one it pops when it
    reaches it, and pushes its subdirectories once the body has run.
    A directory that cannot be listed is passed over.  [None]: the
    fuel ran out. *)
Fixpoint for_os_walk {A : Type} (fuel : nat) (stack : list string)
    (body : string → list string → list string → world * A → world * A)
    (st : world * A) : option (world * A) :=
  match stack with
  | [] => Some st
  | top :: rest =>
      match fuel with
      | O => None
      | S fuel' =>
          match Os.scandir (w_fs st.1) top with
          | None => for_os_walk fuel' rest body st
          | Some (dirs, nondirs) =>
              let st' := body top dirs nondirs st in
              for_os_walk fuel' (map (PyPath.join top) dirs ++ rest) body st'
          end
      end
  end.


(** *** [scan_and_resize] *)

(** Python truth values of the required fields. *)
Definition truthy_str (v : option string) : bool :=
  match v with Some s => negb (bool_decide (s = "")) | None => false end.
Definition truthy_int (v : option Z) : bool :=
  match v with Some z => negb (Z.eqb z 0) | None => false end.

(** [any(f.startswith(backup_prefix) for f in files)] *)
Definition has_backup (target : string) (files : list string) : bool :=
  existsb (fun f => BackupNamer.is_backup_of f target) files.

(** [target_filename in files] *)
Definition name_in (target : string) (files : list string) : bool :=
  bool_decide (target ∈ files).

(** The body of the loop, lines 104-130. *)
Definition scan_body (target : string) (width height : Z) (dry_run : option bool)
    (root : string) (dirs files : list string) (st : world * scan_locals)
  : world * scan_locals :=
  let '(w, l) := st in
  if name_in target files then
    let full_path := PyPath.join root target in
    if has_backup target files then
      let msg := "Skipped (Backup already exists)" in
      let w := logging INFO ("Skipping " +:+ full_path +:+ " because a backup was found.") w in
      (w, MkScanLocals (found_files l ++ [full_path]) (processed_count l)
            (details l ++ ["[SKIPPED] " +:+ full_path +:+ " -> " +:+ msg]))
    else
      let '((success, msg), w) := process_image full_path width height dry_run w in
      let status_str := if success then "OK" else "FAIL" in
      let line := "[" +:+ status_str +:+ "] " +:+ full_path +:+ " -> " +:+ msg in
      if success then
        (logging INFO ("Processed: " +:+ full_path +:+ " - " +:+ msg) w,
         MkScanLocals (found_files l ++ [full_path]) (S (processed_count l))
           (details l ++ [line]))
      else
        (logging ERROR ("Failed: " +:+ full_path +:+ " - " +:+ msg) w,
         MkScanLocals (found_files l ++ [full_path]) (processed_count l)
           (details l ++ [line]))
  else st.

Definition flag_text (v : option bool) : string :=
  match v with Some b => PyStr.of_bool b | None => "None" end.

(** [scan_and_resize()], lines 81-141, on the parsed request body. *)
Definition scan_and_resize (fuel : nat) (data : scan_request) (w : world)
  : option (scan_response * world) :=
  let folder_path := get (q_folder_path data) in
  let target_filename := get (q_image_name data) in
  let width := get (q_width data) in
  let height := get (q_height data) in
  let dry_run := get_default (q_dry_run data) false in
  match folder_path, target_filename, width, height with
  | Some folder, Some target, Some wd, Some ht =>
      if negb (truthy_str folder_path && truthy_str target_filename
               && truthy_int width && truthy_int height) then
        Some (ScanError 400 "Missing required fields", w)
      else if negb (Os.isdir (w_fs w) folder) then
        Some (ScanError 404 "Directory does not exist", w)
      else
        let w := logging INFO ("Scan started in " +:+ folder +:+ ". Dry Run: "
                               +:+ flag_text dry_run) w in
        match for_os_walk fuel [folder] (scan_body target wd ht dry_run)
                (w, MkScanLocals [] 0 []) with
        | None => None
        | Some (w, l) =>
            Some (ScanCompleted
                    (MkScanReport "completed" dry_run folder
                       (length (found_files l)) (processed_count l) (details l)), w)
        end
  | _, _, _, _ => Some (ScanError 400 "Missing required fields", w)
  end.

(** *** The catalogue of backups, lines 144-164 *)

(** The inner loop over the files of one directory. *)
Definition catalog_files (root : string) (files : list string)
    (backups : list backup_record) : list backup_record :=
  fold_left (fun acc file =>
               if BackupNamer.is_backup_name file then
                 acc ++ [MkBackupRecord (PyPath.join root file)
                           (PyPath.join root (BackupNamer.original_from file)) file]
               else acc) files backups.

Definition catalog_body (root : string) (dirs files : list string)
    (st : world * list backup_record) : world * list backup_record :=
  (st.1, catalog_files root files st.2).

(** [scan_backups()].  A body without a string [folder_path] makes
    [os.path.isdir] raise; nothing catches it. *)
Definition scan_backups (fuel : nat) (folder_path : jfield string) (w : world)
  : option (backups_response * world) :=
  match get folder_path with
  | None => Some (BackupsCrash, w)
  | Some folder =>
      if negb (Os.isdir (w_fs w) folder) then
        Some (BackupsError 404 "Directory does not exist", w)
      else
        match for_os_walk fuel [folder] catalog_body (w, []) with
        | None => None
        | Some (w, backups) => Some (BackupsFound backups, w)
        end
  end.

(** *** Restore, lines 167-191 *)

(** The body of the loop over the items, lines 176-189. *)
Definition restore_body (st : world * restore_locals) (item : restore_item)
  : world * restore_locals :=
  let '(w, l) := st in
  let backup := i_backup_path item in
  let original := i_original_path item in
  match sys_copy2 backup original w with
  | (Raise e, w) =>
      (w, MkRestoreLocals (restored_count l)
            (logs l ++ ["Error restoring " +:+ backup +:+ ": " +:+ e]))
  | (Ok _, w) =>
      match sys_remove backup w with
      | (Raise e, w) =>
          (w, MkRestoreLocals (restored_count l)
                (logs l ++ ["Error restoring " +:+ backup +:+ ": " +:+ e]))
      | (Ok _, w) =>
          (w, MkRestoreLocals (S (restored_count l))
                (logs l ++ ["Restored & Deleted Backup: " +:+ PyPath.basename original]))
      end
  end.

Definition restore_files (files_to_restore : list restore_item) (w : world)
  : restore_report * world :=
  let '(w, l) := fold_left restore_body files_to_restore (w, MkRestoreLocals 0 []) in
  (MkRestoreReport "completed" (restored_count l) (logs l), w).

End Engine.

(** ** The directory walk as a traversal of the skeleton

    What [os.walk] yields on a well-formed skeleton: each directory
    before its subdirectories, in listing order, with the path string
    the walk builds for it and the names of its subdirectories. *)

Definition valid_name (n : string) : bool :=
  PyPath.is_entry_name n && negb (PyStr.has_char PyPath.slash n).

(** Entry names are proper names and no two entries of a directory
    share one. *)
Fixpoint wf_skel (t : skel) : bool :=
  match t with
  | Sk subs =>
      forallb valid_name (map fst subs)
      && bool_decide (NoDup (map fst subs))
      && forallb (fun nt => let '(_, t') := nt in wf_skel t') subs
  end.

Fixpoint tree_walk (top : string) (t : skel) : list (string * list string) :=
  match t with
  | Sk subs =>
      (top, map fst subs)
      :: (fix go (l : list (string * skel)) : list (string * list string) :=
            match l with
            | [] => []
            | (n, t') :: l' => tree_walk (PyPath.join top n) t' ++ go l'
            end) subs
  end.

(** The walk of a stack of pending directories. *)
Definition walk_forest (ps : list (string * skel)) : list (string * list string) :=
  flat_map (fun st => tree_walk st.1 st.2) ps.

(** [s] names the directory [t] of the skeleton [sk]. *)
Definition resolves (sk : skel) (s : string) (t : skel) : Prop :=
  ∃ p, PyPath.dir_of sk s = Some p ∧ sk_get sk p = Some t.

(** The directories under [top], as the walk visits them. *)
Definition walk_dirs (f : fs) (top : string) : list (string * list string) :=
  match PyPath.dir_of (tree f) top with
  | None => []
  | Some p =>
      match sk_get (tree f) p with
      | None => []
      | Some t => tree_walk top t
      end
  end.

(** The fuel that walking from [top] needs: one unit for each directory. *)
Definition walk_cost (f : fs) (top : string) : nat := length (walk_dirs f top).

(** The file names [os.walk] reports for a directory. *)
Definition files_of (f : fs) (top : string) : list string :=
  match Os.scandir f top with
  | Some (_, files) => files
  | None => []
  end.

(** The pending directories that visiting [top] pushes. *)
Definition children (top : string) (t : skel) : list (string * skel) :=
  map (fun nt => (PyPath.join top nt.1, nt.2)) (subdirs t).

(** One iteration of a loop over [os.walk]: the files of the directory
    are listed when it is reached. *)
Definition visit {A : Type}
    (body : string → list string → list string → world * A → world * A)
    (st : world * A) (d : string * list string) : world * A :=
  body d.1 d.2 (files_of (w_fs st.1) d.1) st.

(** ** Reading a trace of system calls *)

Definition is_ok_remove (e : event) : bool :=
  match e with
  | MkEvent (SysRemove _) None => true
  | _ => false
  end.

(** The number of deletions that succeeded. *)
Definition ok_removes (evs : list event) : nat :=
  length (List.filter is_ok_remove evs).

(** Every attempt to delete a file comes right after a successful copy
    of that very file; [prev] is the event before the first of [evs]. *)
Fixpoint removes_guarded (prev : option event) (evs : list event) : bool :=
  match evs with
  | [] => true
  | e :: evs' =>
      match ev_call e with
      | SysRemove p =>
          match prev with
          | Some (MkEvent (SysCopy src _) None) => bool_decide (src = p)
          | _ => false
          end
      | _ => true
      end && removes_guarded (Some e) evs'
  end.


(** ** Reading a scan report *)

(** A log line carries one of the three outcome tags. *)
Definition tagged (line : string) : bool :=
  PyStr.startswith "[OK] " line || PyStr.startswith "[SKIPPED] " line
  || PyStr.startswith "[FAIL] " line.

Definition ok_lines (lines : list string) : nat :=
  length (List.filter (PyStr.startswith "[OK] ") lines).

(** The log line of an outcome of [process_image]. *)
Definition outcome_line (full_path : string) (outcome : bool * string) : string :=
  "[" +:+ (if outcome.1 then "OK" else "FAIL") +:+ "] " +:+ full_path +:+ " -> "
  +:+ outcome.2.

Definition skipped_line (full_path : string) : string :=
  "[SKIPPED] " +:+ full_path +:+ " -> " +:+ "Skipped (Backup already exists)".

(** The directory [d] of the walk holds the target file. *)
Definition is_match (f : fs) (target : string) (d : string * list string) : bool :=
  name_in target (files_of f d.1).

(** ... and no file of [d] is a backup of it. *)
Definition lacks_backup (f : fs) (target : string) (d : string * list string) : bool :=
  is_match f target d && negb (has_backup target (files_of f d.1)).

(** The world in which the loop of [scan_and_resize] starts. *)
Definition scan_start (folder : string) (dry_run : option bool) (w : world) : world :=
  logging INFO ("Scan started in " +:+ folder +:+ ". Dry Run: " +:+ flag_text dry_run) w.

Definition report_of (dry_run : option bool) (folder : string) (l : scan_locals)
  : scan_report :=
  MkScanReport "completed" dry_run folder (length (found_files l))
    (processed_count l) (details l).

(** What every iteration keeps true of the loop variables. *)
Definition scan_inv (l : scan_locals) : Prop :=
  length (found_files l) = length (details l)
  ∧ Forall (fun line => tagged line = true) (details l)
  ∧ processed_count l = ok_lines (details l).

(** The catalogue as the specification words it: one record for every
    file, of every directory of the walk, whose name contains the
    marker. *)
Definition find_backups_spec (f : fs) (folder : string) : list backup_record :=
  flat_map (fun d : string * list string =>
              map (fun file => MkBackupRecord (PyPath.join d.1 file)
                                 (PyPath.join d.1 (BackupNamer.original_from file)) file)
                (List.filter BackupNamer.is_backup_name (files_of f d.1)))
    (walk_dirs f folder).

(** ** Scanning twice *)

(** The tree under [folder] holds the target in exactly one directory
    [d] of the walk, and no entry of [d], file or subdirectory, is
    named like a backup of the target. *)
Definition one_match_no_backup (f : fs) (folder target : string)
    (d : string * list string) : Prop :=
  List.filter (is_match f target) (walk_dirs f folder) = [d]
  ∧ has_backup target (files_of f d.1) = false
  ∧ has_backup target d.2 = false.

(** Two scans in succession with the same request: the first finds one
    file and processes it, the second finds it again and skips it. *)
Definition rescan_is_idempotent (E : env) (fuel : nat) (data : scan_request)
    (w : world) : Prop :=
  ∃ r1 w1 r2 w2 line1 line2,
    scan_and_resize E fuel data w = Some (ScanCompleted r1, w1)
    ∧ scan_and_resize E fuel data w1 = Some (ScanCompleted r2, w2)
    ∧ r_files_found r1 = 1 ∧ r_processed r1 = 1
    ∧ r_logs r1 = [line1] ∧ PyStr.startswith "[OK] " line1 = true
    ∧ r_files_found r2 = 1 ∧ r_processed r2 = 0
    ∧ r_logs r2 = [line2] ∧ PyStr.startswith "[SKIPPED] " line2 = true.

(** ** A small world to run the engine on

    Two directories [a] and [b] under the root; PIL accepts the bytes
    of a file that starts with the PNG magic byte and rejects the rest;
    the clock stands still and no fault is injected. *)

Module Sample.
Import Byte.

Definition png : content := [x89; x50; x4e; x47].
Definition text : content := [x68; x69].

Definition pil_png (c : content) (width height : Z) : pil_result :=
  match c with
  | x89 :: _ =>
      if (0 <? width)%Z && (0 <? height)%Z then PilOk (c ++ [x00])
      else PilFail "height and width must be > 0" None
  | _ => PilFail "cannot identify image file" None
  end.

Definition noon : datetime := MkDatetime 2026 11 4 12 0 0.

Definition quiet : env := MkEnv (fun _ => noon) (fun _ _ => None) (fun _ => None) pil_png.

(** The same, except that [os.remove] is refused. *)
Definition no_delete : env :=
  MkEnv (fun _ => noon)
    (fun _ c => match c with
                | SysRemove _ => Some "[Errno 13] Permission denied"
                | _ => None
                end)
    (fun _ => None) pil_png.

(** The disk is full: every copy fails once its destination is open,
    with nothing written. *)
Definition disk_full : env :=
  MkEnv (fun _ => noon)
    (fun _ c => match c with
                | SysCopy _ _ => Some "[Errno 28] No space left on device"
                | _ => None
                end)
    (fun _ => Some 0) pil_png.

Definition two_dirs : skel := Sk [("a", Sk []); ("b", Sk [])].

Definition start (entries : list (list string * list (string * content))) : world :=
  MkWorld (MkFs two_dirs (list_to_map entries)) 0 [] [].

(** [a/photo.png] and [b/photo.png], no backup. *)
Definition fresh : world :=
  start [(["a"], [("photo.png", png)]); (["b"], [("photo.png", png)])].

(** [a/photo.png] alone. *)
Definition single : world := start [(["a"], [("photo.png", png)])].

(** [a/photo.png] is not an image. *)
Definition not_an_image : world := start [(["a"], [("photo.png", text)])].

(** [a/photo.png] has a backup in [b], [b/photo.png] has one next to it. *)
Definition backed_up : world :=
  start [(["a"], [("photo.png", png)]);
         (["b"], [("photo.png", png); ("photo.png.backup_20250101000000", png);
                  ("notes.backup_old.txt", text); ("readme.txt", text)])].

Definition request (dry : jfield bool) : scan_request :=
  MkScanRequest (Val "/") (Val "photo.png") (Val 100%Z) (Val 100%Z) dry.

End Sample.

(** ** The system calls of a scan *)

(** A scan never deletes, and it attempts a transform only right after a
    successful backup copy of the same file; [prev] is the event before
    the first of [evs]. *)
Fixpoint scan_calls_guarded (prev : option event) (evs : list event) : bool :=
  match evs with
  | [] => true
  | e :: evs' =>
      match ev_call e with
      | SysCopy _ _ => true
      | SysRemove _ => false
      | SysTransform p _ _ =>
          match prev with
          | Some (MkEvent (SysCopy src _) None) => bool_decide (src = p)
          | _ => false
          end
      end && scan_calls_guarded (Some e) evs'
  end.

Definition skipped_lines (lines : list string) : nat :=
  length (List.filter (PyStr.startswith "[SKIPPED] ") lines).





(** ** The folder picker, lines 27-57 *)

Module Browse.

(** [p[:p.rfind("/") + 1]]: the path up to and with its last slash. *)
Fixpoint head_of (p : string) : string :=
  match p with
  | EmptyString => EmptyString
  | String c p' =>
      if PyStr.has_char PyPath.slash p then String c (head_of p') else EmptyString
  end.

(** [head == "/" * len(head)] *)
Fixpoint all_slashes (s : string) : bool :=
  match s with
  | EmptyString => true
  | String c s' => Ascii.eqb c PyPath.slash && all_slashes s'
  end.

(** [head.rstrip("/")] *)
Fixpoint rstrip_slash (s : string) : string :=
  match s with
  | EmptyString => EmptyString
  | String c s' =>
      let r := rstrip_slash s' in
      if Ascii.eqb c PyPath.slash && bool_decide (r = "") then EmptyString
      else String c r
  end.

(** [os.path.dirname(p)] (posixpath). *)
Definition dirname (p : string) : string :=
  let head := head_of p in
  if negb (bool_decide (head = "")) && negb (all_slashes head) then rstrip_slash head
  else head.

(** What the folder picker cannot control: the home directory of the
    user, and the directories that may not be listed. *)
Record browse_env : Type := MkBrowseEnv {
  home : string;
  unreadable : list string → bool
}.

(** [os.listdir(top)] *)
Inductive listing : Type :=
| Listed (names : list string)
| PermissionDenied
| NotListable.

Definition listdir (B : browse_env) (f : fs) (top : string) : listing :=
  match PyPath.dir_of (tree f) top with
  | None => NotListable
  | Some p =>
      if unreadable B p then PermissionDenied
      else match Os.scandir f top with
           | Some (dirs, files) => Listed (dirs ++ files)
           | None => NotListable
           end
  end.

Inductive browse_response : Type :=
| BrowseError (code : nat) (msg : string) (path : option string)
| BrowseCrash
| BrowseListing (current_path parent_path : string) (folders : list string).

(** Lines 31-35: the requested path, or the home directory when there
    is none. *)
Definition requested_path (B : browse_env) (path : jfield string) : string :=
  match get path with
  | Some s => if truthy_str (Some s) then s else home B
  | None => home B
  end.

(** The loop of lines 43-46. *)
Definition collect_folders (f : fs) (current_path : string) (items : list string)
  : list string :=
  fold_left (fun folders item =>
               let full_path := PyPath.join current_path item in
               if Os.isdir f full_path then folders ++ [item] else folders)
    items [].

(** [browse_filesystem()] on the parsed request body.  Only a
    [PermissionError] is caught. *)
Definition browse_filesystem (B : browse_env) (path : jfield string) (f : fs)
  : browse_response :=
  let current_path := requested_path B path in
  if negb (Os.isdir f current_path) then BrowseError 400 "Invalid directory" None
  else match listdir B f current_path with
       | PermissionDenied => BrowseError 403 "Permission denied" (Some current_path)
       | NotListable => BrowseCrash
       | Listed items =>
           BrowseListing current_path (dirname current_path)
             (merge_sort String.le (collect_folders f current_path items))
       end.

(** A home directory and no restriction, for the sample tree. *)
Definition at_root : browse_env := MkBrowseEnv "/" (fun _ => false).

End Browse.

(** * Properties *)

(** ** Strings *)

Module PyStrFacts.
Import PyStr.

Lemma app_nil_l (b : string) : "" +:+ b = b.
Proof. reflexivity. Qed.

Lemma app_cons (c : ascii) (a b : string) : String c a +:+ b = String c (a +:+ b).
Proof. reflexivity. Qed.

Lemma app_assoc (a b c : string) : (a +:+ b) +:+ c = a +:+ b +:+ c.
Proof.
  induction a as [|x a IH]; [done |].
  rewrite !app_cons. by f_equal.
Qed.

Lemma app_nil_r (a : string) : a +:+ "" = a.
Proof.
  induction a as [|x a IH]; [done |].
  rewrite app_cons. by f_equal.
Qed.

Lemma startswith_app (p s : string) : startswith p (p +:+ s) = true.
Proof.
  induction p as [|x p IH]; [done |].
  rewrite app_cons. cbn [startswith]. by rewrite Ascii.eqb_refl.
Qed.

Lemma startswith_inv (p s : string) :
  startswith p s = true → ∃ r, s = p +:+ r.
Proof.
  revert s. induction p as [|x p IH]; intros s H; simpl in *.
  - by exists s.
  - destruct s as [|y s]; [done |].
    destruct (Ascii.eqb_spec x y) as [->|]; [| done].
    destruct (IH _ H) as [r ->]. by exists r.
Qed.

(** A pattern free of the character [d] cannot match across the
    boundary of [x] and a continuation that starts with [d]. *)
Lemma startswith_before_char (d : ascii) (p x rest : string) :
  has_char d p = false →
  startswith p x = false →
  startswith p (x +:+ String d rest) = false.
Proof.
  revert p. induction x as [|c x IH]; intros p Hd Hp.
  - destruct p as [|a p]; [done |].
    rewrite app_nil_l. cbn [startswith has_char] in *.
    apply orb_false_iff in Hd as [Hd _].
    rewrite Ascii.eqb_sym. by rewrite Hd.
  - destruct p as [|a p]; [done |].
    rewrite app_cons. cbn [startswith has_char] in *.
    apply orb_false_iff in Hd as [_ Hd].
    destruct (Ascii.eqb a c); [by apply IH | done].
Qed.

(** A separator whose first character does not occur again in it
    does not overlap itself. *)
Lemma startswith_no_overlap (d : ascii) (r x t : string) :
  has_char d r = false →
  x ≠ "" →
  startswith (String d r) x = false →
  startswith (String d r) (x +:+ String d r +:+ t) = false.
Proof.
  intros Hd Hne H. destruct x as [|c x]; [done |].
  rewrite !app_cons. cbn [startswith] in *.
  destruct (Ascii.eqb d c); [| done].
  by apply startswith_before_char.
Qed.

Lemma contains_cons (sep : string) (c : ascii) (s : string) :
  contains sep (String c s) = false →
  startswith sep (String c s) = false ∧ contains sep s = false.
Proof. cbn [contains]. intros H. by apply orb_false_iff in H. Qed.

End PyStrFacts.

(** ** The naming scheme *)

Module BackupNamerFacts.
Import PyStr BackupNamer PyStrFacts.

(** The separator does not overlap itself: an occurrence of it cannot
    start inside a name and run into the separator that follows. *)
Lemma sep_no_overlap (x t : string) :
  x ≠ "" →
  startswith SEP x = false →
  startswith SEP (x +:+ SEP +:+ t) = false.
Proof. by apply (startswith_no_overlap "." "backup_"). Qed.

End BackupNamerFacts.

(** ** Paths *)

Module PyPathFacts.
Import PyStr PyPath PyStrFacts.

Lemma has_char_app (c : ascii) (a b : string) :
  has_char c (a +:+ b) = has_char c a || has_char c b.
Proof.
  induction a as [|x a IH]; [done |].
  rewrite app_cons. cbn [has_char]. by rewrite IH, orb_assoc.
Qed.

Lemma split_slash_nonempty (a : string) : split_slash a ≠ [].
Proof.
  destruct a as [|x a]; [done |]. cbn [split_slash].
  destruct (Ascii.eqb x slash); [done |]. by destruct (split_slash a).
Qed.

Lemma split_slash_app (a b : string) :
  split_slash (a +:+ String slash b) = split_slash a ++ split_slash b.
Proof.
  induction a as [|x a IH].
  - rewrite app_nil_l. cbn [split_slash]. by rewrite Ascii.eqb_refl.
  - rewrite app_cons. cbn [split_slash]. rewrite IH.
    destruct (Ascii.eqb x slash); [done |].
    pose proof (split_slash_nonempty a).
    by destruct (split_slash a).
Qed.

Lemma split_slash_plain (n : string) :
  has_char slash n = false → split_slash n = [n].
Proof.
  induction n as [|x n IH]; [done |].
  cbn [has_char split_slash]. intros [Hx Hn]%orb_false_iff.
  rewrite Ascii.eqb_sym, Hx. by rewrite IH.
Qed.

Lemma ends_with_char_inv (c : ascii) (s : string) :
  ends_with_char c s = true → ∃ s0, s = s0 +:+ String c "".
Proof.
  induction s as [|x s IH]; [done |].
  destruct s as [|y s].
  - cbn [ends_with_char]. intros ->%Ascii.eqb_eq. by exists "".
  - intros H. destruct IH as [s0 Hs0]; [exact H |].
    exists (String x s0). by rewrite app_cons, <- Hs0.
Qed.

Lemma unsnoc_snoc {A} (l : list A) (x : A) : unsnoc (l ++ [x]) = Some (l, x).
Proof.
  induction l as [|y l IH]; [done |].
  cbn [app unsnoc]. destruct (l ++ [x]) eqn:Hl.
  - by destruct l.
  - by rewrite IH.
Qed.

Lemma valid_name_inv (n : string) :
  valid_name n = true →
  n ≠ "" ∧ n ≠ "." ∧ n ≠ ".." ∧ has_char slash n = false.
Proof.
  unfold valid_name, is_entry_name.
  rewrite andb_true_iff, !negb_true_iff, !orb_false_iff.
  intros [[[H1 H2] H3] H4].
  apply bool_decide_eq_false in H1, H2, H3. done.
Qed.

Lemma valid_name_entry (n : string) : valid_name n = true → is_entry_name n = true.
Proof. unfold valid_name. by intros [? _]%andb_true_iff. Qed.

Lemma valid_name_no_lead (n : string) :
  valid_name n = true → startswith "/" n = false.
Proof.
  intros (Hne & _ & _ & Hs)%valid_name_inv.
  destruct n as [|x n]; [done |].
  cbn [has_char startswith] in *. apply orb_false_iff in Hs as [Hs _].
  unfold slash in Hs. by rewrite Hs.
Qed.

Lemma walk_path_snoc (t : skel) (cs : list string) (c : string) :
  walk_path t (cs ++ [c]) = enter t (walk_path t cs) c.
Proof. unfold walk_path. by rewrite fold_left_app. Qed.

Lemma enter_name (t : skel) (p : list string) (n : string) :
  is_entry_name n = true →
  enter t (Some p) n
  = match sk_get t (p ++ [n]) with Some _ => Some (p ++ [n]) | None => None end.
Proof.
  unfold is_entry_name, enter.
  rewrite negb_true_iff, !orb_false_iff. intros [[-> ->] ->]. done.
Qed.

(** The components of [join top n] are those of [top] followed by
    [n], up to an empty component that resolution ignores. *)
Lemma join_components (t : skel) (top n : string) (p : list string) :
  dir_of t top = Some p →
  valid_name n = true →
  ∃ cs, split_slash (join top n) = cs ++ [n] ∧ walk_path t cs = Some p.
Proof.
  unfold dir_of. case_bool_decide as Htop; [done |]. intros Hp Hn.
  pose proof (valid_name_no_lead _ Hn) as Hlead.
  apply valid_name_inv in Hn as (_ & _ & _ & Hs).
  unfold join. rewrite Hlead.
  rewrite bool_decide_eq_false_2 by done. cbn [orb].
  destruct (ends_with_char slash top) eqn:He.
  - apply ends_with_char_inv in He as [s0 ->].
    rewrite app_assoc, app_cons, app_nil_l.
    rewrite split_slash_app in *. rewrite (split_slash_plain n) by done.
    exists (split_slash s0). split; [done |].
    change (split_slash "") with [""] in Hp.
    rewrite walk_path_snoc in Hp.
    by destruct (walk_path t (split_slash s0)).
  - change ("/" +:+ n) with (String slash n).
    rewrite split_slash_app, (split_slash_plain n) by done.
    by exists (split_slash top).
Qed.

Lemma join_nonempty (top n : string) : n ≠ "" → join top n ≠ "".
Proof.
  unfold join. intros Hn.
  destruct (startswith "/" n); [done |].
  destruct (_ || _); destruct top; rewrite ?app_nil_l, ?app_cons; done.
Qed.

Lemma dir_of_join (t : skel) (top n : string) (p : list string) :
  dir_of t top = Some p →
  valid_name n = true →
  dir_of t (join top n)
  = match sk_get t (p ++ [n]) with Some _ => Some (p ++ [n]) | None => None end.
Proof.
  intros Hp Hn.
  destruct (join_components _ _ _ _ Hp Hn) as (cs & Hcs & Hw).
  unfold dir_of. rewrite bool_decide_eq_false_2.
  - rewrite Hcs, walk_path_snoc, Hw.
    by apply enter_name, valid_name_entry.
  - apply join_nonempty. by apply valid_name_inv in Hn as [? _].
Qed.

Lemma file_loc_join (t : skel) (top n : string) (p : list string) :
  dir_of t top = Some p →
  valid_name n = true →
  file_loc t (join top n) = Some (p, n).
Proof.
  intros Hp Hn.
  destruct (join_components _ _ _ _ Hp Hn) as (cs & Hcs & Hw).
  unfold file_loc. rewrite Hcs, unsnoc_snoc, Hw.
  by rewrite (valid_name_entry _ Hn).
Qed.

Lemma join_app (top n x : string) :
  n ≠ "" → join top (n +:+ x) = join top n +:+ x.
Proof.
  intros Hn. unfold join. destruct n as [|c n]; [done |].
  rewrite app_cons. cbn [startswith].
  destruct (Ascii.eqb "/" c); [by rewrite app_cons |].
  destruct (_ || _); by rewrite !app_assoc, ?app_cons.
Qed.

End PyPathFacts.

(** ** Timestamps and backup names *)

Module ClockFacts.
Import PyStr PyPath PyStrFacts PyPathFacts Clock.

Lemma digit_char_not_slash (n : nat) : Ascii.eqb slash (digit_char n) = false.
Proof.
  unfold digit_char.
  assert (n mod 10 < 10) as Hk by (apply Nat.mod_upper_bound; lia).
  revert Hk. generalize (n mod 10). intros k Hk.
  do 10 (destruct k as [|k]; [reflexivity |]). lia.
Qed.

Lemma fixed_width_no_slash (k n : nat) : has_char slash (fixed_width k n) = false.
Proof.
  revert n. induction k as [|k IH]; intros n; [done |].
  cbn [fixed_width]. rewrite has_char_app, IH. cbn [has_char orb].
  by rewrite digit_char_not_slash.
Qed.

Lemma strftime_no_slash (d : datetime) : has_char slash (strftime d) = false.
Proof.
  unfold strftime. by rewrite !has_char_app, !fixed_width_no_slash.
Qed.

Lemma length_app (a b : string) :
  String.length (a +:+ b) = String.length a + String.length b.
Proof.
  induction a as [|x a IH]; [done |].
  rewrite app_cons. cbn [String.length]. by rewrite IH.
Qed.

(** The name of a backup is a proper entry name. *)
Lemma valid_name_backup (target ts : string) :
  valid_name target = true →
  has_char slash ts = false →
  valid_name (target +:+ BackupNamer.SEP +:+ ts) = true.
Proof.
  intros (_ & _ & _ & Hs)%valid_name_inv Hts.
  assert (8 ≤ String.length (target +:+ BackupNamer.SEP +:+ ts)) as Hlen.
  { rewrite !length_app. cbn. lia. }
  unfold valid_name, is_entry_name.
  rewrite !has_char_app, Hs, Hts.
  rewrite !bool_decide_eq_false_2; [done | | |];
    intros Heq; rewrite Heq in Hlen; cbn in Hlen; lia.
Qed.

Lemma backup_is_backup_of (target ts : string) :
  BackupNamer.is_backup_of (target +:+ BackupNamer.SEP +:+ ts) target = true.
Proof.
  unfold BackupNamer.is_backup_of, BackupNamer.backup_prefix.
  rewrite <- app_assoc. apply startswith_app.
Qed.

End ClockFacts.

(** ** The skeleton and the walk *)

Module WalkFacts.
Import PyPath PyPathFacts.

Lemma skel_ind' (P : skel → Prop) :
  (∀ subs, Forall (fun nt => P nt.2) subs → P (Sk subs)) → ∀ t, P t.
Proof.
  intros H. fix IH 1. intros [subs]. apply H.
  induction subs as [|[n t] l IHl]; constructor; [apply IH | apply IHl].
Qed.

Lemma wf_skel_inv (subs : list (string * skel)) :
  wf_skel (Sk subs) = true →
  Forall (fun n => valid_name n = true) (map fst subs)
  ∧ NoDup (map fst subs)
  ∧ Forall (fun nt => wf_skel nt.2 = true) subs.
Proof.
  cbn [wf_skel]. rewrite !andb_true_iff, bool_decide_eq_true.
  intros [[H1 H2] H3]. split_and!; [| done |].
  - apply Forall_forall. intros n Hn%list_elem_of_In.
    by eapply forallb_forall in H1.
  - apply Forall_forall. intros [n t] Hn%list_elem_of_In.
    rewrite forallb_forall in H3. exact (H3 _ Hn).
Qed.

Lemma assoc_get_elem {A} (n : string) (a : A) (l : list (string * A)) :
  NoDup (map fst l) → (n, a) ∈ l → assoc_get n l = Some a.
Proof.
  induction l as [|[m b] l IH]; [by intros _ ?%elem_of_nil |].
  cbn [map fst assoc_get]. intros [Hm Hnd]%NoDup_cons [Heq|Hin]%elem_of_cons.
  - injection Heq as -> ->. by rewrite decide_True.
  - rewrite decide_False; [by apply IH |].
    intros ->. apply Hm. apply list_elem_of_fmap. by exists (m, a).
Qed.

Lemma assoc_get_Some_elem {A} (n : string) (a : A) (l : list (string * A)) :
  assoc_get n l = Some a → (n, a) ∈ l.
Proof.
  induction l as [|[m b] l IH]; [done |]. cbn [assoc_get].
  case_decide as Hn.
  - intros [= ->]. subst. apply elem_of_cons. by left.
  - intros H. apply elem_of_cons. right. by apply IH.
Qed.

Lemma sk_get_snoc (t : skel) (p : list string) (n : string) :
  sk_get t (p ++ [n])
  = match sk_get t p with
    | Some t0 => assoc_get n (subdirs t0)
    | None => None
    end.
Proof.
  revert t. induction p as [|m p IH]; intros t; cbn [app sk_get].
  - by destruct (assoc_get n (subdirs t)).
  - destruct (assoc_get m (subdirs t)); [apply IH | done].
Qed.

Lemma wf_skel_get (t t' : skel) (p : list string) :
  wf_skel t = true → sk_get t p = Some t' → wf_skel t' = true.
Proof.
  revert t. induction p as [|m p IH]; intros t Hwf; cbn [sk_get].
  - by intros [= <-].
  - destruct (assoc_get m (subdirs t)) as [t0|] eqn:Hm; [| done].
    apply IH. destruct t as [subs].
    apply wf_skel_inv in Hwf as (_ & _ & Hall).
    apply assoc_get_Some_elem in Hm.
    rewrite Forall_forall in Hall. exact (Hall _ Hm).
Qed.

Lemma resolves_child (sk t t' : skel) (s n : string) :
  wf_skel sk = true →
  resolves sk s t →
  (n, t') ∈ subdirs t →
  resolves sk (join s n) t'.
Proof.
  intros Hwf (p & Hp & Ht) Hin.
  pose proof (wf_skel_get _ _ _ Hwf Ht) as Hwt.
  destruct t as [subs]. apply wf_skel_inv in Hwt as (Hval & Hnd & _).
  cbn [subdirs] in Hin.
  assert (valid_name n = true) as Hn.
  { rewrite Forall_forall in Hval. apply Hval.
    apply list_elem_of_fmap. by exists (n, t'). }
  assert (sk_get sk (p ++ [n]) = Some t') as Hget.
  { rewrite sk_get_snoc, Ht. by apply assoc_get_elem. }
  exists (p ++ [n]). split; [| done].
  by rewrite (dir_of_join _ _ _ _ Hp Hn), Hget.
Qed.

Lemma scandir_resolves (f : fs) (s : string) (t : skel) :
  resolves (tree f) s t →
  Os.scandir f s = Some (map fst (subdirs t), files_of f s).
Proof.
  intros (p & Hp & Ht). unfold files_of, Os.scandir. by rewrite Hp, Ht.
Qed.

Lemma tree_walk_unfold (top : string) (t : skel) :
  tree_walk top t = (top, map fst (subdirs t)) :: walk_forest (children top t).
Proof.
  destruct t as [subs]. cbn [tree_walk subdirs]. f_equal.
  unfold children, walk_forest. cbn [subdirs].
  induction subs as [|[n t'] l IH]; [done |].
  cbn [map flat_map fst snd]. by rewrite IH.
Qed.

Lemma walk_forest_cons (s : string) (t : skel) (ps : list (string * skel)) :
  walk_forest ((s, t) :: ps)
  = (s, map fst (subdirs t)) :: walk_forest (children s t ++ ps).
Proof.
  unfold walk_forest at 1. cbn [flat_map fst snd].
  rewrite tree_walk_unfold. unfold walk_forest. by rewrite flat_map_app.
Qed.

Lemma children_stack (s : string) (t : skel) :
  map fst (children s t) = map (join s) (map fst (subdirs t)).
Proof. unfold children. rewrite !map_map. done. Qed.

Lemma children_resolve (sk t : skel) (s : string) :
  wf_skel sk = true →
  resolves sk s t →
  Forall (fun st => resolves sk st.1 st.2) (children s t).
Proof.
  intros Hwf Hres. apply Forall_forall. intros [s' t'] Hin.
  unfold children in Hin. apply list_elem_of_fmap in Hin as ([n t0] & [= -> ->] & Hin).
  by eapply resolves_child.
Qed.

Lemma sk_get_app (t : skel) (p q : list string) :
  sk_get t (p ++ q)
  = match sk_get t p with Some t' => sk_get t' q | None => None end.
Proof.
  revert t. induction p as [|m p IH]; intros t; cbn [app sk_get]; [done |].
  destruct (assoc_get m (subdirs t)); [apply IH | done].
Qed.

Lemma sk_get_removelast (t : skel) (p : list string) :
  is_Some (sk_get t p) → is_Some (sk_get t (removelast p)).
Proof.
  destruct (decide (p = [])) as [->|Hne]; [done |].
  rewrite (app_removelast_last "" Hne) at 1. rewrite sk_get_app.
  destruct (sk_get t (removelast p)); [done | by intros [? ?]].
Qed.

(** Resolution only leads to directories of the skeleton. *)
Lemma walk_path_sound (t : skel) (cs : list string) (p0 p : list string) :
  is_Some (sk_get t p0) →
  fold_left (enter t) cs (Some p0) = Some p →
  is_Some (sk_get t p).
Proof.
  revert p0. induction cs as [|c cs IH]; intros p0 H0; cbn [fold_left].
  - by intros [= <-].
  - unfold enter at 2.
    destruct (bool_decide (c = "") || bool_decide (c = ".")); [by apply IH |].
    destruct (bool_decide (c = "..")); [apply IH; by apply sk_get_removelast |].
    destruct (sk_get t (p0 ++ [c])) eqn:Hc; [apply IH; by rewrite Hc |].
    intros Hnone. exfalso. clear -Hnone.
    induction cs as [|c' cs IH']; [done | by apply IH'].
Qed.

Lemma isdir_resolves (f : fs) (s : string) :
  Os.isdir f s = true → ∃ t, resolves (tree f) s t.
Proof.
  unfold Os.isdir. rewrite bool_decide_eq_true. intros [p Hp].
  assert (is_Some (sk_get (tree f) p)) as [t Ht].
  { unfold dir_of in Hp. case_bool_decide; [done |].
    by eapply (walk_path_sound _ _ []). }
  exists t, p. done.
Qed.

Lemma walk_dirs_resolves (f : fs) (s : string) (t : skel) :
  resolves (tree f) s t → walk_dirs f s = tree_walk s t.
Proof. intros (p & Hp & Ht). unfold walk_dirs. by rewrite Hp, Ht. Qed.

(** Every directory of the walk is a directory of the skeleton, listed
    with its own subdirectories. *)
Lemma tree_walk_resolves (sk : skel) (t : skel) :
  wf_skel sk = true →
  ∀ top x, resolves sk top t → x ∈ tree_walk top t →
           ∃ t', resolves sk x.1 t' ∧ x.2 = map fst (subdirs t').
Proof.
  intros Hwf. induction t as [subs IH] using skel_ind'.
  intros top x Hres. rewrite tree_walk_unfold.
  intros [->|Hin]%elem_of_cons; [by exists (Sk subs) |].
  unfold walk_forest in Hin.
  apply list_elem_of_In, in_flat_map in Hin as ([s' t'] & Hc & Hin).
  unfold children in Hc. apply in_map_iff in Hc as ([n t0] & [= <- <-] & Hc).
  apply list_elem_of_In in Hc, Hin. cbn [fst snd subdirs] in *.
  rewrite Forall_forall in IH.
  apply (IH _ Hc (join top n)); [| done].
  by eapply resolves_child.
Qed.

Lemma walk_dirs_scandir (f : fs) (folder : string) (x : string * list string) :
  wf_skel (tree f) = true →
  x ∈ walk_dirs f folder →
  ∃ p t, dir_of (tree f) x.1 = Some p ∧ sk_get (tree f) p = Some t
         ∧ x.2 = map fst (subdirs t).
Proof.
  intros Hwf. unfold walk_dirs.
  destruct (dir_of (tree f) folder) as [p|] eqn:Hp; [| by intros ?%elem_of_nil].
  destruct (sk_get (tree f) p) as [t|] eqn:Ht; [| by intros ?%elem_of_nil].
  intros Hx.
  destruct (tree_walk_resolves (tree f) t Hwf folder x) as (t' & (p' & ? & ?) & ?);
    [by exists p | done |].
  by exists p', t'.
Qed.

Lemma walk_dirs_tree (f f' : fs) (folder : string) :
  tree f' = tree f → walk_dirs f' folder = walk_dirs f folder.
Proof. intros Htree. unfold walk_dirs. by rewrite Htree. Qed.

(** [os.walk] run lazily, the body changing the files as it goes, is
    a left fold over the preorder of the skeleton in which each
    directory's files are listed when it is reached. *)
Section Loop.
Context {A : Type}.
Variable body : string → list string → list string → world * A → world * A.
Hypothesis body_tree :
  ∀ top dirs files st, tree (w_fs (body top dirs files st).1) = tree (w_fs st.1).

Lemma visit_fold_tree (ds : list (string * list string)) (st : world * A) :
  tree (w_fs (fold_left (visit body) ds st).1) = tree (w_fs st.1).
Proof.
  revert st. induction ds as [|d ds IH]; intros st; [done |].
  cbn [fold_left]. rewrite IH. apply body_tree.
Qed.

Lemma for_os_walk_forest (fuel : nat) (ps : list (string * skel)) (st : world * A) :
  wf_skel (tree (w_fs st.1)) = true →
  Forall (fun p => resolves (tree (w_fs st.1)) p.1 p.2) ps →
  length (walk_forest ps) ≤ fuel →
  for_os_walk fuel (map fst ps) body st
  = Some (fold_left (visit body) (walk_forest ps) st).
Proof.
  revert ps st. induction fuel as [|fuel IH]; intros ps st Hwf Hres Hlen.
  - destruct ps as [|[s t] ps]; [done |].
    rewrite walk_forest_cons in Hlen. cbn [length] in Hlen. lia.
  - destruct ps as [|[s t] ps]; [done |].
    apply Forall_cons in Hres as [Hs Hps]. cbn [fst snd] in Hs.
    rewrite walk_forest_cons in *. cbn [length] in Hlen.
    cbn [map fst for_os_walk fold_left].
    rewrite (scandir_resolves _ _ _ Hs).
    rewrite <- children_stack, <- map_app.
    unfold visit at 2. cbn [fst snd].
    set (st' := body s _ _ st).
    assert (tree (w_fs st'.1) = tree (w_fs st.1)) as Htree by apply body_tree.
    apply IH.
    + by rewrite Htree.
    + rewrite Htree. apply Forall_app. split; [| done].
      by apply children_resolve.
    + lia.
Qed.
(** The loop of a request: from a root that is a directory, with fuel
    for every directory under it. *)
Lemma for_os_walk_dirs (fuel : nat) (folder : string) (st : world * A) :
  wf_skel (tree (w_fs st.1)) = true →
  Os.isdir (w_fs st.1) folder = true →
  walk_cost (w_fs st.1) folder ≤ fuel →
  for_os_walk fuel [folder] body st
  = Some (fold_left (visit body) (walk_dirs (w_fs st.1) folder) st).
Proof.
  intros Hwf [t Ht]%isdir_resolves Hfuel. unfold walk_cost in Hfuel.
  rewrite (walk_dirs_resolves _ _ _ Ht) in *.
  pose proof (for_os_walk_forest fuel [(folder, t)] st Hwf) as Hloop.
  unfold walk_forest in Hloop. cbn [flat_map fst snd map] in Hloop.
  rewrite app_nil_r in Hloop. apply Hloop; [| done].
  by apply Forall_singleton.
Qed.
End Loop.

End WalkFacts.

(** ** System calls *)

Module OsFacts.
Import Os.

Lemma set_files_tree (f : fs) (d : list string) (l : list (string * content)) :
  tree (set_files f d l) = tree f.
Proof. done. Qed.

Lemma write_file_tree (f f' : fs) (s : string) (c : content) :
  write_file f s c = Ok f' → tree f' = tree f.
Proof.
  unfold write_file. destruct (PyPath.file_loc _ _) as [[d n]|]; [| done].
  destruct (names_dir f d n); [done |]. by intros [= <-].
Qed.

Lemma remove_file_tree (f f' : fs) (s : string) :
  remove_file f s = Ok f' → tree f' = tree f.
Proof.
  unfold remove_file. destruct (PyPath.file_loc _ _) as [[d n]|]; [| done].
  destruct (names_dir f d n); [done |].
  destruct (assoc_get _ _); [| done]. by intros [= <-].
Qed.

Lemma copy2_tree (f f' : fs) (src dst : string) :
  copy2 f src dst = Ok f' → tree f' = tree f.
Proof.
  unfold copy2. destruct (same_file _ _ _); [done |].
  destruct (read_file f src); [| done]. apply write_file_tree.
Qed.

(** *** Reading a file back *)

Lemma assoc_get_set_eq {A} (n : string) (a : A) (l : list (string * A)) :
  assoc_get n (assoc_set n a l) = Some a.
Proof.
  induction l as [|[m b] l IH]; cbn [assoc_set assoc_get].
  - by rewrite decide_True.
  - case_decide as Hn; cbn [assoc_get].
    + by rewrite decide_True.
    + by rewrite decide_False.
Qed.

Lemma assoc_get_set_ne {A} (n n' : string) (a : A) (l : list (string * A)) :
  n ≠ n' → assoc_get n' (assoc_set n a l) = assoc_get n' l.
Proof.
  intros Hne. induction l as [|[m b] l IH]; cbn [assoc_set assoc_get].
  - by rewrite decide_False.
  - case_decide as Hn; cbn [assoc_get].
    + subst m. by rewrite !decide_False.
    + by rewrite IH.
Qed.

Lemma assoc_get_del_eq {A} (n : string) (l : list (string * A)) :
  assoc_get n (assoc_del n l) = None.
Proof.
  induction l as [|[m b] l IH]; cbn [assoc_del assoc_get]; [done |].
  case_decide as Hn; [done |]. cbn [assoc_get]. by rewrite decide_False.
Qed.

Lemma assoc_get_del_ne {A} (n n' : string) (l : list (string * A)) :
  n ≠ n' → assoc_get n' (assoc_del n l) = assoc_get n' l.
Proof.
  intros Hne. induction l as [|[m b] l IH]; cbn [assoc_del assoc_get]; [done |].
  case_decide as Hn; cbn [assoc_get].
  - subst m. by rewrite decide_False.
  - by rewrite IH.
Qed.

Lemma files_at_set_files (f : fs) (d d' : list string) (l : list (string * content)) :
  files_at (set_files f d l) d' = if decide (d = d') then l else files_at f d'.
Proof.
  unfold files_at, set_files. cbn [ftab]. case_decide as Hd.
  - subst. by rewrite lookup_insert_eq.
  - by rewrite lookup_insert_ne.
Qed.

Lemma read_file_loc (f : fs) (s : string) (d : list string) (n : string) :
  PyPath.file_loc (tree f) s = Some (d, n) →
  names_dir f d n = false →
  read_file f s = match assoc_get n (files_at f d) with
                  | Some c => Ok c
                  | None => Raise (enoent s)
                  end.
Proof. intros Hl Hn. unfold read_file. by rewrite Hl, Hn. Qed.

Lemma read_file_Ok_inv (f : fs) (s : string) (c : content) :
  read_file f s = Ok c →
  ∃ d n, PyPath.file_loc (tree f) s = Some (d, n) ∧ names_dir f d n = false
         ∧ assoc_get n (files_at f d) = Some c.
Proof.
  unfold read_file. destruct (PyPath.file_loc _ _) as [[d n]|]; [| done].
  destruct (names_dir f d n) eqn:Hn; [done |].
  destruct (assoc_get _ _) as [c'|] eqn:Hc; [| done].
  intros [= <-]. by exists d, n.
Qed.

Lemma write_file_Ok_inv (f f' : fs) (s : string) (c : content) :
  write_file f s c = Ok f' →
  ∃ d n, PyPath.file_loc (tree f) s = Some (d, n) ∧ names_dir f d n = false
         ∧ f' = set_files f d (assoc_set n c (files_at f d)).
Proof.
  unfold write_file. destruct (PyPath.file_loc _ _) as [[d n]|]; [| done].
  destruct (names_dir f d n) eqn:Hn; [done |].
  intros [= <-]. by exists d, n.
Qed.

Lemma remove_file_Ok_inv (f f' : fs) (s : string) :
  remove_file f s = Ok f' →
  ∃ d n, PyPath.file_loc (tree f) s = Some (d, n) ∧ names_dir f d n = false
         ∧ f' = set_files f d (assoc_del n (files_at f d)).
Proof.
  unfold remove_file. destruct (PyPath.file_loc _ _) as [[d n]|]; [| done].
  destruct (names_dir f d n) eqn:Hn; [done |].
  destruct (assoc_get _ _); [| done].
  intros [= <-]. by exists d, n.
Qed.

(** A successful [copy2] read the source and wrote its bytes to a
    different entry. *)
Lemma copy2_Ok_inv (f f1 : fs) (src dst : string) :
  copy2 f src dst = Ok f1 →
  ∃ c d1 n1 d2 n2,
    PyPath.file_loc (tree f) src = Some (d1, n1)
    ∧ PyPath.file_loc (tree f) (copy_target f src dst) = Some (d2, n2)
    ∧ (d1, n1) ≠ (d2, n2)
    ∧ names_dir f d1 n1 = false ∧ names_dir f d2 n2 = false
    ∧ assoc_get n1 (files_at f d1) = Some c
    ∧ f1 = set_files f d2 (assoc_set n2 c (files_at f d2)).
Proof.
  unfold copy2. destruct (same_file _ _ _) eqn:Hsame; [done |].
  destruct (read_file f src) as [c|] eqn:Hr; [| done]. intros Hw.
  apply read_file_Ok_inv in Hr as (d1 & n1 & Hl1 & Hn1 & Hc).
  apply write_file_Ok_inv in Hw as (d2 & n2 & Hl2 & Hn2 & ->).
  exists c, d1, n1, d2, n2. split_and!; try done.
  intros [= <- <-]. unfold same_file in Hsame. rewrite Hl1, Hl2, Hc in Hsame.
  by rewrite !bool_decide_eq_true_2 in Hsame.
Qed.

Lemma copy2_read_source (f f1 : fs) (src dst : string) :
  copy2 f src dst = Ok f1 → ∃ c, read_file f src = Ok c.
Proof.
  intros (c & d1 & n1 & _ & _ & Hl1 & _ & _ & Hn1 & _ & Hc & _)%copy2_Ok_inv.
  exists c. by rewrite (read_file_loc _ _ _ _ Hl1 Hn1), Hc.
Qed.

(** The copy holds the bytes of the source. *)
Lemma copy2_read_back (f f1 : fs) (src dst : string) :
  copy2 f src dst = Ok f1 →
  read_file f1 (copy_target f src dst) = read_file f src.
Proof.
  intros (c & d1 & n1 & d2 & n2 & Hl1 & Hl2 & _ & Hn1 & Hn2 & Hc & ->)%copy2_Ok_inv.
  rewrite (read_file_loc _ _ _ _ Hl1 Hn1), Hc.
  rewrite (read_file_loc _ _ d2 n2) by done.
  by rewrite files_at_set_files, decide_True, assoc_get_set_eq.
Qed.

(** Writing the source again does not touch the copy. *)
Lemma copy2_then_write (f f1 f2 : fs) (src dst : string) (junk : content) :
  copy2 f src dst = Ok f1 →
  write_file f1 src junk = Ok f2 →
  read_file f2 (copy_target f src dst) = read_file f src.
Proof.
  intros Hcopy Hw. rewrite <- (copy2_read_back _ _ _ _ Hcopy).
  apply copy2_Ok_inv in Hcopy
    as (c & d1 & n1 & d2 & n2 & Hl1 & Hl2 & Hne & Hn1 & Hn2 & Hc & ->).
  apply write_file_Ok_inv in Hw as (d & n & Hl & Hn & ->).
  cbn [tree set_files] in Hl. rewrite Hl1 in Hl. injection Hl as <- <-.
  rewrite !(read_file_loc _ _ d2 n2) by done.
  rewrite (files_at_set_files _ d1 d2). case_decide as Hd; [| done].
  subst d2. rewrite assoc_get_set_ne; [done |]. by intros ->.
Qed.

(** Removing the source after the copy leaves the copy and nothing at
    the source. *)
Lemma copy2_then_remove (f f1 f2 : fs) (src dst : string) :
  copy2 f src dst = Ok f1 →
  remove_file f1 src = Ok f2 →
  read_file f2 (copy_target f src dst) = read_file f src
  ∧ read_file f2 src = Raise (enoent src).
Proof.
  intros Hcopy Hrm. rewrite <- (copy2_read_back _ _ _ _ Hcopy).
  apply copy2_Ok_inv in Hcopy
    as (c & d1 & n1 & d2 & n2 & Hl1 & Hl2 & Hne & Hn1 & Hn2 & Hc & ->).
  apply remove_file_Ok_inv in Hrm as (d & n & Hl & Hn & ->).
  cbn [tree set_files] in Hl. rewrite Hl1 in Hl. injection Hl as <- <-.
  split.
  - rewrite !(read_file_loc _ _ d2 n2) by done.
    rewrite (files_at_set_files _ d1 d2). case_decide as Hd; [| done].
    subst d2. rewrite assoc_get_del_ne; [done |]. by intros ->.
  - rewrite (read_file_loc _ _ d1 n1) by done.
    by rewrite files_at_set_files, decide_True, assoc_get_del_eq.
Qed.

(** *** Where a backup lands *)

Lemma assoc_get_None {A} (n : string) (l : list (string * A)) :
  n ∉ map fst l → assoc_get n l = None.
Proof.
  induction l as [|[m b] l IH]; [done |]. cbn [map fst assoc_get].
  intros Hn. rewrite decide_False.
  - apply IH. intros Hin. apply Hn. by apply elem_of_cons; right.
  - intros ->. apply Hn. by apply elem_of_cons; left.
Qed.

Lemma assoc_set_name {A} (n : string) (a : A) (l : list (string * A)) :
  n ∈ map fst (assoc_set n a l).
Proof.
  induction l as [|[m b] l IH]; cbn [assoc_set].
  - by apply elem_of_cons; left.
  - case_decide as Hn; cbn [map fst].
    + subst. by apply elem_of_cons; left.
    + by apply elem_of_cons; right.
Qed.

Lemma assoc_set_names {A} (n m : string) (a : A) (l : list (string * A)) :
  m ∈ map fst l → m ∈ map fst (assoc_set n a l).
Proof.
  induction l as [|[k b] l IH]; [by intros ?%elem_of_nil |]. cbn [assoc_set].
  case_decide as Hn; cbn [map fst]; [done |].
  intros [->|Hin]%elem_of_cons; apply elem_of_cons; [by left | right; by apply IH].
Qed.

Lemma has_backup_false (target : string) (names : list string) (n : string) :
  has_backup target names = false →
  BackupNamer.is_backup_of n target = true →
  n ∉ names.
Proof.
  unfold has_backup. intros Hnone Hn Hin.
  assert (existsb (fun f => BackupNamer.is_backup_of f target) names = true) as Hex.
  { apply existsb_exists. exists n. split; [by apply list_elem_of_In | done]. }
  congruence.
Qed.

Lemma has_backup_true (target : string) (names : list string) (n : string) :
  n ∈ names →
  BackupNamer.is_backup_of n target = true →
  has_backup target names = true.
Proof.
  intros Hin Hn. unfold has_backup. apply existsb_exists.
  exists n. split; [by apply list_elem_of_In | done].
Qed.

Lemma files_of_dir (f : fs) (s : string) (p : list string) (t : skel) :
  PyPath.dir_of (tree f) s = Some p →
  sk_get (tree f) p = Some t →
  files_of f s = map fst (files_at f p).
Proof. intros Hp Ht. unfold files_of, scandir. by rewrite Hp, Ht. Qed.

(** Two file systems on one skeleton that differ only in the files of
    the directory [p] list every other directory alike. *)
Lemma files_of_elsewhere (f f' : fs) (p : list string) (s : string) :
  tree f' = tree f →
  (∀ q, q ≠ p → files_at f' q = files_at f q) →
  PyPath.dir_of (tree f) s ≠ Some p →
  files_of f' s = files_of f s.
Proof.
  intros Htree Hother Hs. unfold files_of, scandir. rewrite Htree.
  destruct (PyPath.dir_of (tree f) s) as [q|]; [| done].
  destruct (sk_get (tree f) q); [| done].
  rewrite Hother; [done |]. by intros ->.
Qed.

(** The backup that [process_image] makes of a file of the directory
    [top], and the rewritten file, both land among the files of [top],
    when no subdirectory of [top] is named like a backup of it; no
    other directory changes. *)
Lemma backup_lands_in_directory (f f1 f2 : fs) (top target ts : string)
    (p : list string) (t : skel) (new : content) :
  PyPath.dir_of (tree f) top = Some p →
  sk_get (tree f) p = Some t →
  valid_name target = true →
  PyStr.has_char PyPath.slash ts = false →
  has_backup target (map fst (subdirs t)) = false →
  copy2 f (PyPath.join top target)
    (BackupNamer.name_for (PyPath.join top target) ts) = Ok f1 →
  write_file f1 (PyPath.join top target) new = Ok f2 →
  tree f2 = tree f
  ∧ (∀ q, q ≠ p → files_at f2 q = files_at f q)
  ∧ target ∈ map fst (files_at f2 p)
  ∧ (target +:+ BackupNamer.SEP +:+ ts) ∈ map fst (files_at f2 p).
Proof.
  intros Hp Ht Hval Hts Hnb Hcopy Hwrite.
  pose proof (ClockFacts.valid_name_backup _ _ Hval Hts) as Hbval.
  set (bname := target +:+ BackupNamer.SEP +:+ ts) in *.
  assert (BackupNamer.name_for (PyPath.join top target) ts = PyPath.join top bname)
    as Hbpath.
  { unfold BackupNamer.name_for, bname. rewrite PyPathFacts.join_app; [done |].
    by apply PyPathFacts.valid_name_inv in Hval as [? _]. }
  rewrite Hbpath in Hcopy.
  assert (isdir f (PyPath.join top bname) = false) as Hnotdir.
  { unfold isdir. rewrite (PyPathFacts.dir_of_join _ _ _ _ Hp Hbval).
    rewrite WalkFacts.sk_get_snoc, Ht, assoc_get_None; [done |].
    eapply has_backup_false; [done |]. apply ClockFacts.backup_is_backup_of. }
  apply copy2_Ok_inv in Hcopy
    as (c & d1 & n1 & d2 & n2 & Hl1 & Hl2 & Hne & Hn1 & Hn2 & Hc & ->).
  unfold copy_target in Hl2. rewrite Hnotdir in Hl2.
  rewrite (PyPathFacts.file_loc_join _ _ _ _ Hp Hval) in Hl1.
  rewrite (PyPathFacts.file_loc_join _ _ _ _ Hp Hbval) in Hl2.
  injection Hl1 as <- <-. injection Hl2 as <- <-.
  apply write_file_Ok_inv in Hwrite as (d & n & Hl & Hn & ->).
  cbn [tree set_files] in Hl.
  rewrite (PyPathFacts.file_loc_join _ _ _ _ Hp Hval) in Hl. injection Hl as <- <-.
  split_and!.
  - done.
  - intros q Hq. rewrite !files_at_set_files. by rewrite !decide_False.
  - rewrite files_at_set_files, decide_True by done. apply assoc_set_name.
  - rewrite !files_at_set_files, !decide_True by done.
    apply assoc_set_names, assoc_set_name.
Qed.

End OsFacts.

(** ** Files and directories *)

Module OsMoreFacts.
Import Os OsFacts PyPath PyPathFacts.

Lemma unsnoc_Some {A} (l i : list A) (x : A) :
  unsnoc l = Some (i, x) → l = i ++ [x].
Proof.
  revert i. induction l as [|y l IH]; intros i; [done |]. cbn [unsnoc].
  destruct l as [|z l]; [by intros [= <- <-] |].
  destruct (unsnoc (z :: l)) as [[i' y']|]; [| done].
  intros [= <- <-]. cbn [app]. f_equal. by apply IH.
Qed.

(** A path that designates a file entry does not name a directory. *)
Lemma file_loc_not_dir (f : fs) (s : string) (d : list string) (n : string) :
  file_loc (tree f) s = Some (d, n) →
  names_dir f d n = false →
  isdir f s = false.
Proof.
  unfold file_loc, names_dir, isdir, dir_of. intros Hl Hn.
  destruct (unsnoc (split_slash s)) as [[init m]|] eqn:Hu; [| done].
  destruct (is_entry_name m) eqn:Hm; [| done].
  destruct (walk_path (tree f) init) as [d'|] eqn:Hw; [| done].
  injection Hl as -> ->. apply unsnoc_Some in Hu.
  apply bool_decide_eq_false in Hn. apply bool_decide_eq_false.
  case_bool_decide; [by intros [? ?] |].
  rewrite Hu, walk_path_snoc, Hw, enter_name by done.
  intros Hsome. apply Hn.
  destruct (sk_get _ _); [done | by destruct Hsome].
Qed.

Lemma read_file_not_dir (f : fs) (s : string) (c : content) :
  read_file f s = Ok c → isdir f s = false.
Proof.
  intros (d & n & Hl & Hn & _)%read_file_Ok_inv. by eapply file_loc_not_dir.
Qed.

Lemma write_file_not_dir (f f' : fs) (s : string) (c : content) :
  write_file f s c = Ok f' → isdir f s = false.
Proof.
  intros (d & n & Hl & Hn & _)%write_file_Ok_inv. by eapply file_loc_not_dir.
Qed.

Lemma isdir_tree (f f' : fs) (s : string) :
  tree f' = tree f → isdir f' s = isdir f s.
Proof. intros Ht. unfold isdir. by rewrite Ht. Qed.

Lemma copy_target_tree (f f' : fs) (src dst : string) :
  tree f' = tree f → copy_target f' src dst = copy_target f src dst.
Proof. intros Ht. unfold copy_target. by rewrite (isdir_tree f f'). Qed.

(** Reading depends on the skeleton and on the files of one directory. *)
Lemma read_file_same (f f' : fs) (s : string) :
  tree f' = tree f →
  (∀ d n, file_loc (tree f) s = Some (d, n) →
          assoc_get n (files_at f' d) = assoc_get n (files_at f d)) →
  read_file f' s = read_file f s.
Proof.
  intros Ht Hsame. unfold read_file, names_dir. rewrite Ht, (isdir_tree f f') by done.
  destruct (file_loc (tree f) s) as [[d n]|]; [| done].
  by rewrite (Hsame d n).
Qed.

(** Writing one file leaves every other file as it was. *)
Lemma write_file_frame (f f' : fs) (s0 s : string) (c : content) :
  write_file f s0 c = Ok f' →
  file_loc (tree f) s ≠ file_loc (tree f) s0 →
  read_file f' s = read_file f s.
Proof.
  intros (d & n & Hl & Hn & ->)%write_file_Ok_inv Hne.
  apply read_file_same; [done |]. intros d' n' Hl'.
  rewrite files_at_set_files. case_decide as Hd; [| done]. subst d'.
  apply assoc_get_set_ne. intros <-. by rewrite Hl, Hl' in Hne.
Qed.

Lemma remove_file_frame (f f' : fs) (s0 s : string) :
  remove_file f s0 = Ok f' →
  file_loc (tree f) s ≠ file_loc (tree f) s0 →
  read_file f' s = read_file f s.
Proof.
  intros (d & n & Hl & Hn & ->)%remove_file_Ok_inv Hne.
  apply read_file_same; [done |]. intros d' n' Hl'.
  rewrite files_at_set_files. case_decide as Hd; [| done]. subst d'.
  apply assoc_get_del_ne. intros <-. by rewrite Hl, Hl' in Hne.
Qed.

Lemma copy2_frame (f f' : fs) (src dst s : string) :
  copy2 f src dst = Ok f' →
  file_loc (tree f) s ≠ file_loc (tree f) (copy_target f src dst) →
  read_file f' s = read_file f s.
Proof.
  unfold copy2. destruct (same_file _ _ _); [done |].
  destruct (read_file f src); [| done]. apply write_file_frame.
Qed.

(** A copy needs a source that can be read. *)
Lemma copy2_unreadable (f : fs) (src dst e : string) :
  read_file f src = Raise e → ∃ e', copy2 f src dst = Raise e'.
Proof.
  intros Hr. unfold copy2. destruct (same_file _ _ _); [by eexists |].
  rewrite Hr. by eexists.
Qed.

(** A file cannot be copied onto itself. *)
Lemma copy2_onto_itself (f : fs) (s : string) : ∃ e, copy2 f s s = Raise e.
Proof.
  destruct (read_file f s) as [c|e] eqn:Hr; [| by eapply copy2_unreadable].
  unfold copy2, copy_target. rewrite (read_file_not_dir _ _ _ Hr).
  apply read_file_Ok_inv in Hr as (d & n & Hl & Hn & Hc).
  unfold same_file. rewrite Hl, Hc, !bool_decide_eq_true_2 by done.
  by eexists.
Qed.

(** *** A copy that was cut short *)

Lemma copy2_cut_cases (f : fs) (src dst : string) (k : nat) :
  copy2_cut f src dst k = f
  ∨ ∃ c, same_file f src (copy_target f src dst) = false
         ∧ read_file f src = Ok c
         ∧ write_file f (copy_target f src dst) (take k c) = Ok (copy2_cut f src dst k).
Proof.
  unfold copy2_cut. destruct (same_file _ _ _) eqn:Hs; [by left |].
  destruct (read_file f src) as [c|e] eqn:Hr; [| by left].
  destruct (write_file _ _ (take k c)) as [f'|e] eqn:Hw; [| by left].
  right. by exists c.
Qed.

Lemma copy2_cut_tree (f : fs) (src dst : string) (k : nat) :
  tree (copy2_cut f src dst k) = tree f.
Proof.
  destruct (copy2_cut_cases f src dst k) as [-> | (c & _ & _ & Hw)]; [done |].
  by apply write_file_tree in Hw.
Qed.

Lemma copy2_cut_frame (f : fs) (src dst s : string) (k : nat) :
  file_loc (tree f) s ≠ file_loc (tree f) (copy_target f src dst) →
  read_file (copy2_cut f src dst k) s = read_file f s.
Proof.
  intros Hne.
  destruct (copy2_cut_cases f src dst k) as [-> | (c & _ & _ & Hw)]; [done |].
  by eapply write_file_frame.
Qed.

(** Two paths to one place, when the first can be read, are the same
    file. *)
Lemma same_file_loc (f : fs) (a b : string) (c : content) :
  read_file f a = Ok c →
  file_loc (tree f) a = file_loc (tree f) b →
  same_file f a b = true.
Proof.
  intros (d & n & Hl & Hn & Hc)%read_file_Ok_inv Heq. unfold same_file.
  rewrite <- Heq, Hl, Hc, !bool_decide_eq_true_2; done.
Qed.

(** However far a copy got, its source is as it was. *)
Lemma copy2_cut_source (f : fs) (src dst : string) (k : nat) :
  read_file (copy2_cut f src dst k) src = read_file f src.
Proof.
  destruct (copy2_cut_cases f src dst k) as [-> | (c & Hs & Hr & Hw)]; [done |].
  eapply write_file_frame; [exact Hw |]. intros Heq.
  by rewrite (same_file_loc f src _ c) in Hs.
Qed.

(** A copy that raises on its own account has written nothing. *)
Lemma copy2_cut_clean (f : fs) (src dst e : string) (k : nat) :
  copy2 f src dst = Raise e → copy2_cut f src dst k = f.
Proof.
  unfold copy2, copy2_cut. destruct (same_file _ _ _); [done |].
  destruct (read_file f src) as [c|e']; [| done].
  unfold write_file. destruct (file_loc _ _) as [[d n]|]; [| done].
  by destruct (names_dir f d n).
Qed.

End OsMoreFacts.

(** ** The engine *)

Section EngineFacts.
Variable E : env.
Import OsFacts OsMoreFacts.

Lemma sys_copy2_tree (src dst : string) (w : world) :
  tree (w_fs (sys_copy2 E src dst w).2) = tree (w_fs w).
Proof.
  unfold sys_copy2. destruct (fault E _ _).
  - destruct (cut E _); [apply copy2_cut_tree | done].
  - destruct (Os.copy2 (w_fs w) src dst) as [f'|] eqn:Hf; [| done].
    by apply copy2_tree in Hf.
Qed.

Lemma sys_transform_tree (path : string) (wd ht : Z) (w : world) :
  tree (w_fs (sys_transform E path wd ht w).2) = tree (w_fs w).
Proof.
  unfold sys_transform. destruct (fault E _ _); [done |].
  destruct (Os.read_file _ _); [| done].
  destruct (pil E _ _ _) as [new|e [junk|]]; cbn [snd].
  - destruct (Os.write_file _ _ new) eqn:Hw; [| done].
    by apply write_file_tree in Hw.
  - destruct (Os.write_file _ _ junk) eqn:Hw; [| done].
    by apply write_file_tree in Hw.
  - done.
Qed.

Lemma process_image_tree (path : string) (wd ht : Z) (dry : option bool) (w : world) :
  tree (w_fs (process_image E path wd ht dry w).2) = tree (w_fs w).
Proof.
  unfold process_image, now. cbn [fst snd].
  destruct (truthy_flag dry); [done |].
  set (w0 := MkWorld _ _ _ _).
  pose proof (sys_copy2_tree path
                (BackupNamer.name_for path (Clock.strftime (clock E (w_tick w)))) w0) as Hc.
  destruct (sys_copy2 E _ _ w0) as [[u|e] w1]; cbn [snd] in *.
  - pose proof (sys_transform_tree path wd ht w1) as Ht.
    destruct (sys_transform E path wd ht w1) as [[u'|e'] w2]; cbn [snd] in *;
      by rewrite Ht, Hc.
  - by rewrite Hc.
Qed.

Lemma scan_body_tree (target : string) (wd ht : Z) (dry : option bool)
    (root : string) (dirs files : list string) (st : world * scan_locals) :
  tree (w_fs (scan_body E target wd ht dry root dirs files st).1) = tree (w_fs st.1).
Proof.
  destruct st as [w l]. unfold scan_body.
  destruct (name_in target files); [| done].
  destruct (has_backup target files); [done |].
  pose proof (process_image_tree (PyPath.join root target) wd ht dry w) as Hp.
  destruct (process_image E _ wd ht dry w) as [[ok msg] w1].
  by destruct ok.
Qed.

(** An invariant of the body is an invariant of the loop. *)
Lemma for_os_walk_inv {A : Type} (I : world * A → Prop)
    (body : string → list string → list string → world * A → world * A)
    (fuel : nat) (stack : list string) (st st' : world * A) :
  (∀ top dirs files s, I s → I (body top dirs files s)) →
  I st →
  for_os_walk fuel stack body st = Some st' →
  I st'.
Proof.
  intros Hbody. revert stack st.
  induction fuel as [|fuel IH]; intros stack st Hst; destruct stack as [|top rest];
    cbn [for_os_walk]; try done; try by intros [= <-].
  destruct (Os.scandir _ top) as [[dirs files]|]; [| by apply IH].
  apply IH. by apply Hbody.
Qed.

(** *** What a system call leaves behind *)

Lemma sys_trace (c : syscall) (op : fs → result fs) (w : world) :
  w_trace (sys E c op w).2 = w_trace w ++ [MkEvent c (result_error (sys E c op w).1)].
Proof.
  unfold sys. destruct (fault E _ c); [done |]. by destruct (op (w_fs w)).
Qed.

Lemma sys_ok_fs (c : syscall) (op : fs → result fs) (w : world) (u : unit) :
  (sys E c op w).1 = Ok u →
  fault E (length (w_trace w)) c = None ∧ op (w_fs w) = Ok (w_fs (sys E c op w).2).
Proof.
  unfold sys. destruct (fault E _ c); [done |]. by destruct (op (w_fs w)).
Qed.

Lemma sys_copy2_trace (src dst : string) (w : world) :
  w_trace (sys_copy2 E src dst w).2
  = w_trace w ++ [MkEvent (SysCopy src dst) (result_error (sys_copy2 E src dst w).1)].
Proof.
  unfold sys_copy2. destruct (fault E _ _); [done |].
  by destruct (Os.copy2 (w_fs w) src dst).
Qed.

Lemma sys_copy2_ok_fs (src dst : string) (w : world) (u : unit) :
  (sys_copy2 E src dst w).1 = Ok u →
  fault E (length (w_trace w)) (SysCopy src dst) = None
  ∧ Os.copy2 (w_fs w) src dst = Ok (w_fs (sys_copy2 E src dst w).2).
Proof.
  unfold sys_copy2. destruct (fault E _ _); [done |].
  by destruct (Os.copy2 (w_fs w) src dst).
Qed.

(** What a copy leaves behind: nothing new, the finished copy, or a
    copy cut short. *)
Lemma sys_copy2_fs_cases (src dst : string) (w : world) :
  w_fs (sys_copy2 E src dst w).2 = w_fs w
  ∨ Os.copy2 (w_fs w) src dst = Ok (w_fs (sys_copy2 E src dst w).2)
  ∨ ∃ k, w_fs (sys_copy2 E src dst w).2 = Os.copy2_cut (w_fs w) src dst k.
Proof.
  unfold sys_copy2. destruct (fault E _ _).
  - destruct (cut E _) as [k|]; [| by left]. right. right. by exists k.
  - destruct (Os.copy2 (w_fs w) src dst); [| by left]. right. by left.
Qed.

(** A copy that fails, at whatever point, leaves its source as it was. *)
Lemma sys_copy2_raise_source (src dst : string) (w : world) (e : string) :
  (sys_copy2 E src dst w).1 = Raise e →
  Os.read_file (w_fs (sys_copy2 E src dst w).2) src = Os.read_file (w_fs w) src.
Proof.
  unfold sys_copy2. destruct (fault E _ _).
  - intros _. destruct (cut E _) as [k|]; [| done]. apply copy2_cut_source.
  - by destruct (Os.copy2 (w_fs w) src dst).
Qed.

(** A copy that cannot open its files fails and writes nothing,
    whatever the environment does. *)
Lemma sys_copy2_op_raise (src dst : string) (w : world) (e : string) :
  Os.copy2 (w_fs w) src dst = Raise e →
  ∃ e', (sys_copy2 E src dst w).1 = Raise e'
        ∧ w_fs (sys_copy2 E src dst w).2 = w_fs w.
Proof.
  intros Hop. unfold sys_copy2. destruct (fault E _ _).
  - eexists. split; [done |]. destruct (cut E _) as [k|]; [| done].
    by eapply copy2_cut_clean.
  - rewrite Hop. by eexists.
Qed.

Lemma sys_transform_trace (path : string) (wd ht : Z) (w : world) :
  w_trace (sys_transform E path wd ht w).2
  = w_trace w ++ [MkEvent (SysTransform path wd ht)
                    (result_error (sys_transform E path wd ht w).1)].
Proof.
  unfold sys_transform. destruct (fault E _ _); [done |].
  destruct (Os.read_file _ _); [| done].
  destruct (pil E _ _ _) as [new|e junk]; [| done].
  by destruct (Os.write_file _ _ new).
Qed.

Lemma process_image_real (path : string) (wd ht : Z) (dry : option bool) (w : world) :
  truthy_flag dry = false →
  process_image E path wd ht dry w
  = let backup := BackupNamer.name_for path (Clock.strftime (clock E (w_tick w))) in
    match sys_copy2 E path backup (now E w).2 with
    | (Raise e, w1) => ((false, e), w1)
    | (Ok _, w1) =>
        match sys_transform E path wd ht w1 with
        | (Raise e, w2) => ((false, e), w2)
        | (Ok _, w2) =>
            ((true, "Success (Backup: " +:+ PyPath.basename backup +:+ ")"), w2)
        end
    end.
Proof. intros Hdry. unfold process_image, now. cbn [fst snd]. by rewrite Hdry. Qed.

Lemma process_image_dry (path : string) (wd ht : Z) (dry : option bool) (w : world) :
  truthy_flag dry = true →
  ∃ msg, process_image E path wd ht dry w = ((true, msg), (now E w).2).
Proof.
  intros Hdry. unfold process_image, now. cbn [fst snd]. rewrite Hdry. by eexists.
Qed.

Lemma sys_transform_fs (path : string) (wd ht : Z) (w : world) :
  w_fs (sys_transform E path wd ht w).2 = w_fs w
  ∨ ∃ bytes, Os.write_file (w_fs w) path bytes = Ok (w_fs (sys_transform E path wd ht w).2).
Proof.
  unfold sys_transform. destruct (fault E _ _); [by left |].
  destruct (Os.read_file _ _); [| by left].
  destruct (pil E _ _ _) as [new|e [junk|]]; cbn [snd].
  - destruct (Os.write_file _ _ new) eqn:Hw; [| by left]. right. by exists new.
  - destruct (Os.write_file _ _ junk) eqn:Hw; [| by left]. right. by exists junk.
  - by left.
Qed.

(** *** The three ways through the body of the scan loop *)

Lemma scan_body_no_match (target : string) (wd ht : Z) (dry : option bool)
    (root : string) (dirs files : list string) (st : world * scan_locals) :
  name_in target files = false →
  scan_body E target wd ht dry root dirs files st = st.
Proof. intros H. destruct st as [w l]. unfold scan_body. by rewrite H. Qed.

Lemma scan_body_skip (target : string) (wd ht : Z) (dry : option bool)
    (root : string) (dirs files : list string) (st : world * scan_locals) :
  name_in target files = true →
  has_backup target files = true →
  let full_path := PyPath.join root target in
  scan_body E target wd ht dry root dirs files st
  = (logging INFO ("Skipping " +:+ full_path +:+ " because a backup was found.") st.1,
     MkScanLocals (found_files st.2 ++ [full_path]) (processed_count st.2)
       (details st.2 ++ [skipped_line full_path])).
Proof. intros H1 H2. destruct st as [w l]. unfold scan_body. by rewrite H1, H2. Qed.

Lemma scan_body_process (target : string) (wd ht : Z) (dry : option bool)
    (root : string) (dirs files : list string) (st : world * scan_locals) :
  name_in target files = true →
  has_backup target files = false →
  let full_path := PyPath.join root target in
  let res := process_image E full_path wd ht dry st.1 in
  scan_body E target wd ht dry root dirs files st
  = (logging (if res.1.1 then INFO else ERROR)
       ((if res.1.1 then "Processed: " else "Failed: ")
        +:+ full_path +:+ " - " +:+ res.1.2) res.2,
     MkScanLocals (found_files st.2 ++ [full_path])
       (if res.1.1 then S (processed_count st.2) else processed_count st.2)
       (details st.2 ++ [outcome_line full_path res.1])).
Proof.
  intros H1 H2. destruct st as [w l]. unfold scan_body. rewrite H1, H2.
  cbn zeta. cbn [fst snd].
  destruct (process_image E _ wd ht dry w) as [[ok msg] w1]. by destruct ok.
Qed.

Lemma tagged_outcome (full_path : string) (outcome : bool * string) :
  tagged (outcome_line full_path outcome) = true.
Proof. destruct outcome as [[] msg]; reflexivity. Qed.

Lemma ok_lines_snoc (lines : list string) (line : string) :
  ok_lines (lines ++ [line])
  = ok_lines lines + (if PyStr.startswith "[OK] " line then 1 else 0).
Proof.
  unfold ok_lines. rewrite List.filter_app, length_app. cbn [List.filter].
  by destruct (PyStr.startswith _ line).
Qed.

Lemma skipped_lines_snoc (lines : list string) (line : string) :
  skipped_lines (lines ++ [line])
  = skipped_lines lines + (if PyStr.startswith "[SKIPPED] " line then 1 else 0).
Proof.
  unfold skipped_lines. rewrite List.filter_app, length_app. cbn [List.filter].
  by destruct (PyStr.startswith _ line).
Qed.

Lemma scan_body_inv (target : string) (wd ht : Z) (dry : option bool)
    (root : string) (dirs files : list string) (st : world * scan_locals) :
  scan_inv st.2 → scan_inv (scan_body E target wd ht dry root dirs files st).2.
Proof.
  intros (Hlen & Htag & Hok).
  destruct (name_in target files) eqn:Hin;
    [| by rewrite scan_body_no_match].
  destruct (has_backup target files) eqn:Hb.
  - rewrite scan_body_skip by done. cbn [snd]. unfold scan_inv.
    cbn [found_files details processed_count].
    rewrite !length_app, ok_lines_snoc, Forall_app, Forall_singleton.
    cbn [length]. split_and!; [lia | done | reflexivity |].
    change (PyStr.startswith "[OK] " (skipped_line _)) with false. cbv iota. lia.
  - rewrite scan_body_process by done. cbn [snd]. unfold scan_inv.
    cbn [found_files details processed_count].
    rewrite !length_app, ok_lines_snoc, Forall_app, Forall_singleton.
    cbn [length]. split_and!; [lia | done | apply tagged_outcome |].
    destruct (process_image E _ wd ht dry st.1) as [[[] msg] w1]; cbn [fst snd].
    + change (PyStr.startswith "[OK] " (outcome_line _ _)) with true. cbv iota. lia.
    + change (PyStr.startswith "[OK] " (outcome_line _ _)) with false. cbv iota. lia.
Qed.

(** *** A request that passes validation *)

Lemma scan_and_resize_valid (fuel : nat) (data : scan_request) (w : world)
    (folder target : string) (wd ht : Z) :
  get (q_folder_path data) = Some folder →
  get (q_image_name data) = Some target →
  get (q_width data) = Some wd →
  get (q_height data) = Some ht →
  folder ≠ "" → target ≠ "" → wd ≠ 0%Z → ht ≠ 0%Z →
  Os.isdir (w_fs w) folder = true →
  let dry := get_default (q_dry_run data) false in
  scan_and_resize E fuel data w
  = match for_os_walk fuel [folder] (scan_body E target wd ht dry)
            (scan_start folder dry w, MkScanLocals [] 0 []) with
    | None => None
    | Some st => Some (ScanCompleted (report_of dry folder st.2), st.1)
    end.
Proof.
  intros Hf Ht Hw Hh Hf0 Ht0 Hw0 Hh0 Hdir dry. unfold scan_and_resize.
  rewrite Hf, Ht, Hw, Hh. unfold truthy_str, truthy_int.
  rewrite !bool_decide_eq_false_2 by done.
  apply Z.eqb_neq in Hw0, Hh0. rewrite Hw0, Hh0, Hdir. cbn [negb andb].
  fold dry. unfold scan_start, report_of.
  by destruct (for_os_walk _ _ _ _) as [[w' l]|].
Qed.

Lemma scan_and_resize_completed (fuel : nat) (data : scan_request) (w w' : world)
    (r : scan_report) :
  scan_and_resize E fuel data w = Some (ScanCompleted r, w') →
  ∃ folder target wd ht st,
    let dry := get_default (q_dry_run data) false in
    for_os_walk fuel [folder] (scan_body E target wd ht dry)
      (scan_start folder dry w, MkScanLocals [] 0 []) = Some st
    ∧ r = report_of dry folder st.2 ∧ w' = st.1.
Proof.
  unfold scan_and_resize.
  destruct (get (q_folder_path data)) as [folder|]; [| done].
  destruct (get (q_image_name data)) as [target|]; [| done].
  destruct (get (q_width data)) as [wd|]; [| done].
  destruct (get (q_height data)) as [ht|]; [| done].
  destruct (negb (_ && _ && _ && _)); [done |].
  destruct (negb (Os.isdir _ _)); [done |].
  destruct (for_os_walk _ _ _ _) as [[w1 l]|] eqn:Hloop; [| done].
  intros [= <- <-]. by exists folder, target, wd, ht, (w1, l).
Qed.

(** *** A dry run *)

Lemma scan_body_dry (target : string) (wd ht : Z) (dry : option bool)
    (root : string) (dirs files : list string) (st : world * scan_locals) :
  truthy_flag dry = true →
  let st' := scan_body E target wd ht dry root dirs files st in
  w_fs st'.1 = w_fs st.1
  ∧ w_trace st'.1 = w_trace st.1
  ∧ processed_count st'.2
    = processed_count st.2
      + (if name_in target files && negb (has_backup target files) then 1 else 0)
  ∧ length (found_files st'.2)
    = length (found_files st.2) + (if name_in target files then 1 else 0).
Proof.
  intros Hdry st'. subst st'.
  destruct (name_in target files) eqn:Hin;
    [| rewrite scan_body_no_match by done; cbn [andb]; split_and!; [done | done | lia | lia]].
  destruct (has_backup target files) eqn:Hb.
  - rewrite scan_body_skip by done.
    cbn [fst snd processed_count found_files andb negb]. rewrite length_app.
    cbn [length]. split_and!; [done | done | lia | lia].
  - rewrite scan_body_process by done.
    destruct (process_image_dry (PyPath.join root target) wd ht dry st.1 Hdry)
      as [msg ->].
    cbn [fst snd processed_count found_files andb negb]. rewrite length_app.
    cbn [length]. split_and!; [done | done | lia | lia].
Qed.

Lemma scan_fold_dry (target : string) (wd ht : Z) (dry : option bool)
    (ds : list (string * list string)) (st : world * scan_locals) :
  truthy_flag dry = true →
  let st' := fold_left (visit (scan_body E target wd ht dry)) ds st in
  w_fs st'.1 = w_fs st.1
  ∧ processed_count st'.2
    = processed_count st.2 + length (List.filter (lacks_backup (w_fs st.1) target) ds)
  ∧ length (found_files st'.2)
    = length (found_files st.2) + length (List.filter (is_match (w_fs st.1) target) ds).
Proof.
  intros Hdry. revert st. induction ds as [|d ds IH]; intros st; cbn [fold_left].
  - cbn. split_and!; [done | lia | lia].
  - set (st1 := visit (scan_body E target wd ht dry) st d).
    destruct (IH st1) as (Hfs & Hp & Hf). clear IH.
    pose proof (scan_body_dry target wd ht dry d.1 d.2 (files_of (w_fs st.1) d.1) st Hdry)
      as (Hfs1 & _ & Hp1 & Hf1).
    change (scan_body E target wd ht dry d.1 d.2 (files_of (w_fs st.1) d.1) st)
      with st1 in Hfs1, Hp1, Hf1.
    change (name_in target (files_of (w_fs st.1) d.1) && negb (has_backup target (files_of (w_fs st.1) d.1)))
      with (lacks_backup (w_fs st.1) target d) in Hp1.
    change (name_in target (files_of (w_fs st.1) d.1))
      with (is_match (w_fs st.1) target d) in Hf1.
    cbn zeta in *. rewrite Hfs1 in Hfs, Hp, Hf. rewrite Hfs, Hp, Hf, Hp1, Hf1.
    cbn [List.filter].
    destruct (lacks_backup (w_fs st.1) target d), (is_match (w_fs st.1) target d);
      cbn [length]; split_and!; (done || lia).
Qed.

(** *** The catalogue *)

Lemma catalog_files_spec (root : string) (files : list string)
    (acc : list backup_record) :
  catalog_files root files acc
  = acc ++ map (fun file => MkBackupRecord (PyPath.join root file)
                              (PyPath.join root (BackupNamer.original_from file)) file)
             (List.filter BackupNamer.is_backup_name files).
Proof.
  unfold catalog_files. revert acc.
  induction files as [|file files IH]; intros acc; cbn [fold_left List.filter map].
  - by rewrite app_nil_r.
  - rewrite IH. destruct (BackupNamer.is_backup_name file); [| done].
    cbn [map]. by rewrite <- app_assoc.
Qed.

Lemma catalog_fold_spec (f : fs) (ds : list (string * list string))
    (st : world * list backup_record) :
  w_fs st.1 = f →
  fold_left (visit catalog_body) ds st
  = (st.1,
     st.2 ++ flat_map (fun d : string * list string =>
                 map (fun file => MkBackupRecord (PyPath.join d.1 file)
                                    (PyPath.join d.1 (BackupNamer.original_from file)) file)
                   (List.filter BackupNamer.is_backup_name (files_of f d.1))) ds).
Proof.
  revert st. induction ds as [|d ds IH]; intros [w acc] Hf; cbn [fold_left flat_map fst snd].
  - by rewrite app_nil_r.
  - unfold visit at 2, catalog_body. cbn [fst snd] in *.
    rewrite IH by done. cbn [fst snd]. rewrite catalog_files_spec, Hf.
    by rewrite <- app_assoc.
Qed.

(** *** A successful, real processing *)

Lemma sys_transform_ok_inv (path : string) (wd ht : Z) (w : world) (u : unit) :
  (sys_transform E path wd ht w).1 = Ok u →
  ∃ new, Os.write_file (w_fs w) path new = Ok (w_fs (sys_transform E path wd ht w).2).
Proof.
  unfold sys_transform. destruct (fault E _ _); [done |].
  destruct (Os.read_file _ _); [| done].
  destruct (pil E _ _ _) as [new|e junk]; [| done].
  destruct (Os.write_file _ _ new) eqn:Hw; [| done]. intros _. by exists new.
Qed.

Lemma process_image_success (path : string) (wd ht : Z) (dry : option bool) (w : world) :
  truthy_flag dry = false →
  (process_image E path wd ht dry w).1.1 = true →
  ∃ f1 new,
    Os.copy2 (w_fs w) path
      (BackupNamer.name_for path (Clock.strftime (clock E (w_tick w)))) = Ok f1
    ∧ Os.write_file f1 path new = Ok (w_fs (process_image E path wd ht dry w).2).
Proof.
  intros Hdry. rewrite process_image_real by done. cbn zeta.
  set (backup := BackupNamer.name_for _ _).
  pose proof (sys_copy2_ok_fs path backup (now E w).2) as Hco.
  destruct (sys_copy2 E _ _ (now E w).2) as [[u|e] w1]; cbn [fst snd] in *; [| done].
  destruct (Hco u eq_refl) as [_ Hcopy].
  pose proof (sys_transform_ok_inv path wd ht w1) as Hto.
  destruct (sys_transform E path wd ht w1) as [[u'|e'] w2]; cbn [fst snd] in *; [| done].
  intros _. destruct (Hto u' eq_refl) as [new Hw]. by exists (w_fs w1), new.
Qed.

(** *** Directories without the target *)

Lemma scan_fold_no_match (target : string) (wd ht : Z) (dry : option bool)
    (ds : list (string * list string)) (st : world * scan_locals) :
  (∀ x, x ∈ ds → is_match (w_fs st.1) target x = false) →
  fold_left (visit (scan_body E target wd ht dry)) ds st = st.
Proof.
  induction ds as [|d ds IH]; intros Hno; cbn [fold_left]; [done |].
  assert (visit (scan_body E target wd ht dry) st d = st) as ->.
  { unfold visit. apply scan_body_no_match. apply Hno. by apply elem_of_cons; left. }
  apply IH. intros x Hx. apply Hno. by apply elem_of_cons; right.
Qed.

Lemma filter_nil_all {A} (P : A → bool) (l : list A) :
  List.filter P l = [] → ∀ x, x ∈ l → P x = false.
Proof.
  induction l as [|a l IH]; [by intros _ x ?%elem_of_nil |]. cbn [List.filter].
  destruct (P a) eqn:Ha; [done |].
  intros Hl x [->|Hx]%elem_of_cons; [done | by apply IH].
Qed.

Lemma filter_singleton_split {A} (P : A → bool) (l : list A) (d : A) :
  List.filter P l = [d] →
  ∃ pre post, l = pre ++ d :: post
              ∧ (∀ x, x ∈ pre → P x = false) ∧ P d = true
              ∧ (∀ x, x ∈ post → P x = false).
Proof.
  induction l as [|a l IH]; [done |]. cbn [List.filter].
  destruct (P a) eqn:Ha.
  - intros [= -> Hl]. exists [], l. split_and!; [done | | done |].
    + by intros x ?%elem_of_nil.
    + by apply filter_nil_all.
  - intros Hl. destruct (IH Hl) as (pre & post & -> & Hpre & Hd & Hpost).
    exists (a :: pre), post. split_and!; [done | | done | done].
    intros x [->|Hx]%elem_of_cons; [done | by apply Hpre].
Qed.

(** A directory without the target before the files of [p] changed is
    without it afterwards, [p] being the one directory that has it. *)
Lemma no_match_elsewhere (f f' : fs) (target : string) (p : list string)
    (d x : string * list string) :
  tree f' = tree f →
  (∀ q, q ≠ p → Os.files_at f' q = Os.files_at f q) →
  PyPath.dir_of (tree f) d.1 = Some p →
  is_match f target d = true →
  is_match f target x = false →
  is_match f' target x = false.
Proof.
  intros Htree Hother Hd Hmd Hmx. unfold is_match in *.
  destruct (decide (PyPath.dir_of (tree f) x.1 = Some p)) as [Hx|Hx].
  - exfalso. assert (files_of f x.1 = files_of f d.1) as Heq.
    { unfold files_of, Os.scandir. by rewrite Hx, Hd. }
    congruence.
  - by rewrite (files_of_elsewhere f f' p).
Qed.

End EngineFacts.

(** ** What a run leaves in the log and in the trace *)

Section RunFacts.
Variable E : env.

Lemma sys_copy2_rest (src dst : string) (w : world) :
  w_log (sys_copy2 E src dst w).2 = w_log w
  ∧ w_tick (sys_copy2 E src dst w).2 = w_tick w.
Proof.
  unfold sys_copy2. destruct (fault E _ _); [done |].
  by destruct (Os.copy2 (w_fs w) src dst).
Qed.

Lemma sys_transform_rest (path : string) (wd ht : Z) (w : world) :
  w_log (sys_transform E path wd ht w).2 = w_log w
  ∧ w_tick (sys_transform E path wd ht w).2 = w_tick w.
Proof.
  unfold sys_transform. destruct (fault E _ _); [done |].
  destruct (Os.read_file _ _); [| done].
  destruct (pil E _ _ _) as [new|e junk]; [| done].
  by destruct (Os.write_file _ _ new).
Qed.

(** [process_image] writes nothing to the log: its caller does. *)
Lemma process_image_log (path : string) (wd ht : Z) (dry : option bool) (w : world) :
  w_log (process_image E path wd ht dry w).2 = w_log w.
Proof.
  unfold process_image, now. cbn [fst snd].
  destruct (truthy_flag dry); [done |].
  set (w0 := MkWorld _ _ _ _). set (backup := BackupNamer.name_for _ _).
  destruct (sys_copy2_rest path backup w0) as [Hc _].
  destruct (sys_copy2 E path backup w0) as [[u|e] w1]; cbn [snd] in *; [| done].
  destruct (sys_transform_rest path wd ht w1) as [Ht _].
  destruct (sys_transform E path wd ht w1) as [[u'|e'] w2]; cbn [snd] in *;
    by rewrite Ht, Hc.
Qed.

(** The log only grows: one record at most for each directory. *)
Lemma scan_body_log (target : string) (wd ht : Z) (dry : option bool)
    (root : string) (dirs files : list string) (st : world * scan_locals) :
  ∃ recs, w_log (scan_body E target wd ht dry root dirs files st).1
          = w_log st.1 ++ recs
          ∧ length recs = if name_in target files then 1 else 0.
Proof.
  destruct (name_in target files) eqn:Hin;
    [| rewrite scan_body_no_match by done; exists []; by rewrite app_nil_r].
  destruct (has_backup target files) eqn:Hb.
  - rewrite scan_body_skip by done. by eexists [_].
  - rewrite scan_body_process by done. cbn [fst logging w_log].
    rewrite process_image_log. by eexists [_].
Qed.






(** One log record for each file found, whatever becomes of it. *)
Lemma scan_fold_log (target : string) (wd ht : Z) (dry : option bool)
    (ds : list (string * list string)) (st : world * scan_locals) :
  let st' := fold_left (visit (scan_body E target wd ht dry)) ds st in
  ∃ recs, w_log st'.1 = w_log st.1 ++ recs
          ∧ length (found_files st'.2) = length (found_files st.2) + length recs.
Proof.
  revert st. induction ds as [|d ds IH]; intros st; cbn [fold_left].
  - exists []. rewrite app_nil_r. cbn [length]. split; [done | lia].
  - destruct (IH (visit (scan_body E target wd ht dry) st d)) as (recs & Hlog & Hlen).
    cbn zeta. rewrite Hlog, Hlen. unfold visit.
    destruct (scan_body_log target wd ht dry d.1 d.2 (files_of (w_fs st.1) d.1) st)
      as (recs1 & Hlog1 & Hlen1).
    exists (recs1 ++ recs). rewrite Hlog1, <- app_assoc, length_app, Hlen1.
    split; [done |].
    destruct (name_in target (files_of (w_fs st.1) d.1)) eqn:Hin.
    + destruct (has_backup target (files_of (w_fs st.1) d.1)) eqn:Hb.
      * rewrite scan_body_skip by done. cbn [snd found_files].
        rewrite length_app. cbn [length]. lia.
      * rewrite scan_body_process by done. cbn [snd found_files].
        rewrite length_app. cbn [length]. lia.
    + rewrite scan_body_no_match by done. lia.
Qed.

(** Directories that hold no target, or the target and a backup of it:
    the scan passes them and leaves only log records. *)
Lemma scan_fold_settled (target : string) (wd ht : Z) (dry : option bool)
    (ds : list (string * list string)) (st : world * scan_locals) :
  (∀ x, x ∈ ds → lacks_backup (w_fs st.1) target x = false) →
  let st' := fold_left (visit (scan_body E target wd ht dry)) ds st in
  w_fs st'.1 = w_fs st.1
  ∧ w_trace st'.1 = w_trace st.1
  ∧ w_tick st'.1 = w_tick st.1
  ∧ processed_count st'.2 = processed_count st.2
  ∧ length (found_files st'.2)
    = length (found_files st.2) + length (List.filter (is_match (w_fs st.1) target) ds)
  ∧ ∃ recs, w_log st'.1 = w_log st.1 ++ recs
            ∧ length recs = length (List.filter (is_match (w_fs st.1) target) ds).
Proof.
  revert st. induction ds as [|d ds IH]; intros st Hset; cbn [fold_left].
  - cbn. split_and!; [done | done | done | done | lia |].
    exists []. by rewrite app_nil_r.
  - assert (lacks_backup (w_fs st.1) target d = false) as Hd
      by (apply Hset; by apply elem_of_cons; left).
    set (st1 := visit (scan_body E target wd ht dry) st d).
    assert (w_fs st1.1 = w_fs st.1 ∧ w_trace st1.1 = w_trace st.1
            ∧ w_tick st1.1 = w_tick st.1
            ∧ processed_count st1.2 = processed_count st.2
            ∧ length (found_files st1.2)
              = length (found_files st.2)
                + (if is_match (w_fs st.1) target d then 1 else 0)
            ∧ ∃ recs, w_log st1.1 = w_log st.1 ++ recs
                      ∧ length recs = if is_match (w_fs st.1) target d then 1 else 0)
      as (Hfs & Htr & Htk & Hp & Hf & recs1 & Hlog & Hlen).
    { subst st1. unfold visit, lacks_backup, is_match in *.
      destruct (name_in target (files_of (w_fs st.1) d.1)) eqn:Hin.
      - cbn [andb] in Hd. apply negb_false_iff in Hd.
        rewrite scan_body_skip by done.
        cbn [fst snd found_files processed_count logging w_log].
        rewrite length_app. cbn [length].
        split_and!; [done | done | done | done | lia | by eexists [_]].
      - rewrite scan_body_no_match by done.
        split_and!; [done | done | done | done | lia |].
        exists []. by rewrite app_nil_r. }
    destruct (IH st1) as (Hfs' & Htr' & Htk' & Hp' & Hf' & recs & Hlog' & Hlen').
    { intros x Hx. rewrite Hfs. apply Hset. by apply elem_of_cons; right. }
    cbn zeta in *. rewrite Hfs', Htr', Htk', Hp', Hf', Hlog', Hfs, Htr, Htk, Hp, Hf, Hlog.
    rewrite Hfs in Hlen'.
    split_and!; [done | done | done | done | |].
    + cbn [List.filter]. destruct (is_match (w_fs st.1) target d); cbn [length]; lia.
    + exists (recs1 ++ recs). rewrite <- app_assoc, length_app, Hlen, Hlen'.
      split; [done |]. cbn [List.filter].
      destruct (is_match (w_fs st.1) target d); cbn [length]; lia.
Qed.


End RunFacts.

(** * The claims *)

(** ** Request validation *)

(** C9. A scan request in which the root path, the target file name,
    the width or the height is missing is answered with the request
    error 400 "Missing required fields"; a request with all four present
    whose root path is not a directory is answered with the different
    request error 404 "Directory does not exist".  Either answer carries
    no report, and the world (file system, system calls, service log) is
    left as it was. *)
Theorem scan_request_errors (E : env) (fuel : nat) (data : scan_request) (w : world) :
  (get (q_folder_path data) = None ∨ get (q_image_name data) = None
   ∨ get (q_width data) = None ∨ get (q_height data) = None →
   scan_and_resize E fuel data w = Some (ScanError 400 "Missing required fields", w))
  ∧ (∀ folder,
       get (q_folder_path data) = Some folder →
       truthy_str (get (q_folder_path data)) = true →
       truthy_str (get (q_image_name data)) = true →
       truthy_int (get (q_width data)) = true →
       truthy_int (get (q_height data)) = true →
       Os.isdir (w_fs w) folder = false →
       scan_and_resize E fuel data w = Some (ScanError 404 "Directory does not exist", w))
  ∧ ScanError 400 "Missing required fields" ≠ ScanError 404 "Directory does not exist".
Proof.
  split_and!; [| | done].
  - intros H. unfold scan_and_resize.
    destruct (get (q_folder_path data)), (get (q_image_name data)),
      (get (q_width data)), (get (q_height data)); try done;
      destruct H as [H|[H|[H|H]]]; done.
  - intros folder Hf H1 H2 H3 H4 Hdir. unfold scan_and_resize.
    rewrite Hf in *. rewrite H1, H2, H3, H4.
    destruct (get (q_image_name data)); [| done].
    destruct (get (q_width data)); [| done].
    destruct (get (q_height data)); [| done].
    cbn [andb negb]. by rewrite Hdir.
Qed.

Lemma scan_request_errors_witness :
  scan_and_resize Sample.quiet 0
    (MkScanRequest (Val "/") (Val "photo.png") Absent (Val 100%Z) (Val false)) Sample.fresh
  = Some (ScanError 400 "Missing required fields", Sample.fresh)
  ∧ scan_and_resize Sample.quiet 0
      (MkScanRequest (Val "/c") (Val "photo.png") (Val 100%Z) (Val 100%Z) (Val false))
      Sample.fresh
    = Some (ScanError 404 "Directory does not exist", Sample.fresh).
Proof.
  split.
  - apply (proj1 (scan_request_errors Sample.quiet 0 _ Sample.fresh)).
    right. right. left. reflexivity.
  - apply (proj1 (proj2 (scan_request_errors Sample.quiet 0 _ Sample.fresh)) "/c");
      reflexivity.
Defined.



(** ** The naming scheme *)

(** C2. For an original name [n] that does not contain the separator
    [".backup_"] and any timestamp [t], splitting the backup name
    [n + ".backup_" + t] at the first occurrence of the separator and
    keeping the left part gives back [n]. *)
Theorem naming_round_trip (n t : string) :
  PyStr.contains BackupNamer.SEP n = false →
  BackupNamer.original_from (BackupNamer.name_for n t) = n.
Proof.
  unfold BackupNamer.original_from, BackupNamer.name_for.
  induction n as [|c n IH]; intros Hn.
  - reflexivity.
  - apply PyStrFacts.contains_cons in Hn as [Hs Hc].
    rewrite PyStrFacts.app_cons. cbn [PyStr.split_head].
    rewrite <- PyStrFacts.app_cons, BackupNamerFacts.sep_no_overlap by done.
    by rewrite IH.
Qed.

Lemma naming_round_trip_witness :
  BackupNamer.original_from (BackupNamer.name_for "photo.png" "20261104120000")
  = "photo.png".
Proof. apply (naming_round_trip "photo.png" "20261104120000"). reflexivity. Defined.

(** ** Processing one file *)

(** C5. In a run that is not a dry run, [process_image] first attempts
    the backup copy.  If the copy fails the transform is not attempted:
    the outcome is a failure carrying the error text of the copy, and
    the file reads as it did before (a copy that failed half way may
    have left a part of a backup behind).  Otherwise the transform is
    attempted
    right after the successful copy; if it fails, the outcome is a
    failure carrying its error text; and whatever the transform does,
    the backup made by the copy is still on disk afterwards, holding the
    bytes the original had before. *)
Theorem backup_precedes_transform (E : env) (path : string) (wd ht : Z)
    (dry : option bool) (w : world) :
  truthy_flag dry = false →
  let backup := BackupNamer.name_for path (Clock.strftime (clock E (w_tick w))) in
  let res := process_image E path wd ht dry w in
  (∃ e, w_trace res.2 = w_trace w ++ [MkEvent (SysCopy path backup) (Some e)]
        ∧ res.1 = (false, e)
        ∧ Os.read_file (w_fs res.2) path = Os.read_file (w_fs w) path)
  ∨ (∃ r c,
       w_trace res.2
       = w_trace w ++ [MkEvent (SysCopy path backup) None;
                       MkEvent (SysTransform path wd ht) r]
       ∧ Os.read_file (w_fs w) path = Ok c
       ∧ Os.read_file (w_fs res.2) (Os.copy_target (w_fs w) path backup) = Ok c
       ∧ match r with
         | Some e => res.1 = (false, e)
         | None => res.1.1 = true
         end).
Proof.
  intros Hdry backup res. subst res.
  rewrite process_image_real by done. cbn zeta. fold backup.
  set (w0 := (now E w).2).
  assert (w_fs w0 = w_fs w ∧ w_trace w0 = w_trace w) as [Hfs0 Htr0] by done.
  pose proof (sys_copy2_trace E path backup w0) as Hct.
  pose proof (sys_copy2_raise_source E path backup w0) as Hcr.
  pose proof (sys_copy2_ok_fs E path backup w0) as Hco.
  destruct (sys_copy2 E path backup w0) as [[u|e] w1]; cbn [fst snd result_error] in *.
  - destruct (Hco u eq_refl) as [_ Hcopy]. rewrite Hfs0 in Hcopy.
    destruct (OsFacts.copy2_read_source _ _ _ _ Hcopy) as [c Hc].
    pose proof (sys_transform_trace E path wd ht w1) as Htt.
    pose proof (sys_transform_fs E path wd ht w1) as Htf.
    right. exists (result_error (sys_transform E path wd ht w1).1), c.
    assert (Os.read_file (w_fs (sys_transform E path wd ht w1).2)
              (Os.copy_target (w_fs w) path backup) = Ok c) as Hback.
    { rewrite <- Hc. destruct Htf as [-> | [bytes Hw]].
      - by apply OsFacts.copy2_read_back.
      - by eapply OsFacts.copy2_then_write. }
    destruct (sys_transform E path wd ht w1) as [[u'|e'] w2];
      cbn [fst snd result_error] in *;
      by rewrite Htt, Hct, Htr0, <- app_assoc.
  - left. exists e. by rewrite Hct, Htr0, (Hcr e eq_refl), Hfs0.
Qed.

Lemma backup_precedes_transform_witness :
  ∃ c, Os.read_file
         (w_fs (process_image Sample.quiet "/a/photo.png" 100 100 (Some false)
                  Sample.not_an_image).2)
         "/a/photo.png.backup_20261104120000" = Ok c
       ∧ (process_image Sample.quiet "/a/photo.png" 100 100 (Some false)
            Sample.not_an_image).1
         = (false, "cannot identify image file").
Proof.
  destruct (backup_precedes_transform Sample.quiet "/a/photo.png" 100 100 (Some false)
              Sample.not_an_image eq_refl) as [(e & H & _ & _) | (r & c & _ & _ & H & _)].
  - exfalso. revert H. vm_compute. discriminate.
  - exists c. split; [exact H | reflexivity].
Defined.

(** When the disk is full the backup copy fails with its destination
    already created, empty: the file is reported as failed and reads as
    before, no transform is attempted, and a torn backup is left. *)
Example backup_sample_disk_full :
  let res := process_image Sample.disk_full "/a/photo.png" 100 100 (Some false)
               Sample.single in
  res.1 = (false, "[Errno 28] No space left on device")
  ∧ Os.read_file (w_fs res.2) "/a/photo.png" = Ok Sample.png
  ∧ Os.read_file (w_fs res.2) "/a/photo.png.backup_20261104120000" = Ok []
  ∧ length (w_trace res.2) = 1.
Proof. by vm_compute. Qed.

(** ** Restore *)

(** C1. Each restore item is handled by copying the backup over the
    original and, only if that copy succeeded, attempting to delete the
    backup.  After a failed copy no deletion is attempted, the backup
    reads as it did before (the original may have been truncated or
    partly overwritten by the copy that failed), and the item is not
    counted; a failed deletion
    is not counted either; an item is counted as restored exactly when
    both steps succeeded, and then the backup is gone and the original
    path holds the bytes the backup had.  Over a whole request, every
    deletion attempt in the trace directly follows a successful copy of
    the same backup, and the restored count is the number of deletions
    that succeeded. *)
Theorem restore_protocol (E : env) :
  (∀ (st : world * restore_locals) (item : restore_item),
     let backup := i_backup_path item in
     let original := i_original_path item in
     let st' := restore_body E st item in
     (∃ e, w_trace st'.1 = w_trace st.1 ++ [MkEvent (SysCopy backup original) (Some e)]
           ∧ Os.read_file (w_fs st'.1) backup = Os.read_file (w_fs st.1) backup
           ∧ restored_count st'.2 = restored_count st.2
           ∧ logs st'.2 = logs st.2 ++ ["Error restoring " +:+ backup +:+ ": " +:+ e])
     ∨ (∃ e, w_trace st'.1
             = w_trace st.1 ++ [MkEvent (SysCopy backup original) None;
                                MkEvent (SysRemove backup) (Some e)]
             ∧ restored_count st'.2 = restored_count st.2
             ∧ logs st'.2 = logs st.2 ++ ["Error restoring " +:+ backup +:+ ": " +:+ e])
     ∨ (w_trace st'.1
        = w_trace st.1 ++ [MkEvent (SysCopy backup original) None;
                           MkEvent (SysRemove backup) None]
        ∧ restored_count st'.2 = S (restored_count st.2)
        ∧ logs st'.2
          = logs st.2 ++ ["Restored & Deleted Backup: " +:+ PyPath.basename original]
        ∧ ∃ c, Os.read_file (w_fs st.1) backup = Ok c
               ∧ Os.read_file (w_fs st'.1)
                   (Os.copy_target (w_fs st.1) backup original) = Ok c
               ∧ Os.read_file (w_fs st'.1) backup = Raise (Os.enoent backup)))
  ∧ (∀ (items : list restore_item) (w : world),
       let res := restore_files E items w in
       ∃ evs, w_trace res.2 = w_trace w ++ evs
              ∧ (∀ prev, removes_guarded prev evs = true)
              ∧ rr_restored res.1 = ok_removes evs
              ∧ length (rr_logs res.1) = length items).
Proof.
  assert (∀ (st : world * restore_locals) (item : restore_item),
     let backup := i_backup_path item in
     let original := i_original_path item in
     let st' := restore_body E st item in
     (∃ e, w_trace st'.1 = w_trace st.1 ++ [MkEvent (SysCopy backup original) (Some e)]
           ∧ Os.read_file (w_fs st'.1) backup = Os.read_file (w_fs st.1) backup
           ∧ restored_count st'.2 = restored_count st.2
           ∧ logs st'.2 = logs st.2 ++ ["Error restoring " +:+ backup +:+ ": " +:+ e])
     ∨ (∃ e, w_trace st'.1
             = w_trace st.1 ++ [MkEvent (SysCopy backup original) None;
                                MkEvent (SysRemove backup) (Some e)]
             ∧ restored_count st'.2 = restored_count st.2
             ∧ logs st'.2 = logs st.2 ++ ["Error restoring " +:+ backup +:+ ": " +:+ e])
     ∨ (w_trace st'.1
        = w_trace st.1 ++ [MkEvent (SysCopy backup original) None;
                           MkEvent (SysRemove backup) None]
        ∧ restored_count st'.2 = S (restored_count st.2)
        ∧ logs st'.2
          = logs st.2 ++ ["Restored & Deleted Backup: " +:+ PyPath.basename original]
        ∧ ∃ c, Os.read_file (w_fs st.1) backup = Ok c
               ∧ Os.read_file (w_fs st'.1)
                   (Os.copy_target (w_fs st.1) backup original) = Ok c
               ∧ Os.read_file (w_fs st'.1) backup = Raise (Os.enoent backup))) as Hitem.
  { intros [w l] item backup original st'. subst st'.
    unfold restore_body. fold backup original. unfold sys_remove.
    pose proof (sys_copy2_trace E backup original w) as Hct.
    pose proof (sys_copy2_raise_source E backup original w) as Hcr.
    pose proof (sys_copy2_ok_fs E backup original w) as Hco.
    destruct (sys_copy2 E backup original w) as [[u|e] w1];
      cbn [fst snd result_error] in *.
    - destruct (Hco u eq_refl) as [_ Hcopy].
      pose proof (sys_trace E (SysRemove backup)
                    (fun f => Os.remove_file f backup) w1) as Hrt.
      pose proof (sys_ok_fs E (SysRemove backup)
                    (fun f => Os.remove_file f backup) w1) as Hro.
      destruct (sys E (SysRemove backup) _ w1) as [[u'|e'] w2];
        cbn [fst snd result_error] in *.
      + right. right. destruct (Hro u' eq_refl) as [_ Hrm].
        destruct (OsFacts.copy2_read_source _ _ _ _ Hcopy) as [c Hc].
        destruct (OsFacts.copy2_then_remove _ _ _ _ _ Hcopy Hrm) as [Hback Hgone].
        split_and!; try done.
        * by rewrite Hrt, Hct, <- app_assoc.
        * exists c. by rewrite Hback.
      + right. left. exists e'. by rewrite Hrt, Hct, <- app_assoc.
    - left. exists e. by rewrite Hct, (Hcr e eq_refl). }
  split; [exact Hitem |].
  intros items w res. subst res. unfold restore_files.
  assert (∀ st, ∃ evs,
            w_trace (fold_left (restore_body E) items st).1 = w_trace st.1 ++ evs
            ∧ (∀ prev, removes_guarded prev evs = true)
            ∧ restored_count (fold_left (restore_body E) items st).2
              = restored_count st.2 + ok_removes evs
            ∧ length (logs (fold_left (restore_body E) items st).2)
              = length (logs st.2) + length items) as Hfold.
  { induction items as [|item items IH]; intros st.
    - exists []. cbn [fold_left length]. rewrite app_nil_r. unfold ok_removes.
      cbn. split_and!; [done | done | lia | lia].
    - cbn [fold_left]. destruct (IH (restore_body E st item)) as (evs & Ht & Hg & Hc & Hl).
      rewrite Ht, Hc, Hl. clear Ht Hc Hl IH.
      destruct (Hitem st item) as [(e & Ht & _ & Hc & Hl)
                                  | [(e & Ht & Hc & Hl) | (Ht & Hc & Hl & _)]];
        rewrite Ht, Hc, Hl, <- app_assoc, length_app; cbn [length];
        eexists; (split; [reflexivity |]); unfold ok_removes in *;
        cbn [app List.filter is_ok_remove removes_guarded ev_call length];
        rewrite ?bool_decide_eq_true_2 by done; cbn [andb];
        (split_and!; [intros; apply Hg | lia | lia]). }
  destruct (Hfold (w, MkRestoreLocals 0 [])) as (evs & Ht & Hg & Hc & Hl).
  destruct (fold_left _ _ _) as [w' l']. cbn [fst snd] in *.
  exists evs. cbn [rr_restored rr_logs restored_count logs length] in *.
  split_and!; [done | done | lia | lia].
Qed.

(** Two items on the sample tree: the first backup is restored and
    deleted, the second does not exist. *)
Example restore_sample :
  (restore_files Sample.quiet
     [MkRestoreItem "/b/photo.png.backup_20250101000000" "/b/photo.png";
      MkRestoreItem "/b/missing" "/b/photo.png"] Sample.backed_up).1
  = MkRestoreReport "completed" 1
      ["Restored & Deleted Backup: photo.png";
       "Error restoring /b/missing: [Errno 2] No such file or directory: '/b/missing'"].
Proof. by vm_compute. Qed.

(** When the deletion is refused the item is not counted, although its
    copy succeeded. *)
Example restore_sample_no_delete :
  (restore_files Sample.no_delete
     [MkRestoreItem "/b/photo.png.backup_20250101000000" "/b/photo.png"]
     Sample.backed_up).1
  = MkRestoreReport "completed" 0
      ["Error restoring /b/photo.png.backup_20250101000000: [Errno 13] Permission denied"].
Proof. by vm_compute. Qed.

(** When the disk is full the copy fails after it has opened the
    original for writing: the original is left empty, the backup is
    kept, and the item is not counted. *)
Example restore_sample_disk_full :
  let res := restore_files Sample.disk_full
               [MkRestoreItem "/b/photo.png.backup_20250101000000" "/b/photo.png"]
               Sample.backed_up in
  rr_restored res.1 = 0
  ∧ Os.read_file (w_fs res.2) "/b/photo.png" = Ok []
  ∧ Os.read_file (w_fs res.2) "/b/photo.png.backup_20250101000000" = Ok Sample.png.
Proof. by vm_compute. Qed.

(** ** The scan *)

(** C6. When the walk reaches a directory that holds the target file,
    the scan decides between skipping and processing from the files of
    that directory alone: it skips exactly when one of them has a name
    that starts with the target name followed by [".backup_"].  A
    skipped file gets the log line "Skipped (Backup already exists)", is
    added to the files found and not to the processed count, and no
    system call is made and the file system is untouched, whatever the
    dry-run flag.  When no file of the directory is such a backup the
    file is handed to [process_image], whatever the other directories
    of the tree hold. *)
Theorem skip_decided_in_same_directory (E : env) (target : string) (wd ht : Z)
    (dry : option bool) (st : world * scan_locals) (d : string * list string) :
  let files := files_of (w_fs st.1) d.1 in
  let full_path := PyPath.join d.1 target in
  let st' := visit (scan_body E target wd ht dry) st d in
  name_in target files = true →
  (has_backup target files = true
   ↔ ∃ f, f ∈ files ∧ PyStr.startswith (target +:+ ".backup_") f = true)
  ∧ (has_backup target files = true →
     details st'.2
     = details st.2
       ++ ["[SKIPPED] " +:+ full_path +:+ " -> Skipped (Backup already exists)"]
     ∧ found_files st'.2 = found_files st.2 ++ [full_path]
     ∧ processed_count st'.2 = processed_count st.2
     ∧ w_fs st'.1 = w_fs st.1
     ∧ w_trace st'.1 = w_trace st.1)
  ∧ (has_backup target files = false →
     let res := process_image E full_path wd ht dry st.1 in
     details st'.2 = details st.2 ++ [outcome_line full_path res.1]
     ∧ found_files st'.2 = found_files st.2 ++ [full_path]
     ∧ w_fs st'.1 = w_fs res.2
     ∧ w_trace st'.1 = w_trace res.2).
Proof.
  intros files full_path st' Hin. subst st'. unfold visit. fold files.
  split_and!.
  - unfold has_backup. rewrite existsb_exists. split.
    + intros (f & Hf%list_elem_of_In & Hs). by exists f.
    + intros (f & Hf%list_elem_of_In & Hs). by exists f.
  - intros Hb. by rewrite scan_body_skip.
  - intros Hb. rewrite scan_body_process by done. fold full_path.
    cbn [fst snd details found_files]. done.
Qed.

Lemma skip_decided_in_same_directory_witness :
  details (visit (scan_body Sample.quiet "photo.png" 100 100 (Some true))
             (Sample.backed_up, MkScanLocals [] 0 []) ("/b", [])).2
  = ["[SKIPPED] /b/photo.png -> Skipped (Backup already exists)"]
  ∧ details (visit (scan_body Sample.quiet "photo.png" 100 100 (Some false))
               (Sample.backed_up, MkScanLocals [] 0 []) ("/a", [])).2
    = ["[OK] /a/photo.png -> Success (Backup: photo.png.backup_20261104120000)"].
Proof.
  split.
  - destruct (skip_decided_in_same_directory Sample.quiet "photo.png" 100 100
                (Some true) (Sample.backed_up, MkScanLocals [] 0 []) ("/b", []))
      as (_ & H & _); [by vm_compute |].
    destruct H as [H _]; [by vm_compute |]. exact H.
  - destruct (skip_decided_in_same_directory Sample.quiet "photo.png" 100 100
                (Some false) (Sample.backed_up, MkScanLocals [] 0 []) ("/a", []))
      as (_ & _ & H); [by vm_compute |].
    destruct H as [H _]; [by vm_compute |]. rewrite H. by vm_compute.
Defined.

(** C7. A failure while processing one file does not end the scan.
    Each directory in which the target is found adds exactly one line
    to the log, tagged OK, SKIPPED or FAIL, and one entry to the files
    found, and a directory without the target adds nothing; so in every
    report [files_found] is the number of log lines and [processed] the
    number of OK lines.  A valid request on a well-formed tree, given
    fuel for every directory, always ends with a report, and that report
    is the result of visiting every directory of the walk in order,
    whatever happened at the directories before. *)
Theorem scan_failures_are_file_local (E : env) (fuel : nat) (data : scan_request)
    (w : world) :
  (∀ target wd ht dry (st : world * scan_locals) (d : string * list string),
     let st' := visit (scan_body E target wd ht dry) st d in
     if name_in target (files_of (w_fs st.1) d.1) then
       ∃ line, details st'.2 = details st.2 ++ [line] ∧ tagged line = true
               ∧ found_files st'.2 = found_files st.2 ++ [PyPath.join d.1 target]
     else st' = st)
  ∧ (∀ r w', scan_and_resize E fuel data w = Some (ScanCompleted r, w') →
       r_files_found r = length (r_logs r)
       ∧ Forall (fun line => tagged line = true) (r_logs r)
       ∧ r_processed r = ok_lines (r_logs r))
  ∧ (∀ folder target wd ht,
       get (q_folder_path data) = Some folder →
       get (q_image_name data) = Some target →
       get (q_width data) = Some wd →
       get (q_height data) = Some ht →
       folder ≠ "" → target ≠ "" → wd ≠ 0%Z → ht ≠ 0%Z →
       Os.isdir (w_fs w) folder = true →
       wf_skel (tree (w_fs w)) = true →
       walk_cost (w_fs w) folder ≤ fuel →
       let dry := get_default (q_dry_run data) false in
       let final := fold_left (visit (scan_body E target wd ht dry))
                      (walk_dirs (w_fs w) folder)
                      (scan_start folder dry w, MkScanLocals [] 0 []) in
       scan_and_resize E fuel data w
       = Some (ScanCompleted (report_of dry folder final.2), final.1)).
Proof.
  split_and!.
  - intros target wd ht dry st d st'. subst st'. unfold visit.
    destruct (name_in target _) eqn:Hin; [| by apply scan_body_no_match].
    destruct (has_backup target (files_of (w_fs st.1) d.1)) eqn:Hb.
    + rewrite scan_body_skip by done. by eexists.
    + rewrite scan_body_process by done. eexists. cbn [snd details found_files].
      split_and!; [done | apply tagged_outcome | done].
  - intros r w' Hscan.
    apply scan_and_resize_completed in Hscan
      as (folder & target & wd & ht & st & Hloop & -> & ->).
    cbn zeta in Hloop. cbn [report_of r_files_found r_logs r_processed].
    eapply (for_os_walk_inv (fun s => scan_inv s.2)) in Hloop; [exact Hloop | |].
    + intros top dirs files s. apply scan_body_inv.
    + by split_and!.
  - intros folder target wd ht Hf Ht Hw Hh Hf0 Ht0 Hw0 Hh0 Hdir Hwf Hfuel dry final.
    rewrite (scan_and_resize_valid E fuel data w folder target wd ht) by done.
    fold dry. rewrite (WalkFacts.for_os_walk_dirs _ (scan_body_tree E target wd ht dry));
      done.
Qed.

Lemma scan_failures_are_file_local_witness :
  scan_and_resize Sample.quiet 3 (Sample.request (Val false)) Sample.not_an_image
  = Some (ScanCompleted
            (MkScanReport "completed" (Some false) "/" 1 0
               ["[FAIL] /a/photo.png -> cannot identify image file"]),
          (fold_left (visit (scan_body Sample.quiet "photo.png" 100 100 (Some false)))
             (walk_dirs (w_fs Sample.not_an_image) "/")
             (scan_start "/" (Some false) Sample.not_an_image, MkScanLocals [] 0 [])).1).
Proof.
  rewrite (proj2 (proj2 (scan_failures_are_file_local Sample.quiet 3
                           (Sample.request (Val false)) Sample.not_an_image))
             "/" "photo.png" 100%Z 100%Z); done.
Defined.

(** C4, as stated, fails: a dry run is not without effect on the files.
    Every request that passes validation appends the record of its
    start, and one record for each file it finds, to [service.log]. *)
Lemma dry_run_writes_service_log :
  ∃ r w',
    scan_and_resize Sample.quiet 3 (Sample.request (Val true)) Sample.fresh
    = Some (ScanCompleted r, w')
    ∧ ¬ files_unchanged Sample.fresh w'.
Proof.
  eexists _, _. split; [by vm_compute |].
  intros [_ Hlog]. apply (f_equal length) in Hlog. by vm_compute in Hlog.
Qed.

(** C4, amended.  A scan whose [dry_run] flag is true makes no system
    call (no copy, no transform, no deletion) and, whatever it answers,
    leaves every file other than the service log exactly as it was; to
    the service log it only appends.  On a valid request its report
    still counts as processed every directory of the walk that holds the
    target file and no backup of it among its own files, and the records
    appended to the service log are that of the start of the scan and
    one more for each file found. *)
Theorem dry_run_purity (E : env) (fuel : nat) (data : scan_request) (w : world) :
  truthy_flag (get_default (q_dry_run data) false) = true →
  (∀ resp w', scan_and_resize E fuel data w = Some (resp, w') →
     w_fs w' = w_fs w ∧ w_trace w' = w_trace w
     ∧ ∃ recs, w_log w' = w_log w ++ recs)
  ∧ (∀ folder target wd ht,
       get (q_folder_path data) = Some folder →
       get (q_image_name data) = Some target →
       get (q_width data) = Some wd →
       get (q_height data) = Some ht →
       folder ≠ "" → target ≠ "" → wd ≠ 0%Z → ht ≠ 0%Z →
       Os.isdir (w_fs w) folder = true →
       wf_skel (tree (w_fs w)) = true →
       walk_cost (w_fs w) folder ≤ fuel →
       ∃ r w',
         scan_and_resize E fuel data w = Some (ScanCompleted r, w')
         ∧ r_processed r
           = length (List.filter (lacks_backup (w_fs w) target)
                       (walk_dirs (w_fs w) folder))
         ∧ r_files_found r
           = length (List.filter (is_match (w_fs w) target)
                       (walk_dirs (w_fs w) folder))
         ∧ ∃ recs,
             w_log w'
             = w_log w
               ++ (INFO, "Scan started in " +:+ folder +:+ ". Dry Run: "
                         +:+ flag_text (get_default (q_dry_run data) false)) :: recs
             ∧ length recs = r_files_found r).
Proof.
  intros Hdry. split.
  - intros resp w'. unfold scan_and_resize.
    assert (∃ recs, w_log w = w_log w ++ recs) as Hsame
      by (exists []; by rewrite app_nil_r).
    destruct (get (q_folder_path data)) as [folder|]; [| by intros [= <- <-]].
    destruct (get (q_image_name data)) as [target|]; [| by intros [= <- <-]].
    destruct (get (q_width data)) as [wd|]; [| by intros [= <- <-]].
    destruct (get (q_height data)) as [ht|]; [| by intros [= <- <-]].
    destruct (negb (_ && _ && _ && _)); [by intros [= <- <-] |].
    destruct (negb (Os.isdir _ _)); [by intros [= <- <-] |].
    destruct (for_os_walk _ _ _ _) as [[w1 l]|] eqn:Hloop; [| done].
    intros [= <- <-].
    eapply (for_os_walk_inv
              (fun s => w_fs s.1 = w_fs w ∧ w_trace s.1 = w_trace w
                        ∧ ∃ recs, w_log s.1 = w_log w ++ recs)) in Hloop;
      [exact Hloop | |].
    + intros top dirs files s (Hfs & Htr & recs & Hlog).
      destruct (scan_body_dry E target wd ht _ top dirs files s Hdry) as (H1 & H2 & _).
      destruct (scan_body_log E target wd ht (get_default (q_dry_run data) false)
                  top dirs files s) as (recs' & Hlog' & _).
      rewrite H1, H2, Hlog', Hlog. split_and!; [done | done |].
      exists (recs ++ recs'). by rewrite <- app_assoc.
    + cbn [fst logging w_fs w_trace w_log]. split_and!; [done | done | by eexists].
  - intros folder target wd ht Hf Ht Hw Hh Hf0 Ht0 Hw0 Hh0 Hdir Hwf Hfuel.
    rewrite (scan_and_resize_valid E fuel data w folder target wd ht) by done.
    cbn zeta.
    rewrite (WalkFacts.for_os_walk_dirs _ (scan_body_tree E target wd ht _)) by done.
    destruct (scan_fold_dry E target wd ht _ (walk_dirs (w_fs w) folder)
                (scan_start folder (get_default (q_dry_run data) false) w,
                 MkScanLocals [] 0 []) Hdry) as (_ & Hp & Hfound).
    destruct (scan_fold_log E target wd ht (get_default (q_dry_run data) false)
                (walk_dirs (w_fs w) folder)
                (scan_start folder (get_default (q_dry_run data) false) w,
                 MkScanLocals [] 0 [])) as (recs & Hlog & Hlen).
    eexists _, _. split; [reflexivity |].
    cbn [report_of r_processed r_files_found fst snd].
    cbn [fst snd processed_count found_files length] in Hp, Hfound, Hlen.
    change (w_fs (scan_start folder (get_default (q_dry_run data) false) w))
      with (w_fs w) in *.
    rewrite Hp, Hfound. split_and!; [done | done |].
    exists recs. rewrite Hlog. unfold scan_start, logging. cbn [w_log fst].
    rewrite <- app_assoc. split; [done |]. lia.
Qed.

Lemma dry_run_purity_witness :
  ∃ r w',
    scan_and_resize Sample.quiet 3 (Sample.request (Val true)) Sample.backed_up
    = Some (ScanCompleted r, w')
    ∧ r_processed r = 1 ∧ r_files_found r = 2
    ∧ w_fs w' = w_fs Sample.backed_up ∧ w_trace w' = []
    ∧ length (w_log w') = 3.
Proof.
  destruct (dry_run_purity Sample.quiet 3 (Sample.request (Val true)) Sample.backed_up
              eq_refl) as [Hpure Hcount].
  destruct (Hcount "/" "photo.png" 100%Z 100%Z)
    as (r & w' & Hscan & Hp & Hf & recs & Hlog & Hlen);
    [done | done | done | done | done | done | done | done | by vm_compute
    | by vm_compute | vm_compute; lia |].
  exists r, w'. destruct (Hpure _ _ Hscan) as (Hfs & Htr & _).
  split_and!; [done | by rewrite Hp | by rewrite Hf | done | done |].
  rewrite Hlog, length_app. cbn [length]. rewrite Hlen, Hf. by vm_compute.
Defined.

(** ** The catalogue of backups *)

(** C8. On a well-formed tree, and given fuel for every directory,
    [scan_backups] answers with one record for every file of every
    directory of the walk whose name contains [".backup_"] anywhere, in
    walk and listing order: its backup path is the directory joined with
    the file name, its file name is that name, and its original path is
    the directory joined with what is left of the first [".backup_"] in
    the name.  Every record comes from a name that contains the marker,
    and the world is left as it was. *)
Theorem catalogue_of_backups (fuel : nat) (folder : string) (w : world) :
  wf_skel (tree (w_fs w)) = true →
  Os.isdir (w_fs w) folder = true →
  walk_cost (w_fs w) folder ≤ fuel →
  scan_backups fuel (Val folder) w
  = Some (BackupsFound (find_backups_spec (w_fs w) folder), w)
  ∧ Forall (fun r => BackupNamer.is_backup_name (filename r) = true
                     ∧ PyStr.contains ".backup_" (filename r) = true)
      (find_backups_spec (w_fs w) folder)
  ∧ (∀ d file,
       d ∈ walk_dirs (w_fs w) folder →
       file ∈ files_of (w_fs w) d.1 →
       PyStr.contains ".backup_" file = true →
       MkBackupRecord (PyPath.join d.1 file)
         (PyPath.join d.1 (PyStr.split_head ".backup_" file)) file
       ∈ find_backups_spec (w_fs w) folder).
Proof.
  intros Hwf Hdir Hfuel. split_and!.
  - unfold scan_backups. cbn [get]. rewrite Hdir. cbn [negb].
    rewrite (WalkFacts.for_os_walk_dirs catalog_body) by done.
    cbn [fst]. by rewrite (catalog_fold_spec (w_fs w)).
  - unfold find_backups_spec. apply Forall_forall. intros r Hr.
    apply list_elem_of_In, in_flat_map in Hr as (d & _ & Hr).
    apply in_map_iff in Hr as (file & <- & Hfile).
    apply filter_In in Hfile as [_ Hfile]. done.
  - intros d file Hd Hfile Hmark. unfold find_backups_spec.
    apply list_elem_of_In, in_flat_map. exists d. split; [by apply list_elem_of_In |].
    apply in_map_iff. exists file. split; [done |].
    apply filter_In. split; [by apply list_elem_of_In | done].
Qed.

Lemma catalogue_of_backups_witness :
  scan_backups 3 (Val "/") Sample.backed_up
  = Some (BackupsFound
            [MkBackupRecord "/b/photo.png.backup_20250101000000" "/b/photo.png"
               "photo.png.backup_20250101000000";
             MkBackupRecord "/b/notes.backup_old.txt" "/b/notes" "notes.backup_old.txt"],
          Sample.backed_up).
Proof.
  destruct (catalogue_of_backups 3 "/" Sample.backed_up) as (H & _ & _);
    [by vm_compute | by vm_compute | by vm_compute |].
  rewrite H. by vm_compute.
Defined.

(** ** Scanning twice *)

(** C3, as stated, fails: a tree whose one match is not an image has its
    backup made and its transform refused, so the first run reports the
    file as failed and counts nothing as processed. *)
Lemma rescan_counterexample :
  one_match_no_backup (w_fs Sample.not_an_image) "/" "photo.png" ("/a", [])
  ∧ ¬ rescan_is_idempotent Sample.quiet 3 (Sample.request (Val false))
        Sample.not_an_image.
Proof.
  split; [by vm_compute |].
  intros (r1 & w1 & r2 & w2 & line1 & line2 & H1 & _ & _ & Hp & _).
  apply (f_equal (fun o : option (scan_response * world) =>
                    match o with
                    | Some (ScanCompleted r, _) => r_processed r
                    | _ => 0
                    end)) in H1.
  cbv beta iota in H1. rewrite Hp in H1. vm_compute in H1. discriminate.
Qed.

(** C3, amended.  On a well-formed tree that holds the target, a proper
    file name, in exactly one directory, with no entry of that directory
    named like a backup of it: if the backup copy and the transform of
    the first, real run succeed, then that run reports one file found
    and one processed, with an OK line, and a second run with the same
    request on the resulting world reports one file found and none
    processed, with a SKIPPED line. *)
Theorem rescan_after_success (E : env) (fuel : nat) (data : scan_request) (w : world)
    (folder target : string) (wd ht : Z) (d : string * list string) :
  get (q_folder_path data) = Some folder →
  get (q_image_name data) = Some target →
  get (q_width data) = Some wd →
  get (q_height data) = Some ht →
  folder ≠ "" → wd ≠ 0%Z → ht ≠ 0%Z →
  valid_name target = true →
  let dry := get_default (q_dry_run data) false in
  truthy_flag dry = false →
  Os.isdir (w_fs w) folder = true →
  wf_skel (tree (w_fs w)) = true →
  walk_cost (w_fs w) folder ≤ fuel →
  one_match_no_backup (w_fs w) folder target d →
  (process_image E (PyPath.join d.1 target) wd ht dry (scan_start folder dry w)).1.1
  = true →
  rescan_is_idempotent E fuel data w.
Proof.
  intros Hf Ht Hw Hh Hf0 Hw0 Hh0 Hval dry Hdry Hdir Hwf Hfuel (Hone & Hnbf & Hnbd) Hsucc.
  assert (target ≠ "") as Ht0 by (by apply PyPathFacts.valid_name_inv in Hval as [? _]).
  set (f := w_fs w) in *. set (w0 := scan_start folder dry w) in *.
  set (fp := PyPath.join d.1 target) in *.
  set (res := process_image E fp wd ht dry w0) in *.
  destruct (filter_singleton_split _ _ _ Hone) as (pre & post & Hds & Hpre & Hmd & Hpost).
  assert (d ∈ walk_dirs f folder) as Hdin.
  { rewrite Hds. apply elem_of_app. right. by apply elem_of_cons; left. }
  destruct (WalkFacts.walk_dirs_scandir f folder d Hwf Hdin) as (p & t & Hp & Hsk & Hd2).
  destruct (process_image_success E fp wd ht dry w0 Hdry Hsucc)
    as (f1 & new & Hcopy & Hwrite).
  fold res in Hwrite. rewrite Hd2 in Hnbd.
  destruct (OsFacts.backup_lands_in_directory f f1 (w_fs res.2) d.1 target
              (Clock.strftime (clock E (w_tick w0))) p t new Hp Hsk Hval
              (ClockFacts.strftime_no_slash _) Hnbd Hcopy Hwrite)
    as (Htree & Hother & Htgt & Hbk).
  set (f2 := w_fs res.2) in *.
  (* the first run *)
  set (st1 := (logging INFO ("Processed: " +:+ fp +:+ " - " +:+ res.1.2) res.2,
               MkScanLocals [fp] 1 [outcome_line fp res.1])).
  assert (fold_left (visit (scan_body E target wd ht dry)) (walk_dirs f folder)
            (w0, MkScanLocals [] 0 []) = st1) as Hrun1.
  { rewrite Hds, fold_left_app.
    rewrite (scan_fold_no_match E target wd ht dry pre) by exact Hpre.
    cbn [fold_left].
    assert (visit (scan_body E target wd ht dry) (w0, MkScanLocals [] 0 []) d = st1)
      as ->.
    { unfold visit. rewrite scan_body_process by done. cbn [fst snd].
      fold fp res. rewrite Hsucc. done. }
    apply scan_fold_no_match. intros x Hx.
    by apply (no_match_elsewhere f f2 target p d x), Hpost. }
  (* the second run *)
  set (w1 := st1.1).
  assert (tree (w_fs w1) = tree f) as Htree1 by done.
  set (w2 := scan_start folder dry w1).
  set (st2 := (logging INFO ("Skipping " +:+ fp +:+ " because a backup was found.") w2,
               MkScanLocals [fp] 0 [skipped_line fp])).
  assert (fold_left (visit (scan_body E target wd ht dry)) (walk_dirs f folder)
            (w2, MkScanLocals [] 0 []) = st2) as Hrun2.
  { rewrite Hds, fold_left_app.
    rewrite (scan_fold_no_match E target wd ht dry pre); cycle 1.
    { intros x Hx. by apply (no_match_elsewhere f f2 target p d x), Hpre. }
    cbn [fold_left].
    assert (visit (scan_body E target wd ht dry) (w2, MkScanLocals [] 0 []) d = st2)
      as ->.
    { unfold visit. cbn [fst snd].
      assert (files_of (w_fs w2) d.1 = map fst (Os.files_at f2 p)) as ->.
      { apply (OsFacts.files_of_dir _ _ p t);
          change (tree (w_fs w2)) with (tree f2); by rewrite Htree. }
      rewrite scan_body_skip; [done | by apply bool_decide_eq_true_2 |].
      eapply OsFacts.has_backup_true; [exact Hbk |].
      apply ClockFacts.backup_is_backup_of. }
    apply scan_fold_no_match. intros x Hx.
    by apply (no_match_elsewhere f f2 target p d x), Hpost. }
  exists (report_of dry folder st1.2), w1, (report_of dry folder st2.2), st2.1,
    (outcome_line fp res.1), (skipped_line fp).
  split_and!; try done.
  - rewrite (scan_and_resize_valid E fuel data w folder target wd ht) by done.
    fold dry w0.
    rewrite (WalkFacts.for_os_walk_dirs _ (scan_body_tree E target wd ht dry)) by done.
    change (w_fs (w0, MkScanLocals [] 0 []).1) with f. by rewrite Hrun1.
  - assert (Os.isdir (w_fs w1) folder = true) as Hdir1.
    { unfold Os.isdir in *. by rewrite Htree1. }
    rewrite (scan_and_resize_valid E fuel data w1 folder target wd ht) by done.
    fold dry w2.
    rewrite (WalkFacts.for_os_walk_dirs _ (scan_body_tree E target wd ht dry));
      cbn [fst]; change (w_fs w2) with (w_fs w1);
      rewrite ?(WalkFacts.walk_dirs_tree f (w_fs w1)), ?Htree1; try done.
    + by rewrite Hrun2.
    + unfold walk_cost. by rewrite (WalkFacts.walk_dirs_tree f (w_fs w1)).
  - destruct res.1 as [ok msg]. cbn [fst] in Hsucc. by subst ok.
Qed.

Lemma rescan_after_success_witness :
  rescan_is_idempotent Sample.quiet 3 (Sample.request (Val false)) Sample.single.
Proof.
  apply (rescan_after_success Sample.quiet 3 (Sample.request (Val false)) Sample.single
           "/" "photo.png" 100%Z 100%Z ("/a", [])); try done; by vm_compute.
Defined.

(** * Further properties of the engine *)

(** ** Processing and restoring one file *)

Section EngineMoreFacts.
Variable E : env.
Import Os OsFacts OsMoreFacts.

(** A copy that cannot open its files: the item fails, and nothing is
    written. *)
Lemma restore_body_failed_copy (st : world * restore_locals) (item : restore_item)
    (e0 : string) :
  copy2 (w_fs st.1) (i_backup_path item) (i_original_path item) = Raise e0 →
  let st' := restore_body E st item in
  ∃ e,
    w_fs st'.1 = w_fs st.1
    ∧ w_trace st'.1
      = w_trace st.1
        ++ [MkEvent (SysCopy (i_backup_path item) (i_original_path item)) (Some e)]
    ∧ restored_count st'.2 = restored_count st.2
    ∧ logs st'.2 = logs st.2 ++ ["Error restoring " +:+ i_backup_path item +:+ ": " +:+ e].
Proof.
  destruct st as [w l]. cbn [fst]. unfold restore_body. intros Hc.
  pose proof (sys_copy2_trace E (i_backup_path item) (i_original_path item) w) as Ht.
  destruct (sys_copy2_op_raise E _ _ w e0 Hc) as (e & He & Hf).
  destruct (sys_copy2 E _ _ w) as [[u|e'] w1]; cbn [fst snd result_error] in *; [done |].
  injection He as ->. exists e. by rewrite Ht, Hf.
Qed.

Lemma restore_body_counted (st : world * restore_locals) (item : restore_item) :
  restored_count (restore_body E st item).2 = S (restored_count st.2) →
  ∃ f1, copy2 (w_fs st.1) (i_backup_path item) (i_original_path item) = Ok f1
        ∧ remove_file f1 (i_backup_path item) = Ok (w_fs (restore_body E st item).1).
Proof.
  destruct st as [w l]. cbn [fst snd]. unfold restore_body, sys_remove.
  pose proof (sys_copy2_ok_fs E (i_backup_path item) (i_original_path item) w) as Hc.
  destruct (sys_copy2 E _ _ w) as [[u|e] w1]; cbn [fst snd] in *;
    [| cbn [restored_count]; lia].
  destruct (Hc u eq_refl) as [_ Hcopy].
  pose proof (sys_ok_fs E (SysRemove (i_backup_path item))
                (fun f => remove_file f (i_backup_path item)) w1) as Hr.
  destruct (sys E (SysRemove _) _ w1) as [[u'|e'] w2]; cbn [fst snd] in *;
    [| cbn [restored_count]; lia].
  destruct (Hr u' eq_refl) as [_ Hrm]. intros _. by exists (w_fs w1).
Qed.

End EngineMoreFacts.

(** X1. Undoing a processed file.  When a real [process_image] of a
    file succeeded and its backup path did not name a directory, a
    restore of that backup onto the file that is counted as restored
    leaves the file with exactly the bytes it had before it was
    processed, and the backup is gone. *)
Theorem process_then_restore (E : env) (path : string) (wd ht : Z) (dry : option bool)
    (w : world) (st : world * restore_locals) :
  truthy_flag dry = false →
  let backup := BackupNamer.name_for path (Clock.strftime (clock E (w_tick w))) in
  let res := process_image E path wd ht dry w in
  res.1.1 = true →
  Os.isdir (w_fs w) backup = false →
  w_fs st.1 = w_fs res.2 →
  let st' := restore_body E st (MkRestoreItem backup path) in
  restored_count st'.2 = S (restored_count st.2) →
  (∃ c, Os.read_file (w_fs w) path = Ok c ∧ Os.read_file (w_fs st'.1) path = Ok c)
  ∧ Os.read_file (w_fs st'.1) backup = Raise (Os.enoent backup).
Proof.
  intros Hdry backup res Hsucc Hnotdir Hfs st' Hcount. subst st'.
  destruct (process_image_success E path wd ht dry w Hdry Hsucc)
    as (f1 & new & Hcopy & Hwrite).
  fold backup res in Hcopy, Hwrite.
  destruct (restore_body_counted E st _ Hcount) as (f3 & Hback & Hrm).
  cbn [i_backup_path i_original_path] in Hback, Hrm. rewrite Hfs in Hback.
  destruct (OsFacts.copy2_read_source _ _ _ _ Hcopy) as [c Hc].
  assert (Os.read_file (w_fs res.2) backup = Ok c) as Hsaved.
  { rewrite <- Hc, <- (OsFacts.copy2_then_write _ _ _ _ _ _ Hcopy Hwrite).
    unfold Os.copy_target. by rewrite Hnotdir. }
  assert (Os.copy_target (w_fs res.2) backup path = path) as Htarget.
  { unfold Os.copy_target.
    rewrite (OsMoreFacts.isdir_tree f1 (w_fs res.2))
      by (by eapply OsFacts.write_file_tree).
    by rewrite (OsMoreFacts.write_file_not_dir _ _ _ _ Hwrite). }
  destruct (OsFacts.copy2_then_remove _ _ _ _ _ Hback Hrm) as [Hrestored Hgone].
  rewrite Htarget, Hsaved in Hrestored.
  split; [by exists c | done].
Qed.

Lemma process_then_restore_witness :
  let res := process_image Sample.quiet "/a/photo.png" 100 100 (Some false) Sample.single in
  let st' := restore_body Sample.quiet (res.2, MkRestoreLocals 0 [])
               (MkRestoreItem "/a/photo.png.backup_20261104120000" "/a/photo.png") in
  Os.read_file (w_fs st'.1) "/a/photo.png" = Ok Sample.png.
Proof.
  intros res st'.
  destruct (process_then_restore Sample.quiet "/a/photo.png" 100 100 (Some false)
              Sample.single (res.2, MkRestoreLocals 0 []))
    as [(c & Hc & Hr) _];
    [by vm_compute | by vm_compute | by vm_compute | by vm_compute | by vm_compute |].
  transitivity (@Ok content c); [exact Hr | rewrite <- Hc; by vm_compute].
Defined.

(** X2. Restoring from a backup path that cannot be read as a file (it
    does not exist, or it is a directory) changes no file, deletes
    nothing, does not count the item, and logs one error line for it. *)
Theorem restore_missing_backup (E : env) (st : world * restore_locals)
    (item : restore_item) (e0 : string) :
  Os.read_file (w_fs st.1) (i_backup_path item) = Raise e0 →
  let st' := restore_body E st item in
  ∃ e,
    w_fs st'.1 = w_fs st.1
    ∧ w_trace st'.1
      = w_trace st.1
        ++ [MkEvent (SysCopy (i_backup_path item) (i_original_path item)) (Some e)]
    ∧ restored_count st'.2 = restored_count st.2
    ∧ logs st'.2
      = logs st.2 ++ ["Error restoring " +:+ i_backup_path item +:+ ": " +:+ e].
Proof.
  intros Hr st'. subst st'.
  destruct (OsMoreFacts.copy2_unreadable _ _ (i_original_path item) _ Hr) as [e1 Hc].
  by apply (restore_body_failed_copy E st item e1).
Qed.

Lemma restore_missing_backup_witness :
  ∃ e,
    logs (restore_body Sample.quiet (Sample.backed_up, MkRestoreLocals 0 [])
            (MkRestoreItem "/b/missing" "/b/photo.png")).2
    = ["Error restoring /b/missing: " +:+ e]
    ∧ w_fs (restore_body Sample.quiet (Sample.backed_up, MkRestoreLocals 0 [])
              (MkRestoreItem "/b/missing" "/b/photo.png")).1
      = w_fs Sample.backed_up.
Proof.
  destruct (restore_missing_backup Sample.quiet (Sample.backed_up, MkRestoreLocals 0 [])
              (MkRestoreItem "/b/missing" "/b/photo.png")
              (Os.enoent "/b/missing") eq_refl) as (e & Hfs & _ & _ & Hl).
  exists e. split; [exact Hl | exact Hfs].
Defined.

(** X3. An item whose backup path and original path are the same
    string is never restored: the copy of a file onto itself is refused,
    so the file is not deleted and nothing changes. *)
Theorem restore_onto_itself (E : env) (st : world * restore_locals) (path : string) :
  let st' := restore_body E st (MkRestoreItem path path) in
  ∃ e,
    w_fs st'.1 = w_fs st.1
    ∧ w_trace st'.1 = w_trace st.1 ++ [MkEvent (SysCopy path path) (Some e)]
    ∧ restored_count st'.2 = restored_count st.2
    ∧ logs st'.2 = logs st.2 ++ ["Error restoring " +:+ path +:+ ": " +:+ e].
Proof.
  intros st'. subst st'.
  destruct (OsMoreFacts.copy2_onto_itself (w_fs st.1) path) as [e1 Hc].
  by apply (restore_body_failed_copy E st (MkRestoreItem path path) e1).
Qed.

(** X4. Restoring the same item a second time, after it was restored
    and with the file system as the first restore left it, fails: the
    backup is gone, so the item is not counted again and no file
    changes. *)
Theorem restore_twice (E : env) (st st2 : world * restore_locals) (item : restore_item) :
  let st1 := restore_body E st item in
  restored_count st1.2 = S (restored_count st.2) →
  w_fs st2.1 = w_fs st1.1 →
  let st3 := restore_body E st2 item in
  w_fs st3.1 = w_fs st2.1
  ∧ restored_count st3.2 = restored_count st2.2
  ∧ ∃ e, logs st3.2
         = logs st2.2 ++ ["Error restoring " +:+ i_backup_path item +:+ ": " +:+ e].
Proof.
  intros st1 Hcount Hfs st3. subst st1 st3.
  destruct (restore_body_counted E st item Hcount) as (f1 & Hcopy & Hrm).
  destruct (OsFacts.copy2_then_remove _ _ _ _ _ Hcopy Hrm) as [_ Hgone].
  rewrite <- Hfs in Hgone.
  destruct (OsMoreFacts.copy2_unreadable _ _ (i_original_path item) _ Hgone) as [e1 Hc].
  destruct (restore_body_failed_copy E st2 item e1 Hc) as (e & H1 & _ & H2 & H3).
  split_and!; [done | done | by exists e].
Qed.

Lemma restore_twice_witness :
  rr_restored (restore_files Sample.quiet
                 [MkRestoreItem "/b/photo.png.backup_20250101000000" "/b/photo.png";
                  MkRestoreItem "/b/photo.png.backup_20250101000000" "/b/photo.png"]
                 Sample.backed_up).1 = 1.
Proof.
  pose (item := MkRestoreItem "/b/photo.png.backup_20250101000000" "/b/photo.png").
  pose (st := (Sample.backed_up, MkRestoreLocals 0 [])).
  destruct (restore_twice Sample.quiet st (restore_body Sample.quiet st item) item)
    as (_ & Hc & _); [by vm_compute | done |].
  unfold restore_files. cbn [fold_left]. fold item st.
  destruct (restore_body Sample.quiet (restore_body Sample.quiet st item) item)
    as [w3 l3] eqn:H3. cbn [fst snd rr_restored] in *. rewrite Hc. by vm_compute.
Defined.

(** ** What processing and restoring leave alone *)

Section FrameFacts.
Variable E : env.
Import Os OsFacts OsMoreFacts.

Lemma sys_fs_cases (c : syscall) (op : fs → result fs) (w : world) :
  w_fs (sys E c op w).2 = w_fs w ∨ op (w_fs w) = Ok (w_fs (sys E c op w).2).
Proof.
  unfold sys. destruct (fault E _ c); [by left |].
  destruct (op (w_fs w)); [by right | by left].
Qed.

Lemma sys_copy2_frame (src dst : string) (w : world) (s : string) :
  PyPath.file_loc (tree (w_fs w)) s
  ≠ PyPath.file_loc (tree (w_fs w)) (copy_target (w_fs w) src dst) →
  read_file (w_fs (sys_copy2 E src dst w).2) s = read_file (w_fs w) s.
Proof.
  intros Hne. destruct (sys_copy2_fs_cases E src dst w) as [-> | [Hc | [k ->]]].
  - done.
  - by eapply copy2_frame.
  - by apply copy2_cut_frame.
Qed.

Lemma sys_transform_frame (path : string) (wd ht : Z) (w : world) (s : string) :
  PyPath.file_loc (tree (w_fs w)) s ≠ PyPath.file_loc (tree (w_fs w)) path →
  read_file (w_fs (sys_transform E path wd ht w).2) s = read_file (w_fs w) s.
Proof.
  intros Hne. destruct (sys_transform_fs E path wd ht w) as [-> | [bytes Hw]]; [done |].
  by eapply write_file_frame.
Qed.

Lemma scan_calls_guarded_app (prev : option event) (a b : list event) :
  scan_calls_guarded prev a = true →
  (∀ q, scan_calls_guarded q b = true) →
  scan_calls_guarded prev (a ++ b) = true.
Proof.
  revert prev. induction a as [|e a IH]; intros prev Ha Hb; [apply Hb |].
  cbn [app scan_calls_guarded] in *. apply andb_true_iff in Ha as [He Ha].
  rewrite He. by apply IH.
Qed.

(** The system calls of one [process_image]: none, a failed copy, or a
    successful copy followed by the transform. *)
Lemma process_image_calls (path : string) (wd ht : Z) (dry : option bool) (w : world) :
  ∃ block, w_trace (process_image E path wd ht dry w).2 = w_trace w ++ block
           ∧ ∀ prev, scan_calls_guarded prev block = true.
Proof.
  destruct (truthy_flag dry) eqn:Hdry.
  - destruct (process_image_dry E path wd ht dry w Hdry) as [msg ->].
    exists []. by rewrite app_nil_r.
  - rewrite process_image_real by done. cbn zeta.
    set (backup := BackupNamer.name_for _ _).
    pose proof (sys_copy2_trace E path backup (now E w).2) as Hc.
    destruct (sys_copy2 E _ _ (now E w).2) as [[u|e] w1]; cbn [fst snd result_error] in *.
    + pose proof (sys_transform_trace E path wd ht w1) as Ht.
      exists [MkEvent (SysCopy path backup) None;
              MkEvent (SysTransform path wd ht)
                (result_error (sys_transform E path wd ht w1).1)].
      destruct (sys_transform E path wd ht w1) as [[u'|e'] w2];
        cbn [fst snd result_error] in *; rewrite Ht, Hc, <- app_assoc;
        (split; [done |]); intros prev; cbn [scan_calls_guarded ev_call andb];
        by rewrite bool_decide_eq_true_2.
    + exists [MkEvent (SysCopy path backup) (Some e)]. by rewrite Hc.
Qed.

Lemma scan_body_calls (target : string) (wd ht : Z) (dry : option bool)
    (root : string) (dirs files : list string) (st : world * scan_locals) :
  ∃ block,
    w_trace (scan_body E target wd ht dry root dirs files st).1 = w_trace st.1 ++ block
    ∧ ∀ prev, scan_calls_guarded prev block = true.
Proof.
  destruct (name_in target files) eqn:Hin;
    [| rewrite scan_body_no_match by done; exists []; by rewrite app_nil_r].
  destruct (has_backup target files) eqn:Hb.
  - rewrite scan_body_skip by done. exists []. by rewrite app_nil_r.
  - rewrite scan_body_process by done. cbn [fst].
    apply (process_image_calls (PyPath.join root target) wd ht dry st.1).
Qed.

End FrameFacts.

(** X5. [process_image] touches at most two files, whatever its
    outcome: the file it is given and the place its backup copy goes.
    Every other file reads the same before and after. *)
Theorem process_image_frame (E : env) (path : string) (wd ht : Z) (dry : option bool)
    (w : world) (s : string) :
  let backup := BackupNamer.name_for path (Clock.strftime (clock E (w_tick w))) in
  let res := process_image E path wd ht dry w in
  PyPath.file_loc (tree (w_fs w)) s ≠ PyPath.file_loc (tree (w_fs w)) path →
  PyPath.file_loc (tree (w_fs w)) s
  ≠ PyPath.file_loc (tree (w_fs w)) (Os.copy_target (w_fs w) path backup) →
  Os.read_file (w_fs res.2) s = Os.read_file (w_fs w) s.
Proof.
  intros backup res Hpath Hback. subst res.
  destruct (truthy_flag dry) eqn:Hdry.
  - by destruct (process_image_dry E path wd ht dry w Hdry) as [msg ->].
  - rewrite process_image_real by done. cbn zeta. fold backup.
    pose proof (sys_copy2_frame E path backup (now E w).2 s Hback) as H1.
    pose proof (sys_copy2_tree E path backup (now E w).2) as Htree.
    destruct (sys_copy2 E _ _ (now E w).2) as [r w1]; cbn [fst snd] in *.
    destruct r as [u|e]; [| done].
    pose proof (sys_transform_frame E path wd ht w1 s) as Ht.
    rewrite Htree in Ht.
    destruct (sys_transform E path wd ht w1) as [[u'|e'] w2]; cbn [fst snd] in *;
      by rewrite Ht.
Qed.

Lemma process_image_frame_witness :
  Os.read_file
    (w_fs (process_image Sample.quiet "/b/photo.png" 100 100 (Some false)
             Sample.backed_up).2) "/b/readme.txt"
  = Ok Sample.text.
Proof.
  rewrite (process_image_frame Sample.quiet "/b/photo.png" 100 100 (Some false)
             Sample.backed_up "/b/readme.txt"); by vm_compute.
Defined.

(** X6. A scan never deletes a file, and attempts a transform only
    directly after a successful backup copy of the same file: this holds
    of the system calls of the whole request, whatever it answers. *)
Theorem scan_backs_up_before_it_transforms (E : env) (fuel : nat)
    (data : scan_request) (w w' : world) (resp : scan_response) :
  scan_and_resize E fuel data w = Some (resp, w') →
  ∃ evs, w_trace w' = w_trace w ++ evs
         ∧ ∀ prev, scan_calls_guarded prev evs = true.
Proof.
  unfold scan_and_resize.
  assert (∃ evs, w_trace w = w_trace w ++ evs
                 ∧ ∀ prev, scan_calls_guarded prev evs = true) as Hnil.
  { exists []. by rewrite app_nil_r. }
  destruct (get (q_folder_path data)) as [folder|]; [| by intros [= <- <-]].
  destruct (get (q_image_name data)) as [target|]; [| by intros [= <- <-]].
  destruct (get (q_width data)) as [wd|]; [| by intros [= <- <-]].
  destruct (get (q_height data)) as [ht|]; [| by intros [= <- <-]].
  destruct (negb (_ && _ && _ && _)); [by intros [= <- <-] |].
  destruct (negb (Os.isdir _ _)); [by intros [= <- <-] |].
  destruct (for_os_walk _ _ _ _) as [[w1 l]|] eqn:Hloop; [| done].
  intros [= <- <-].
  eapply (for_os_walk_inv
            (fun s => ∃ evs, w_trace s.1 = w_trace w ++ evs
                             ∧ ∀ prev, scan_calls_guarded prev evs = true)) in Hloop;
    [exact Hloop | | exact Hnil].
  intros top dirs files s (evs & Ht & Hg).
  destruct (scan_body_calls E target wd ht (get_default (q_dry_run data) false)
              top dirs files s) as (block & Hb & Hgb).
  exists (evs ++ block). rewrite Hb, Ht, <- app_assoc. split; [done |].
  intros prev. by apply scan_calls_guarded_app.
Qed.

Lemma scan_backs_up_before_it_transforms_witness :
  ∃ evs, w_trace (default (ScanError 0 "", Sample.fresh)
                    (scan_and_resize Sample.quiet 3 (Sample.request (Val false))
                       Sample.fresh)).2 = evs
         ∧ length evs = 4 ∧ scan_calls_guarded None evs = true.
Proof.
  destruct (scan_and_resize Sample.quiet 3 (Sample.request (Val false)) Sample.fresh)
    as [[resp w']|] eqn:Hscan; [| by vm_compute in Hscan].
  destruct (scan_backs_up_before_it_transforms _ _ _ _ _ _ Hscan) as (evs & Ht & Hg).
  exists evs. cbn [default snd]. split_and!; [done | | done].
  apply (f_equal (fun o => match o with
                           | Some (_, w) => length (w_trace w)
                           | None => 0
                           end)) in Hscan.
  cbv beta iota in Hscan. rewrite Ht in Hscan. vm_compute in Hscan.
  exact (eq_sym Hscan).
Defined.

(** ** Reports of a scan *)

Section ReportFacts.
Variable E : env.

Lemma scan_body_dry_lines (target : string) (wd ht : Z) (dry : option bool)
    (root : string) (dirs files : list string) (st : world * scan_locals) :
  truthy_flag dry = true →
  Forall (fun line => PyStr.startswith "[FAIL] " line = false) (details st.2)
  ∧ length (found_files st.2) = processed_count st.2 + skipped_lines (details st.2) →
  let st' := scan_body E target wd ht dry root dirs files st in
  Forall (fun line => PyStr.startswith "[FAIL] " line = false) (details st'.2)
  ∧ length (found_files st'.2) = processed_count st'.2 + skipped_lines (details st'.2).
Proof.
  intros Hdry [Hnf Hacc] st'. subst st'.
  destruct (name_in target files) eqn:Hin; [| by rewrite scan_body_no_match].
  destruct (has_backup target files) eqn:Hb.
  - rewrite scan_body_skip by done. cbn [snd details found_files processed_count].
    rewrite Forall_app, Forall_singleton, length_app, skipped_lines_snoc.
    change (PyStr.startswith "[SKIPPED] " (skipped_line _)) with true.
    cbn [length]. split_and!; [done | reflexivity | lia].
  - rewrite scan_body_process by done.
    destruct (process_image_dry E (PyPath.join root target) wd ht dry st.1 Hdry)
      as [msg ->].
    cbn [fst snd details found_files processed_count].
    rewrite Forall_app, Forall_singleton, length_app, skipped_lines_snoc.
    change (PyStr.startswith "[SKIPPED] " (outcome_line _ (true, msg))) with false.
    cbn [length]. split_and!; [done | reflexivity | lia].
Qed.

End ReportFacts.

(** X7. A dry run never reports a failure: every line of its report is
    an OK line or a SKIPPED line, and the files found are the processed
    ones plus the skipped ones.  (It reports OK even for a file whose
    real backup or transform would fail.) *)
Theorem dry_run_reports_no_failure (E : env) (fuel : nat) (data : scan_request)
    (w w' : world) (r : scan_report) :
  truthy_flag (get_default (q_dry_run data) false) = true →
  scan_and_resize E fuel data w = Some (ScanCompleted r, w') →
  Forall (fun line => PyStr.startswith "[FAIL] " line = false) (r_logs r)
  ∧ r_files_found r = r_processed r + skipped_lines (r_logs r).
Proof.
  intros Hdry Hscan.
  apply scan_and_resize_completed in Hscan
    as (folder & target & wd & ht & st & Hloop & -> & ->).
  cbn zeta in Hloop. cbn [report_of r_files_found r_logs r_processed].
  eapply (for_os_walk_inv
            (fun s => Forall (fun line => PyStr.startswith "[FAIL] " line = false)
                        (details s.2)
                      ∧ length (found_files s.2)
                        = processed_count s.2 + skipped_lines (details s.2)))
    in Hloop; [exact Hloop | | by split].
  intros top dirs files s Hs. by apply scan_body_dry_lines.
Qed.

Lemma dry_run_reports_no_failure_witness :
  ∃ r w',
    scan_and_resize Sample.quiet 3 (Sample.request (Val true)) Sample.not_an_image
    = Some (ScanCompleted r, w')
    ∧ r_files_found r = r_processed r + skipped_lines (r_logs r)
    ∧ r_processed r = 1.
Proof.
  destruct (scan_and_resize Sample.quiet 3 (Sample.request (Val true))
              Sample.not_an_image) as [[[code msg|r] w']|] eqn:Hscan;
    [by vm_compute in Hscan | | by vm_compute in Hscan].
  exists r, w'.
  destruct (dry_run_reports_no_failure Sample.quiet 3 (Sample.request (Val true))
              Sample.not_an_image w' r eq_refl Hscan) as [_ Hacc].
  split_and!; [done | done |].
  apply (f_equal (fun o => match o with
                           | Some (ScanCompleted r, _) => r_processed r
                           | _ => 0
                           end)) in Hscan.
  vm_compute in Hscan. exact (eq_sym Hscan).
Defined.

(** X8. A required field that is present but empty or zero is treated
    as missing: an empty folder path, an empty image name, a width of 0
    or a height of 0 gives the error 400 "Missing required fields", and
    nothing is scanned. *)
Theorem empty_or_zero_field_is_missing (E : env) (fuel : nat) (data : scan_request)
    (w : world) :
  q_folder_path data = Val "" ∨ q_image_name data = Val ""
  ∨ q_width data = Val 0%Z ∨ q_height data = Val 0%Z →
  scan_and_resize E fuel data w = Some (ScanError 400 "Missing required fields", w).
Proof.
  intros H. unfold scan_and_resize.
  destruct (get (q_folder_path data)) as [folder|] eqn:Hf; [| done].
  destruct (get (q_image_name data)) as [target|] eqn:Ht; [| done].
  destruct (get (q_width data)) as [wd|] eqn:Hw; [| done].
  destruct (get (q_height data)) as [ht|] eqn:Hh; [| done].
  assert (truthy_str (Some folder) && truthy_str (Some target)
          && truthy_int (Some wd) && truthy_int (Some ht) = false) as ->; [| done].
  destruct H as [H|[H|[H|H]]]; rewrite H in *; cbn [get] in *;
    simplify_eq; cbn [truthy_str truthy_int]; rewrite ?bool_decide_eq_true_2 by done;
    cbn; by rewrite ?andb_false_r.
Qed.

Lemma empty_or_zero_field_is_missing_witness :
  scan_and_resize Sample.quiet 3
    (MkScanRequest (Val "/") (Val "photo.png") (Val 0%Z) (Val 100%Z) (Val false))
    Sample.fresh
  = Some (ScanError 400 "Missing required fields", Sample.fresh).
Proof.
  apply (empty_or_zero_field_is_missing Sample.quiet 3 _ Sample.fresh).
  right. right. left. reflexivity.
Defined.

(** ** The catalogue *)

Section CatalogFacts.

Lemma startswith_contains (p s : string) :
  PyStr.startswith p s = true → PyStr.contains p s = true.
Proof. intros H. destruct s; cbn [PyStr.contains]; by rewrite H. Qed.

Lemma contains_app_l (sep a b : string) :
  PyStr.contains sep b = true → PyStr.contains sep (a +:+ b) = true.
Proof.
  intros Hb. induction a as [|c a IH]; [done |].
  rewrite PyStrFacts.app_cons. cbn [PyStr.contains]. rewrite IH. apply orb_true_r.
Qed.

(** The prefix test of the scan implies the substring test of the
    catalogue. *)
Lemma is_backup_of_name (file target : string) :
  BackupNamer.is_backup_of file target = true →
  BackupNamer.is_backup_name file = true.
Proof.
  unfold BackupNamer.is_backup_of, BackupNamer.backup_prefix, BackupNamer.is_backup_name.
  intros (r & ->)%PyStrFacts.startswith_inv.
  rewrite PyStrFacts.app_assoc. apply contains_app_l, startswith_contains.
  apply PyStrFacts.startswith_app.
Qed.

Lemma scan_backups_spec (fuel : nat) (folder : string) (w : world) :
  wf_skel (tree (w_fs w)) = true →
  Os.isdir (w_fs w) folder = true →
  walk_cost (w_fs w) folder ≤ fuel →
  scan_backups fuel (Val folder) w
  = Some (BackupsFound (find_backups_spec (w_fs w) folder), w).
Proof.
  intros Hwf Hdir Hfuel. unfold scan_backups. cbn [get]. rewrite Hdir. cbn [negb].
  rewrite (WalkFacts.for_os_walk_dirs catalog_body) by done.
  cbn [fst]. by rewrite (catalog_fold_spec (w_fs w)).
Qed.

Lemma find_backups_spec_elem (f : fs) (folder : string) (d : string * list string)
    (file : string) :
  d ∈ walk_dirs f folder →
  file ∈ files_of f d.1 →
  BackupNamer.is_backup_name file = true →
  MkBackupRecord (PyPath.join d.1 file)
    (PyPath.join d.1 (BackupNamer.original_from file)) file
  ∈ find_backups_spec f folder.
Proof.
  intros Hd Hfile Hmark. unfold find_backups_spec.
  apply list_elem_of_In, in_flat_map. exists d. split; [by apply list_elem_of_In |].
  apply in_map_iff. exists file. split; [done |].
  apply filter_In. split; [by apply list_elem_of_In | done].
Qed.

End CatalogFacts.

(** X9. [scan_backups] only reads: whatever it answers, and whatever
    the fuel, the world after it is the world before it. *)
Theorem scan_backups_reads_only (fuel : nat) (folder_path : jfield string)
    (w w' : world) (resp : backups_response) :
  scan_backups fuel folder_path w = Some (resp, w') → w' = w.
Proof.
  unfold scan_backups. destruct (get folder_path) as [folder|]; [| by intros [= _ <-]].
  destruct (negb (Os.isdir _ _)); [by intros [= _ <-] |].
  destruct (for_os_walk _ _ _ _) as [[w1 bs]|] eqn:Hloop; [| done].
  intros [= _ <-].
  eapply (for_os_walk_inv (fun s => s.1 = w)) in Hloop; [exact Hloop | | done].
  by intros top dirs files [w2 acc].
Qed.

Lemma scan_backups_reads_only_witness :
  (default (BackupsCrash, Sample.fresh) (scan_backups 3 (Val "/") Sample.backed_up)).2
  = Sample.backed_up.
Proof.
  destruct (scan_backups 3 (Val "/") Sample.backed_up) as [[resp w']|] eqn:H;
    [| by vm_compute in H].
  exact (scan_backups_reads_only _ _ _ _ _ H).
Defined.

(** X10. Every backup that makes the scan skip a file is in the
    catalogue: if some file of a directory of the walk starts with the
    target name followed by [".backup_"], then [scan_backups] on the
    same tree returns a record for a file of that directory whose name
    starts so. *)
Theorem skipping_backup_is_catalogued (fuel : nat) (folder target : string) (w : world)
    (d : string * list string) :
  wf_skel (tree (w_fs w)) = true →
  Os.isdir (w_fs w) folder = true →
  walk_cost (w_fs w) folder ≤ fuel →
  d ∈ walk_dirs (w_fs w) folder →
  has_backup target (files_of (w_fs w) d.1) = true →
  ∃ bs r,
    scan_backups fuel (Val folder) w = Some (BackupsFound bs, w)
    ∧ r ∈ bs
    ∧ BackupNamer.is_backup_of (filename r) target = true
    ∧ backup_path r = PyPath.join d.1 (filename r).
Proof.
  intros Hwf Hdir Hfuel Hd Hb.
  unfold has_backup in Hb. apply existsb_exists in Hb as (file & Hfile & Hpre).
  apply list_elem_of_In in Hfile.
  exists (find_backups_spec (w_fs w) folder),
    (MkBackupRecord (PyPath.join d.1 file)
       (PyPath.join d.1 (BackupNamer.original_from file)) file).
  split_and!; [by apply scan_backups_spec | | done | done].
  apply find_backups_spec_elem; [done | done |]. by eapply is_backup_of_name.
Qed.

Lemma skipping_backup_is_catalogued_witness :
  ∃ bs r,
    scan_backups 3 (Val "/") Sample.backed_up = Some (BackupsFound bs, Sample.backed_up)
    ∧ r ∈ bs
    ∧ BackupNamer.is_backup_of (filename r) "photo.png" = true
    ∧ backup_path r = PyPath.join "/b" (filename r).
Proof.
  apply (skipping_backup_is_catalogued 3 "/" "photo.png" Sample.backed_up ("/b", []));
    try (by vm_compute).
  apply list_elem_of_In. vm_compute. right. right. by left.
Defined.

(** ** From the scan to the catalogue *)

Section ScanToCatalog.
Import PyStr PyStrFacts BackupNamer.

(** What the catalogue derives from the name of a backup of [target]. *)
Lemma original_from_backup (target rest : string) :
  contains SEP target = false →
  original_from (target +:+ SEP +:+ rest) = target.
Proof.
  unfold original_from. induction target as [|c target IH]; intros Hn; [done |].
  apply contains_cons in Hn as [Hs Hc].
  rewrite app_cons. cbn [split_head].
  rewrite <- app_cons, BackupNamerFacts.sep_no_overlap by done.
  by rewrite IH.
Qed.

End ScanToCatalog.

(** X11. A backup made by the scan is catalogued with the right
    original.  When a real [process_image] of the file [target] of a
    directory of the walk succeeded, [target] being a proper name without
    [".backup_"] in it and no subdirectory of that directory having a
    name that starts with [target + ".backup_"] (the copy would go into
    such a directory and nothing would be catalogued), [scan_backups]
    on the resulting tree returns a record whose backup
    path is the path of the backup, whose file name is
    [target + ".backup_" + timestamp], and whose original path is the
    path of the processed file. *)
Theorem processed_file_is_catalogued (E : env) (fuel : nat) (folder target : string)
    (wd ht : Z) (dry : option bool) (w w2 : world) (d : string * list string) :
  wf_skel (tree (w_fs w)) = true →
  Os.isdir (w_fs w) folder = true →
  walk_cost (w_fs w) folder ≤ fuel →
  d ∈ walk_dirs (w_fs w) folder →
  valid_name target = true →
  PyStr.contains BackupNamer.SEP target = false →
  has_backup target d.2 = false →
  truthy_flag dry = false →
  let path := PyPath.join d.1 target in
  let ts := Clock.strftime (clock E (w_tick w)) in
  (process_image E path wd ht dry w).1.1 = true →
  w_fs w2 = w_fs (process_image E path wd ht dry w).2 →
  ∃ bs,
    scan_backups fuel (Val folder) w2 = Some (BackupsFound bs, w2)
    ∧ MkBackupRecord (BackupNamer.name_for path ts) path
        (target +:+ BackupNamer.SEP +:+ ts) ∈ bs.
Proof.
  intros Hwf Hdir Hfuel Hd Hval Hsep Hnbd Hdry path ts Hsucc Hfs.
  destruct (WalkFacts.walk_dirs_scandir _ folder d Hwf Hd) as (p & t & Hp & Hsk & Hd2).
  rewrite Hd2 in Hnbd.
  destruct (process_image_success E path wd ht dry w Hdry Hsucc)
    as (f1 & new & Hcopy & Hwrite).
  fold ts in Hcopy. rewrite <- Hfs in Hwrite.
  destruct (OsFacts.backup_lands_in_directory (w_fs w) f1 (w_fs w2) d.1 target ts p t new
              Hp Hsk Hval (ClockFacts.strftime_no_slash _) Hnbd Hcopy Hwrite)
    as (Htree & _ & _ & Hbk).
  exists (find_backups_spec (w_fs w2) folder). split.
  - apply scan_backups_spec.
    + by rewrite Htree.
    + by rewrite (OsMoreFacts.isdir_tree (w_fs w) (w_fs w2)).
    + unfold walk_cost. by rewrite (WalkFacts.walk_dirs_tree (w_fs w) (w_fs w2)).
  - set (bname := target +:+ BackupNamer.SEP +:+ ts) in *.
    assert (BackupNamer.name_for path ts = PyPath.join d.1 bname) as ->.
    { unfold BackupNamer.name_for, path, bname. rewrite PyPathFacts.join_app; [done |].
      by apply PyPathFacts.valid_name_inv in Hval as [? _]. }
    assert (path = PyPath.join d.1 (BackupNamer.original_from bname)) as ->.
    { unfold path, bname. by rewrite original_from_backup. }
    apply find_backups_spec_elem.
    + by rewrite (WalkFacts.walk_dirs_tree (w_fs w) (w_fs w2)).
    + rewrite (OsFacts.files_of_dir _ _ p t) by (by rewrite Htree). exact Hbk.
    + eapply is_backup_of_name. apply ClockFacts.backup_is_backup_of.
Qed.

Lemma processed_file_is_catalogued_witness :
  ∃ bs,
    scan_backups 3 (Val "/")
      (process_image Sample.quiet "/a/photo.png" 100 100 (Some false) Sample.single).2
    = Some (BackupsFound bs,
            (process_image Sample.quiet "/a/photo.png" 100 100 (Some false)
               Sample.single).2)
    ∧ MkBackupRecord "/a/photo.png.backup_20261104120000" "/a/photo.png"
        "photo.png.backup_20261104120000" ∈ bs.
Proof.
  apply (processed_file_is_catalogued Sample.quiet 3 "/" "photo.png" 100 100 (Some false)
           Sample.single _ ("/a", [])); try (by vm_compute).
  apply list_elem_of_In. vm_compute. right. by left.
Defined.

(** ** The folder picker *)

Module BrowseFacts.
Import PyStr PyPath PyStrFacts PyPathFacts Browse.

Lemma head_of_plain (n : string) : has_char slash n = false → head_of n = "".
Proof. intros Hn. destruct n as [|c n]; [done |]. cbn [head_of]. by rewrite Hn. Qed.

Lemma head_of_app (x n : string) :
  has_char slash n = false →
  head_of (x +:+ String slash n) = x +:+ "/".
Proof.
  intros Hn. induction x as [|c x IH].
  - rewrite !app_nil_l. cbn [head_of has_char]. rewrite Ascii.eqb_refl. cbn [orb].
    by rewrite head_of_plain.
  - assert (has_char slash (x +:+ String slash n) = true) as Hx.
    { rewrite has_char_app. cbn [has_char]. by rewrite Ascii.eqb_refl, orb_true_r. }
    rewrite !app_cons. cbn [head_of has_char]. rewrite Hx, orb_true_r. by rewrite IH.
Qed.

Lemma rstrip_empty (s : string) : rstrip_slash s = "" ↔ all_slashes s = true.
Proof.
  induction s as [|c s IH]; [done |]. cbn [rstrip_slash all_slashes].
  destruct (Ascii.eqb c slash); cbn [andb]; [| done].
  case_bool_decide as Hr.
  - split; [intros _; by apply IH | done].
  - split; [done |]. intros Hs. by apply IH in Hs.
Qed.

Lemma split_all_slashes (s : string) :
  all_slashes s = true → ∃ k, split_slash s = replicate (S k) "".
Proof.
  induction s as [|c s IH]; [by exists 0 |]. cbn [all_slashes split_slash].
  intros [Hc Hs]%andb_true_iff. rewrite Hc.
  destruct (IH Hs) as [k ->]. by exists (S k).
Qed.

(** Stripping trailing slashes drops empty components at the end. *)
Lemma split_rstrip (s : string) :
  all_slashes s = false →
  ∃ k, split_slash s = split_slash (rstrip_slash s) ++ replicate k "".
Proof.
  induction s as [|c s IH]; [done |]. cbn [all_slashes rstrip_slash split_slash].
  destruct (all_slashes s) eqn:Hs.
  - rewrite andb_true_r. intros Hc. rewrite Hc. cbn [andb].
    destruct (split_all_slashes s Hs) as [k ->]. cbn [replicate].
    cbn [split_slash]. rewrite Hc.
    assert (rstrip_slash s = "") as -> by (by apply rstrip_empty).
    exists k. done.
  - intros _. destruct (IH eq_refl) as [k Hk].
    assert (rstrip_slash s ≠ "") as Hne.
    { intros Hr%rstrip_empty. congruence. }
    rewrite (bool_decide_eq_false_2 _ Hne), andb_false_r. cbn [split_slash].
    exists k. destruct (Ascii.eqb c slash); rewrite Hk; [done |].
    pose proof (split_slash_nonempty (rstrip_slash s)).
    by destruct (split_slash (rstrip_slash s)).
Qed.

Lemma walk_empty_components (t : skel) (k : nat) (x : option (list string)) :
  fold_left (enter t) (replicate k "") x = x.
Proof.
  induction k as [|k IH]; [done |]. cbn [replicate fold_left].
  by destruct x.
Qed.

Lemma dir_of_rstrip (t : skel) (s : string) :
  all_slashes s = false → dir_of t (rstrip_slash s) = dir_of t s.
Proof.
  intros Hs. destruct (split_rstrip s Hs) as [k Hk].
  unfold dir_of, walk_path. rewrite Hk, fold_left_app, walk_empty_components.
  assert (rstrip_slash s ≠ "") as Hne by (intros Hr%rstrip_empty; congruence).
  assert (s ≠ "") as Hne' by (by intros ->).
  by rewrite !bool_decide_eq_false_2.
Qed.

Lemma dir_of_trailing_slash (t : skel) (s : string) :
  s ≠ "" → dir_of t (s +:+ "/") = dir_of t s.
Proof.
  intros Hs. unfold dir_of.
  rewrite !bool_decide_eq_false_2; [| done | by destruct s].
  change (s +:+ "/") with (s +:+ String slash ""). rewrite split_slash_app.
  change (split_slash "") with [""]. rewrite walk_path_snoc.
  by destruct (walk_path t (split_slash s)).
Qed.

Lemma dir_of_dirname (t : skel) (head : string) :
  head ≠ "" →
  dir_of t (if negb (bool_decide (head = "")) && negb (all_slashes head)
            then rstrip_slash head else head)
  = dir_of t head.
Proof.
  intros Hne. rewrite bool_decide_eq_false_2 by done. cbn [negb andb].
  destruct (all_slashes head) eqn:Hs; [done |]. by apply dir_of_rstrip.
Qed.

(** The parent of a child of a directory is that directory. *)
Lemma dirname_join (t : skel) (cur n : string) :
  cur ≠ "" →
  valid_name n = true →
  dir_of t (dirname (join cur n)) = dir_of t cur.
Proof.
  intros Hcur Hn. pose proof (valid_name_no_lead _ Hn) as Hlead.
  apply valid_name_inv in Hn as (_ & _ & _ & Hs).
  unfold dirname, join. rewrite Hlead, (bool_decide_eq_false_2 (cur = "")) by done.
  cbn [orb]. destruct (ends_with_char slash cur) eqn:He.
  - apply ends_with_char_inv in He as [s0 ->].
    rewrite app_assoc, app_cons, app_nil_l, head_of_app by done.
    apply dir_of_dirname. by destruct s0.
  - change ("/" +:+ n) with (String slash n). rewrite head_of_app by done.
    rewrite dir_of_dirname by (by destruct cur). by apply dir_of_trailing_slash.
Qed.

Lemma collect_folders_filter (f : fs) (cur : string) (items : list string) :
  collect_folders f cur items
  = List.filter (fun item => Os.isdir f (join cur item)) items.
Proof.
  unfold collect_folders.
  assert (∀ acc, fold_left (fun folders item =>
                              if Os.isdir f (join cur item) then folders ++ [item]
                              else folders) items acc
                 = acc ++ List.filter (fun item => Os.isdir f (join cur item)) items)
    as H; [| apply H].
  induction items as [|item items IH]; intros acc; cbn [fold_left List.filter].
  - by rewrite List.app_nil_r.
  - rewrite IH. destruct (Os.isdir f (join cur item)); [| done].
    by rewrite <- List.app_assoc.
Qed.

Lemma assoc_get_is_Some {A} (n : string) (l : list (string * A)) :
  n ∈ map fst l ↔ is_Some (assoc_get n l).
Proof.
  induction l as [|[m a] l IH]; cbn [map fst assoc_get].
  - split; [by intros ?%elem_of_nil | by intros [? ?]].
  - case_decide as Hn.
    + subst. split; [done | intros _; by apply elem_of_cons; left].
    + rewrite elem_of_cons. split; [intros [?|?]; [done | by apply IH] |].
      intros ?. right. by apply IH.
Qed.

(** A proper name names a subdirectory exactly when it is joined to a
    directory. *)
Lemma isdir_join (f : fs) (cur n : string) (p : list string) (t : skel) :
  dir_of (tree f) cur = Some p →
  sk_get (tree f) p = Some t →
  valid_name n = true →
  Os.isdir f (join cur n) = bool_decide (n ∈ map fst (subdirs t)).
Proof.
  intros Hp Ht Hn. unfold Os.isdir. rewrite (dir_of_join _ _ _ _ Hp Hn).
  rewrite WalkFacts.sk_get_snoc, Ht.
  apply bool_decide_ext. rewrite assoc_get_is_Some.
  destruct (assoc_get n (subdirs t)); split; intros [? ?]; done.
Qed.

Lemma filter_app_keep_drop {A} (P : A → bool) (l1 l2 : list A) :
  (∀ x, x ∈ l1 → P x = true) →
  (∀ x, x ∈ l2 → P x = false) →
  List.filter P (l1 ++ l2) = l1.
Proof.
  intros H1 H2. rewrite List.filter_app.
  assert (List.filter P l2 = []) as ->.
  { induction l2 as [|x l2 IH]; [done |]. cbn [List.filter].
    rewrite H2 by (by apply elem_of_cons; left).
    apply IH. intros y Hy. apply H2. by apply elem_of_cons; right. }
  rewrite List.app_nil_r. induction l1 as [|x l1 IH]; [done |]. cbn [List.filter].
  rewrite H1 by (by apply elem_of_cons; left). f_equal.
  apply IH. intros y Hy. apply H1. by apply elem_of_cons; right.
Qed.

End BrowseFacts.

(** X12. On a readable directory of a well-formed tree whose files
    have proper names, distinct from those of its subdirectories, the
    folder picker answers with the requested path, its parent, and
    exactly the names of its subdirectories in sorted order; no file is
    listed.  The path is the one requested, or the home directory when
    the request has none or an empty one. *)
Theorem browse_lists_subdirectories (B : Browse.browse_env) (path : jfield string)
    (f : fs) (p : list string) (dirs files : list string) :
  wf_skel (tree f) = true →
  let cur := Browse.requested_path B path in
  PyPath.dir_of (tree f) cur = Some p →
  Browse.unreadable B p = false →
  Os.scandir f cur = Some (dirs, files) →
  Forall (fun n => valid_name n = true ∧ n ∉ dirs) files →
  ∃ folders,
    Browse.browse_filesystem B path f
    = Browse.BrowseListing cur (Browse.dirname cur) folders
    ∧ Sorted String.le folders
    ∧ folders ≡ₚ dirs.
Proof.
  intros Hwf cur Hp Hread Hscan Hfiles.
  exists (merge_sort String.le dirs). split_and!.
  - unfold Browse.browse_filesystem, Browse.listdir. fold cur.
    unfold Os.isdir. rewrite Hp, Hread, Hscan.
    rewrite bool_decide_eq_true_2 by done. cbn [negb].
    rewrite BrowseFacts.collect_folders_filter. do 2 f_equal.
    unfold Os.scandir in Hscan. rewrite Hp in Hscan.
    destruct (sk_get (tree f) p) as [t|] eqn:Ht; [| done].
    injection Hscan as <- <-.
    pose proof (WalkFacts.wf_skel_get _ _ _ Hwf Ht) as Hwt.
    destruct t as [subs]. apply WalkFacts.wf_skel_inv in Hwt as (Hval & _ & _).
    rewrite Forall_forall in Hval, Hfiles. cbn [subdirs] in *.
    apply BrowseFacts.filter_app_keep_drop.
    + intros n Hn. rewrite (BrowseFacts.isdir_join f cur n p (Sk subs)) by auto.
      by apply bool_decide_eq_true_2.
    + intros n Hn. destruct (Hfiles n Hn) as [Hv Hnd].
      rewrite (BrowseFacts.isdir_join f cur n p (Sk subs)) by auto.
      by apply bool_decide_eq_false_2.
  - apply Sorted_merge_sort; apply _.
  - apply merge_sort_Permutation.
Qed.

Lemma browse_lists_subdirectories_witness :
  ∃ folders,
    Browse.browse_filesystem Browse.at_root Absent (w_fs Sample.backed_up)
    = Browse.BrowseListing "/" "/" folders
    ∧ Sorted String.le folders
    ∧ folders ≡ₚ ["a"; "b"].
Proof.
  apply (browse_lists_subdirectories Browse.at_root Absent (w_fs Sample.backed_up)
           [] ["a"; "b"] []); try done; by vm_compute.
Defined.

(** X13. Every folder the picker offers can be opened, and leads back:
    browsing the path of an offered folder with a proper name is
    answered with a listing or with "Permission denied", never with
    "Invalid directory", and the parent path of that folder names the
    directory it was offered in. *)
Theorem browse_child_and_back (B : Browse.browse_env) (path : jfield string) (f : fs)
    (cur par n : string) (folders : list string) :
  Browse.browse_filesystem B path f = Browse.BrowseListing cur par folders →
  n ∈ folders →
  valid_name n = true →
  let child := PyPath.join cur n in
  ((∃ folders', Browse.browse_filesystem B (Val child) f
                = Browse.BrowseListing child (Browse.dirname child) folders')
   ∨ Browse.browse_filesystem B (Val child) f
     = Browse.BrowseError 403 "Permission denied" (Some child))
  ∧ PyPath.dir_of (tree f) (Browse.dirname child) = PyPath.dir_of (tree f) cur.
Proof.
  unfold Browse.browse_filesystem at 1.
  destruct (Os.isdir f (Browse.requested_path B path)) eqn:Hdir; cbn [negb]; [| done].
  destruct (Browse.listdir B f _) as [items| |]; [| done | done].
  intros [= <- <- <-] Hn Hval.
  set (child := PyPath.join (Browse.requested_path B path) n).
  rewrite merge_sort_Permutation, BrowseFacts.collect_folders_filter in Hn.
  apply list_elem_of_In, filter_In in Hn as [_ Hchild]. fold child in Hchild.
  assert (Browse.requested_path B path ≠ "") as Hcur.
  { intros Heq. rewrite Heq in Hdir. by vm_compute in Hdir. }
  assert (child ≠ "") as Hne.
  { apply PyPathFacts.join_nonempty. by apply PyPathFacts.valid_name_inv in Hval as [? _]. }
  split; [| by apply BrowseFacts.dirname_join].
  unfold Browse.browse_filesystem, Browse.requested_path, Browse.listdir.
  cbn [get truthy_str]. rewrite (bool_decide_eq_false_2 _ Hne). cbn [negb].
  rewrite Hchild. cbn [negb].
  destruct (WalkFacts.isdir_resolves f child Hchild) as (t & p' & Hp' & Ht).
  rewrite Hp'. destruct (Browse.unreadable B p'); [by right |].
  unfold Os.scandir. rewrite Hp', Ht. left. by eexists.
Qed.

Lemma browse_child_and_back_witness :
  (∃ folders', Browse.browse_filesystem Browse.at_root (Val "/b") (w_fs Sample.backed_up)
               = Browse.BrowseListing "/b" "/" folders')
  ∧ PyPath.dir_of (tree (w_fs Sample.backed_up)) (Browse.dirname "/b")
    = PyPath.dir_of (tree (w_fs Sample.backed_up)) "/".
Proof.
  destruct (browse_child_and_back Browse.at_root Absent (w_fs Sample.backed_up)
              "/" "/" "b" ["a"; "b"]) as [[H | H] Hback].
  - by vm_compute.
  - apply elem_of_cons. right. by apply elem_of_cons; left.
  - by vm_compute.
  - split; [exact H | exact Hback].
  - exfalso. revert H. by vm_compute.
Defined.

(** ** More on restoring, scanning and naming *)

(** X14. Restoring an item touches at most two files, whatever its
    outcome: the backup and the place its copy goes.  Every other file
    reads the same before and after. *)
Theorem restore_body_frame (E : env) (st : world * restore_locals) (item : restore_item)
    (s : string) :
  let f := w_fs st.1 in
  PyPath.file_loc (tree f) s ≠ PyPath.file_loc (tree f) (i_backup_path item) →
  PyPath.file_loc (tree f) s
  ≠ PyPath.file_loc (tree f)
      (Os.copy_target f (i_backup_path item) (i_original_path item)) →
  Os.read_file (w_fs (restore_body E st item).1) s = Os.read_file f s.
Proof.
  destruct st as [w l]. cbn [fst]. intros Hback Htarget.
  unfold restore_body, sys_remove.
  set (backup := i_backup_path item) in *. set (original := i_original_path item) in *.
  pose proof (sys_copy2_frame E backup original w s Htarget) as H1.
  pose proof (sys_copy2_tree E backup original w) as Htree.
  destruct (sys_copy2 E backup original w) as [r w1]; cbn [fst snd] in *.
  destruct r as [u|e]; [| done].
  pose proof (sys_fs_cases E (SysRemove backup) (fun f => Os.remove_file f backup) w1)
    as Hr.
  destruct (sys E (SysRemove backup) _ w1) as [r' w2]; cbn [fst snd] in *.
  assert (Os.read_file (w_fs w2) s = Os.read_file (w_fs w) s) as H2.
  { rewrite <- H1. destruct Hr as [-> | Hr]; [done |].
    eapply OsMoreFacts.remove_file_frame; [done |]. by rewrite Htree. }
  by destruct r'.
Qed.

Lemma restore_body_frame_witness :
  Os.read_file
    (w_fs (restore_body Sample.quiet (Sample.backed_up, MkRestoreLocals 0 [])
             (MkRestoreItem "/b/photo.png.backup_20250101000000" "/b/photo.png")).1)
    "/b/readme.txt"
  = Ok Sample.text.
Proof.
  rewrite (restore_body_frame Sample.quiet (Sample.backed_up, MkRestoreLocals 0 [])
             (MkRestoreItem "/b/photo.png.backup_20250101000000" "/b/photo.png")
             "/b/readme.txt"); by vm_compute.
Defined.

(** X15. A scan of a tree in which every directory that holds the
    target also holds a backup of it (in particular a tree without the
    target) makes no system call and changes no file other than the
    service log, for either value of the dry-run flag; it reports
    nothing processed and finds as many files as there are directories
    with the target.  To the service log it appends the record of its
    start and one record for each file found. *)
Theorem scan_of_settled_tree (E : env) (fuel : nat) (data : scan_request) (w : world)
    (folder target : string) (wd ht : Z) :
  get (q_folder_path data) = Some folder →
  get (q_image_name data) = Some target →
  get (q_width data) = Some wd →
  get (q_height data) = Some ht →
  folder ≠ "" → target ≠ "" → wd ≠ 0%Z → ht ≠ 0%Z →
  Os.isdir (w_fs w) folder = true →
  wf_skel (tree (w_fs w)) = true →
  walk_cost (w_fs w) folder ≤ fuel →
  List.filter (lacks_backup (w_fs w) target) (walk_dirs (w_fs w) folder) = [] →
  ∃ r w',
    scan_and_resize E fuel data w = Some (ScanCompleted r, w')
    ∧ w_fs w' = w_fs w ∧ w_trace w' = w_trace w
    ∧ r_processed r = 0
    ∧ r_files_found r
      = length (List.filter (is_match (w_fs w) target) (walk_dirs (w_fs w) folder))
    ∧ ∃ recs, w_log w' = w_log w ++ recs ∧ length recs = S (r_files_found r).
Proof.
  intros Hf Ht Hw Hh Hf0 Ht0 Hw0 Hh0 Hdir Hwf Hfuel Hset.
  rewrite (scan_and_resize_valid E fuel data w folder target wd ht) by done.
  cbn zeta.
  rewrite (WalkFacts.for_os_walk_dirs _ (scan_body_tree E target wd ht _)) by done.
  destruct (scan_fold_settled E target wd ht (get_default (q_dry_run data) false)
              (walk_dirs (w_fs w) folder)
              (scan_start folder (get_default (q_dry_run data) false) w,
               MkScanLocals [] 0 []))
    as (Hfs & Htr & _ & Hp & Hfound & recs & Hlog & Hlen).
  { by apply filter_nil_all. }
  eexists _, _. split; [reflexivity |].
  cbn [report_of r_processed r_files_found fst snd] in *.
  change (w_fs (scan_start folder (get_default (q_dry_run data) false) w))
    with (w_fs w) in *.
  rewrite Hfs, Htr, Hp, Hfound, Hlog. split_and!; [done | done | done | done |].
  eexists (_ :: recs). unfold scan_start, logging. cbn [w_log length].
  rewrite <- app_assoc. split; [done |]. by rewrite Hlen.
Qed.

Lemma scan_of_settled_tree_witness :
  ∃ r w',
    scan_and_resize Sample.quiet 3
      (MkScanRequest (Val "/b") (Val "photo.png") (Val 100%Z) (Val 100%Z) (Val false))
      Sample.backed_up = Some (ScanCompleted r, w')
    ∧ w_fs w' = w_fs Sample.backed_up ∧ w_trace w' = []
    ∧ r_processed r = 0 ∧ r_files_found r = 1
    ∧ length (w_log w') = 2.
Proof.
  destruct (scan_of_settled_tree Sample.quiet 3
              (MkScanRequest (Val "/b") (Val "photo.png") (Val 100%Z) (Val 100%Z)
                 (Val false))
              Sample.backed_up "/b" "photo.png" 100%Z 100%Z)
    as (r & w' & Hs & Hfs & Htr & Hp & Hf & recs & Hlog & Hlen);
    [done | done | done | done | done | done | done | done | by vm_compute
    | by vm_compute | vm_compute; lia | by vm_compute |].
  assert (r_files_found r = 1) as Hone by (rewrite Hf; by vm_compute).
  exists r, w'. split_and!; [done | done | done | done | done |].
  rewrite Hlog, length_app, Hlen, Hone. by vm_compute.
Defined.

Section NamingFacts.
Import PyStr PyStrFacts BackupNamer.

Lemma startswith_length (sep n : string) :
  startswith sep n = true → String.length sep ≤ String.length n.
Proof.
  revert n. induction sep as [|a sep IH]; intros n H; cbn [String.length]; [lia |].
  destruct n as [|b n]; [done |]. cbn [startswith String.length] in *.
  destruct (Ascii.eqb a b); [| done]. apply IH in H. lia.
Qed.

Lemma contains_length (sep n : string) :
  contains sep n = true → String.length sep ≤ String.length n.
Proof.
  induction n as [|c n IH]; cbn [contains]; intros H.
  - rewrite orb_false_r in H. by apply startswith_length in H.
  - apply orb_true_iff in H as [H | H]; [by apply startswith_length in H |].
    apply IH in H. cbn [String.length]. lia.
Qed.

Lemma startswith_app_long (sep m x : string) :
  String.length sep ≤ String.length m →
  startswith sep (m +:+ x) = startswith sep m.
Proof.
  revert m. induction sep as [|a sep IH]; intros m H; [done |].
  destruct m as [|b m]; cbn [String.length] in H; [lia |].
  rewrite app_cons. cbn [startswith]. destruct (Ascii.eqb a b); [| done].
  apply IH. lia.
Qed.

Lemma split_head_app (sep n x : string) :
  contains sep n = true → split_head sep (n +:+ x) = split_head sep n.
Proof.
  induction n as [|c n IH]; intros Hc.
  - apply contains_length in Hc. destruct sep; cbn [String.length] in Hc; [| lia].
    rewrite app_nil_l. by destruct x.
  - rewrite app_cons. cbn [split_head]. rewrite <- app_cons.
    rewrite (startswith_app_long sep (String c n) x) by by apply contains_length.
    destruct (startswith sep (String c n)) eqn:Hs; [done |].
    cbn [contains] in Hc. rewrite Hs in Hc. cbn [orb] in Hc.
    by rewrite (IH Hc).
Qed.

Lemma split_head_shorter (sep n : string) :
  sep ≠ "" → contains sep n = true → split_head sep n ≠ n.
Proof.
  intros Hsep. induction n as [|c n IH].
  - cbn [contains]. rewrite orb_false_r. by destruct sep.
  - intros Hc. cbn [split_head].
    destruct (startswith sep (String c n)) eqn:Hs; [done |].
    cbn [contains] in Hc. rewrite Hs in Hc. intros [= Heq]. by apply IH.
Qed.

End NamingFacts.

(** X16. The round trip of the naming scheme holds only for names
    without the separator: for a name that contains [".backup_"], the
    original derived from its backup name is the part of the name left
    of its first [".backup_"], which is not the name. *)
Theorem naming_round_trip_needs_clean_name (n t : string) :
  PyStr.contains BackupNamer.SEP n = true →
  BackupNamer.original_from (BackupNamer.name_for n t)
  = PyStr.split_head BackupNamer.SEP n
  ∧ BackupNamer.original_from (BackupNamer.name_for n t) ≠ n.
Proof.
  intros Hc. unfold BackupNamer.original_from, BackupNamer.name_for.
  rewrite split_head_app by done. split; [done |].
  by apply split_head_shorter.
Qed.

Lemma naming_round_trip_needs_clean_name_witness :
  BackupNamer.original_from (BackupNamer.name_for "a.backup_1" "20261104120000") = "a".
Proof.
  rewrite (proj1 (naming_round_trip_needs_clean_name "a.backup_1" "20261104120000"
                    eq_refl)).
  reflexivity.
Defined.
